(** * Clinical-trials demo backends: masker (skyflow_manager.py) and stores

    A shallow embedding of
    - [src/aws/skyflow_manager.py]  (class [SkyflowManager]),
    - [src/aws/fastapi_backend.py]  (in-memory variant of the HTTP handlers),
    - [src/aws/full_test_backend.py] (cache-backed variant of the handlers),
    together with the properties of the tokenize/detokenize round trip and
    of the load / list / ask flow around it.

    Python objects are modelled as follows.  JSON documents are values of
    the inductive type [value].  The study dictionaries that the masker
    copies and assigns into are mutable objects: they live in a heap of
    dictionaries addressed by references, so that [dict.copy()] and item
    assignment are visible as heap operations.  Nested documents are never
    mutated by the code and are kept as immutable values.  Exceptions are an
    explicit outcome of every operation, threaded through a small state and
    exception monad. *)

From Stdlib Require Import String Ascii ZArith Decimal DecimalString DecimalNat List Lia.
From Stdlib Require DecimalFacts.
From stdpp Require Import gmap strings list fin_maps.

#[local] Set Warnings "-register-all".

(** ** Python values and built-in operations *)

Module Py.

(** JSON-shaped Python values.  A nested mapping keeps its items in
    insertion order, which is the order in which Python iterates its keys.
    Numbers are integers: in every branch of the modelled code a float
    behaves as an integer does (truthy unless zero, not iterable, no length).
    A string is a sequence of characters, one [ascii] per character: the
    characters are the code points 0 to 255, [ascii_of_nat n] being the
    character with code point [n]. *)
Inductive value :=
| VNone
| VBool (b : bool)
| VInt (z : Z)
| VStr (s : string)
| VList (l : list value)
| VDict (d : list (string * value)).

(** Exceptions that the modelled code can raise. *)
Inductive exn :=
| TypeError (msg : string)
| KeyError (key : string)
| AttributeError (msg : string)
| HTTPException (status_code : nat) (detail : string)
| APIError (msg : string).

(** [bool(v)]: the truth value Python gives to [v] in a condition. *)
Definition truthy (v : value) : bool :=
  match v with
  | VNone => false
  | VBool b => b
  | VInt z => negb (Z.eqb z 0)
  | VStr s => negb (String.eqb s EmptyString)
  | VList l => match l with [] => false | _ => true end
  | VDict d => match d with [] => false | _ => true end
  end.

(** The one-character strings of [s], in order: what [for c in s] yields. *)
Fixpoint chars (s : string) : list value :=
  match s with
  | EmptyString => []
  | String c s' => VStr (String c EmptyString) :: chars s'
  end.

(** [iter(v)], run to completion: the items a [for] loop over [v] visits.
    [None], booleans and integers are not iterable. *)
Definition iter (v : value) : exn + list value :=
  match v with
  | VList l => inr l
  | VStr s => inr (chars s)
  | VDict d => inr (map (fun kv => VStr kv.1) d)
  | VNone => inl (TypeError "'NoneType' object is not iterable")
  | VBool _ => inl (TypeError "'bool' object is not iterable")
  | VInt _ => inl (TypeError "'int' object is not iterable")
  end.

(** [s.startswith(p)]. *)
Definition startswith (s p : string) : bool := String.prefix p s.

(** [s.replace(old, new)] for a non-empty [old] (the only use in the
    source): occurrences are found left to right and do not overlap.
    [skip] counts the characters of a match still to be dropped. *)
Fixpoint replace_from (old new : string) (skip : nat) (s : string) : string :=
  match s with
  | EmptyString => EmptyString
  | String c s' =>
      match skip with
      | S k => replace_from old new k s'
      | O =>
          if String.prefix old s
          then new +:+ replace_from old new (String.length old - 1) s'
          else String c (replace_from old new 0 s')
      end
  end.

Definition replace (s old new : string) : string := replace_from old new 0 s.

(** [str(n)] for a natural number: its decimal digits. *)
Definition str_of_nat (n : nat) : string :=
  NilEmpty.string_of_uint (Nat.to_uint n).

(** [w] copies of the character ['0']. *)
Fixpoint zeros (w : nat) : string :=
  match w with
  | O => EmptyString
  | S w' => String "0"%char (zeros w')
  end.

(** The format specification [{n:06d}]: decimal digits, padded on the left
    with zeros up to a minimal width of six. *)
Definition format_06d (n : nat) : string :=
  let digits := str_of_nat n in
  zeros (6 - String.length digits) +:+ digits.

(** [xs[:stop]] for a Python integer [stop]; a negative [stop] counts from
    the end. *)
Definition slice_to {A} (xs : list A) (stop : Z) : list A :=
  if (0 <=? stop)%Z then firstn (Z.to_nat stop) xs
  else firstn (length xs - Z.to_nat (- stop)) xs.

(** Outcome of a computation: a returned value or a raised exception. *)
Inductive outcome (A : Type) :=
| Return (a : A)
| Raise (e : exn).
Arguments Return {A} a.
Arguments Raise {A} e.

End Py.

Import Py.

(** ** The interpreter state seen by the masker *)

(** A reference to a dictionary object. *)
Definition ref := nat.

(** A dictionary object with string keys. *)
Abbreviation dict := (gmap string value).

(** The fields of a [SkyflowManager] instance. *)
Record SkyflowManager := mkSkyflowManager {
  token_store : gmap string value;
  token_counter : nat
}.

(** The heap of dictionary objects and the single masker instance. *)
Record mem := mkMem {
  heap : gmap ref dict;
  self : SkyflowManager
}.

(** State and exception monad over [mem]. *)
Definition M (A : Type) : Type := mem -> outcome A * mem.

Definition ret {A} (a : A) : M A := fun m => (Return a, m).
Definition raise {A} (e : exn) : M A := fun m => (Raise e, m).
Definition bind {A B} (c : M A) (k : A -> M B) : M B :=
  fun m => match c m with
           | (Return a, m') => k a m'
           | (Raise e, m') => (Raise e, m')
           end.

Notation "'let*' x ':=' c 'in' k" := (bind c (fun x => k))
  (at level 10, x pattern, c at level 100, k at level 200).
Notation "'do' c 'then' k" := (bind c (fun _ => k))
  (at level 10, c at level 100, k at level 200).

(** *** Operations on dictionary objects *)

(** [d.copy()]: a new dictionary object with the items of [d]. *)
Definition dict_copy (d : ref) : M ref :=
  fun m => match heap m !! d with
           | Some items =>
               let r := fresh (dom (heap m)) in
               (Return r, mkMem (<[r := items]> (heap m)) (self m))
           | None => (Raise (KeyError "dangling reference"), m)
           end.

(** [d[k] = v]. *)
Definition setitem (d : ref) (k : string) (v : value) : M unit :=
  fun m => match heap m !! d with
           | Some items =>
               (Return tt, mkMem (<[d := <[k := v]> items]> (heap m)) (self m))
           | None => (Raise (KeyError "dangling reference"), m)
           end.

(** [d[k]]. *)
Definition getitem (d : ref) (k : string) : M value :=
  fun m => match heap m !! d with
           | Some items =>
               match items !! k with
               | Some v => (Return v, m)
               | None => (Raise (KeyError k), m)
               end
           | None => (Raise (KeyError "dangling reference"), m)
           end.

(** [k in d]. *)
Definition contains (d : ref) (k : string) : M bool :=
  fun m => match heap m !! d with
           | Some items => (Return (bool_decide (is_Some (items !! k))), m)
           | None => (Raise (KeyError "dangling reference"), m)
           end.

(** [for x in v]: the items visited, or [TypeError]. *)
Definition for_items (v : value) : M (list value) :=
  match iter v with
  | inr items => ret items
  | inl e => raise e
  end.

(** ** skyflow_manager.py *)

Module Skyflow.

(** [SkyflowManager.__init__]. *)
Definition init : SkyflowManager :=
  mkSkyflowManager ∅ 0.

(** The token string minted at counter value [n]. *)
Definition token_of (n : nat) : string := "sky_" +:+ format_06d n.

(** [_generate_token]: increment the counter, format it. *)
Definition _generate_token : M string :=
  fun m =>
    let n := S (token_counter (self m)) in
    (Return (token_of n),
     mkMem (heap m) (mkSkyflowManager (token_store (self m)) n)).

(** [self.token_store[token] = v]. *)
Definition store_token (token : string) (v : value) : M unit :=
  fun m =>
    (Return tt,
     mkMem (heap m)
           (mkSkyflowManager (<[token := v]> (token_store (self m)))
                             (token_counter (self m)))).

(** The tag written in place of a tokenized value. *)
Definition tokenized_tag (token : string) : string :=
  "[TOKENIZED:" +:+ token +:+ "]".

(** The inner loops of [tokenize_batch]: one token per item, appended to
    the list built so far. *)
Fixpoint tokenize_items (items : list value) (acc : list value) : M (list value) :=
  match items with
  | [] => ret acc
  | item :: rest =>
      let* token := _generate_token in
      do store_token token item then
      tokenize_items rest (acc ++ [VStr (tokenized_tag token)])
  end.

(** [k in d and d[k]]. *)
Definition present_and_truthy (d : ref) (k : string) : M bool :=
  let* b := contains d k in
  if b then let* v := getitem d k in ret (truthy v) else ret false.

(** The branch shared by the fields [investigators] and [sites]. *)
Definition tokenize_list_field (tokenized : ref) (k : string) : M unit :=
  let* c := present_and_truthy tokenized k in
  if c then
    let* v := getitem tokenized k in
    let* items := for_items v in
    let* tokens := tokenize_items items [] in
    setitem tokenized k (VList tokens)
  else ret tt.

(** The body of the loop of [tokenize_batch] for one study. *)
Definition tokenize_study (study : ref) : M ref :=
  let* tokenized := dict_copy study in
  do setitem tokenized "_skyflow_protected" (VBool true) then
  let* c := present_and_truthy tokenized "lead_sponsor" in
  do (if c then
     let* token := _generate_token in
     let* v := getitem tokenized "lead_sponsor" in
     do store_token token v then
     setitem tokenized "lead_sponsor" (VStr (tokenized_tag token))
   else ret tt) then
  do tokenize_list_field tokenized "investigators" then
  do tokenize_list_field tokenized "sites" then
  ret tokenized.

Fixpoint tokenize_loop (studies : list ref) (tokenized_studies : list ref) : M (list ref) :=
  match studies with
  | [] => ret tokenized_studies
  | study :: rest =>
      let* tokenized := tokenize_study study in
      tokenize_loop rest (tokenized_studies ++ [tokenized])
  end.

(** [SkyflowManager.tokenize_batch]. *)
Definition tokenize_batch (studies : list ref) : M (list ref) :=
  tokenize_loop studies [].

(** The token embedded in a tag: both [replace] calls of the source. *)
Definition extract_token (s : string) : string :=
  replace (replace s "[TOKENIZED:" EmptyString) "]" EmptyString.

(** [self.token_store.get(token, default)]. *)
Definition store_get (token : string) (default : value) : M value :=
  fun m => (Return (match token_store (self m) !! token with
                    | Some v => v
                    | None => default
                    end), m).

(** One item of a list field in [detokenize_study]. *)
Definition detokenize_item (item : value) : M value :=
  match item with
  | VStr s =>
      if startswith s "[TOKENIZED:"
      then store_get (extract_token s) item
      else ret item
  | _ => ret item
  end.

Fixpoint detokenize_items (items : list value) (acc : list value) : M (list value) :=
  match items with
  | [] => ret acc
  | item :: rest =>
      let* v := detokenize_item item in
      detokenize_items rest (acc ++ [v])
  end.

(** The branch shared by the fields [investigators] and [sites]. *)
Definition detokenize_list_field (detokenized : ref) (k : string) : M unit :=
  let* c := contains detokenized k in
  if c then
    let* v := getitem detokenized k in
    let* items := for_items v in
    let* originals := detokenize_items items [] in
    setitem detokenized k (VList originals)
  else ret tt.

(** [SkyflowManager.detokenize_study]. *)
Definition detokenize_study (study : ref) : M ref :=
  let* detokenized := dict_copy study in
  let* c := contains detokenized "lead_sponsor" in
  do (if c then
     let* sponsor := getitem detokenized "lead_sponsor" in
     match sponsor with
     | VStr s =>
         if startswith s "[TOKENIZED:"
         then let* v := store_get (extract_token s) sponsor in
              setitem detokenized "lead_sponsor" v
         else ret tt
     | _ => ret tt
     end
   else ret tt) then
  do detokenize_list_field detokenized "investigators" then
  do detokenize_list_field detokenized "sites" then
  do setitem detokenized "_skyflow_protected" (VBool false) then
  ret detokenized.

(** The numeric entries of the dictionary returned by [get_stats]. *)
Record stats := mkStats {
  total_tokens : nat;
  vault_size : nat
}.

(** [SkyflowManager.get_stats]. *)
Definition get_stats (s : SkyflowManager) : stats :=
  mkStats (token_counter s) (size (token_store s)).

End Skyflow.

(** ** Closed forms of the masker's operations

    What [tokenize_batch] and [detokenize_study] do to the dictionary they
    work on and to the masker, written without the heap.  They are proved
    equal to the operations above and carry the case analyses of the proofs. *)

Module Summary.
Import Skyflow.

(** The tags appended by [tokenize_items] when the counter stands at [c]. *)
Fixpoint tags_from (c : nat) (items : list value) : list value :=
  match items with
  | [] => []
  | _ :: rest => VStr (tokenized_tag (token_of (S c))) :: tags_from (S c) rest
  end.

(** The vault after [tokenize_items] when the counter stands at [c]. *)
Fixpoint put_all (c : nat) (items : list value) (store : gmap string value)
  : gmap string value :=
  match items with
  | [] => store
  | item :: rest => put_all (S c) rest (<[token_of (S c) := item]> store)
  end.

(** The [lead_sponsor] branch of [tokenize_batch]. *)
Definition mask_sponsor (d : dict) (s : SkyflowManager) : dict * SkyflowManager :=
  match d !! "lead_sponsor" with
  | Some v =>
      if truthy v then
        let n := S (token_counter s) in
        (<["lead_sponsor" := VStr (tokenized_tag (token_of n))]> d,
         mkSkyflowManager (<[token_of n := v]> (token_store s)) n)
      else (d, s)
  | None => (d, s)
  end.

(** The [investigators] and [sites] branches of [tokenize_batch]. *)
Definition mask_list_field (k : string) (d : dict) (s : SkyflowManager)
  : outcome unit * (dict * SkyflowManager) :=
  match d !! k with
  | Some v =>
      if truthy v then
        match iter v with
        | inr items =>
            (Return tt,
             (<[k := VList (tags_from (token_counter s) items)]> d,
              mkSkyflowManager (put_all (token_counter s) items (token_store s))
                               (token_counter s + length items)))
        | inl e => (Raise e, (d, s))
        end
      else (Return tt, (d, s))
  | None => (Return tt, (d, s))
  end.

(** One iteration of the loop of [tokenize_batch] on a copy [d]. *)
Definition mask_dict (d : dict) (s : SkyflowManager)
  : outcome unit * (dict * SkyflowManager) :=
  let d1 := <["_skyflow_protected" := VBool true]> d in
  let '(d2, s2) := mask_sponsor d1 s in
  match mask_list_field "investigators" d2 s2 with
  | (Return _, (d3, s3)) => mask_list_field "sites" d3 s3
  | failed => failed
  end.

(** One item of a list field in [detokenize_study]. *)
Definition unmask_item (store : gmap string value) (item : value) : value :=
  match item with
  | VStr s =>
      if startswith s "[TOKENIZED:"
      then default item (store !! extract_token s)
      else item
  | _ => item
  end.

(** The [lead_sponsor] branch of [detokenize_study]. *)
Definition unmask_sponsor (store : gmap string value) (d : dict) : dict :=
  match d !! "lead_sponsor" with
  | Some (VStr s) =>
      if startswith s "[TOKENIZED:"
      then <["lead_sponsor" := default (VStr s) (store !! extract_token s)]> d
      else d
  | _ => d
  end.

(** The [investigators] and [sites] branches of [detokenize_study]. *)
Definition unmask_list_field (store : gmap string value) (k : string) (d : dict)
  : outcome unit * dict :=
  match d !! k with
  | Some v =>
      match iter v with
      | inr items => (Return tt, <[k := VList (map (unmask_item store) items)]> d)
      | inl e => (Raise e, d)
      end
  | None => (Return tt, d)
  end.

(** [detokenize_study] on a copy [d]. *)
Definition unmask_dict (store : gmap string value) (d : dict) : outcome unit * dict :=
  let d1 := unmask_sponsor store d in
  match unmask_list_field store "investigators" d1 with
  | (Return _, d2) =>
      match unmask_list_field store "sites" d2 with
      | (Return _, d3) => (Return tt, <["_skyflow_protected" := VBool false]> d3)
      | failed => failed
      end
  | failed => failed
  end.

(** The reference returned by an operation that works on a fresh copy. *)
Definition on_copy (r : ref) (o : outcome unit) : outcome ref :=
  match o with
  | Return _ => Return r
  | Raise e => Raise e
  end.

End Summary.

(** ** fastapi_backend.py: the in-memory variant *)

Module FastapiBackend.

(** The dictionary stored under [DATA_STORE["metadata"]]. *)
Record metadata := mkMetadata {
  md_total_studies : nat;
  md_skyflow_protected : nat;
  md_last_updated : string;
  md_condition : string;
  md_skyflow_tokens : nat
}.

(** The module-level state: the interpreter memory with the global
    [skyflow] instance, the two entries of [DATA_STORE], and
    [claude_client], which answers a prompt or raises. *)
Record app := mkApp {
  memory : mem;
  studies : list ref;
  metadata_entry : option metadata;
  claude_client : option (string -> outcome string)
}.

(** The state at import time. *)
Definition start (h : gmap ref dict) (client : option (string -> outcome string)) : app :=
  mkApp (mkMem h Skyflow.init) [] None client.

(** The body returned by [load_data]. *)
Record load_response := mkLoadResponse {
  lr_status : string;
  lr_message : string;
  lr_studies_loaded : nat;
  lr_skyflow_protected : nat
}.

(** The body returned by [get_studies]; the dictionaries are serialized as
    they are when the handler returns. *)
Record studies_response := mkStudiesResponse {
  sr_total : nat;
  sr_returned : Z;
  sr_studies : list dict
}.

(** The body returned by [ask_claude]. *)
Record ask_response := mkAskResponse {
  ar_question : string;
  ar_answer : string;
  ar_total_studies : nat;
  ar_analyzed_studies : nat;
  ar_model : string
}.

(** The dictionaries behind a list of references. *)
Definition snapshot (m : mem) (rs : list ref) : list dict :=
  map (fun r => default ∅ (heap m !! r)) rs.

Section Handlers.

(** [str(e)] for an exception, and [json.dumps(sample, indent=2)]. *)
Variable exn_str : exn -> string.
Variable json_dumps : list dict -> string.

(** [except Exception as e: raise HTTPException(status_code=500, ...)]. *)
Definition except_exception {A} (r : outcome A * app) : outcome A * app :=
  match r with
  | (Raise e, a) => (Raise (HTTPException 500 (exn_str e)), a)
  | ok => ok
  end.

(** [except HTTPException: raise], then the clause above. *)
Definition except_http_then_exception {A} (r : outcome A * app) : outcome A * app :=
  match r with
  | (Raise (HTTPException code detail), a) => (Raise (HTTPException code detail), a)
  | other => except_exception other
  end.

(** The [try] block of [load_data]; [now] is [datetime.utcnow().isoformat()]. *)
Definition load_data_try (now condition : string) (request_studies : list ref)
    (a : app) : outcome load_response * app :=
  match request_studies with
  | [] => (Raise (HTTPException 400 "No studies provided"), a)
  | _ =>
      match Skyflow.tokenize_batch request_studies (memory a) with
      | (Return protected_studies, m) =>
          let md := mkMetadata (length request_studies)
                               (length protected_studies)
                               now condition
                               (Skyflow.total_tokens (Skyflow.get_stats (self m))) in
          (Return (mkLoadResponse
                     "success"
                     ("Loaded " +:+ str_of_nat (length request_studies)
                        +:+ " studies with Skyflow protection")
                     (length request_studies)
                     (length protected_studies)),
           mkApp m protected_studies (Some md) (claude_client a))
      | (Raise e, m) =>
          (Raise e, mkApp m (studies a) (metadata_entry a) (claude_client a))
      end
  end.

(** [load_data]: its only handler is [except Exception]. *)
Definition load_data (now condition : string) (request_studies : list ref)
    (a : app) : outcome load_response * app :=
  except_exception (load_data_try now condition request_studies a).

(** [get_studies]; an omitted [limit] is 50. *)
Definition get_studies (limit : option Z) (condition : option string)
    (a : app) : outcome studies_response * app :=
  except_http_then_exception
    (match studies a with
     | [] => (Raise (HTTPException 404 "No data loaded. Use POST /api/load first"), a)
     | stored =>
         let stop := default 50%Z limit in
         (Return (mkStudiesResponse
                    (length stored)
                    (Z.min (Z.of_nat (length stored)) stop)
                    (snapshot (memory a) (slice_to stored stop))),
          a)
     end).

(** The prompt of [ask_claude]. *)
Definition context (total analyzed : nat) (data question : string) : string :=
  "You are a medical research AI assistant analyzing clinical trials data.

SECURITY NOTE:
- This data is protected by Skyflow tokenization
- Sensitive fields (sponsors, investigators) are marked [TOKENIZED]
- You can analyze patterns, phases, conditions, and outcomes
- Acknowledge tokenized fields when relevant

DATASET:
- Total studies: " +:+ str_of_nat total +:+ "
- Analyzing: " +:+ str_of_nat analyzed +:+ " studies
- Security: Skyflow protected

DATA:
" +:+ data +:+ "

QUESTION:
" +:+ question +:+ "

Provide a detailed analysis. Reference NCT IDs when relevant. Acknowledge when data is tokenized.".

(** [ask_claude]. *)
Definition ask_claude (question : string) (a : app) : outcome ask_response * app :=
  match claude_client a with
  | None =>
      (Raise (HTTPException 503 "Claude API not configured. Set ANTHROPIC_API_KEY"), a)
  | Some client =>
      except_http_then_exception
        (if String.eqb question EmptyString
         then (Raise (HTTPException 400 "No question provided"), a)
         else
           match studies a with
           | [] => (Raise (HTTPException 404 "No data loaded. Use POST /api/load first"), a)
           | stored =>
               let sample := slice_to stored 40 in
               match client (context (length stored) (length sample)
                                     (json_dumps (snapshot (memory a) sample))
                                     question) with
               | Return answer =>
                   (Return (mkAskResponse question answer
                                          (length stored) (length sample)
                                          "claude-sonnet-4-20250514"), a)
               | Raise e => (Raise e, a)
               end
           end)
  end.

(** [clear_data]. *)
Definition clear_data (a : app) : app :=
  mkApp (memory a) [] None (claude_client a).

(** The body returned by [health_check]. *)
Record health_response := mkHealthResponse {
  hr_claude : string;
  hr_total_studies : nat;
  hr_metadata : option metadata
}.

(** [health_check]. *)
Definition health_check (a : app) : health_response :=
  mkHealthResponse
    (match claude_client a with Some _ => "ready" | None => "not configured" end)
    (length (studies a))
    (metadata_entry a).

(** [s.get('nct_id') == nct_id] for the string [nct_id]. *)
Definition has_nct_id (nct_id : string) (d : dict) : bool :=
  match d !! "nct_id" with
  | Some (VStr s) => String.eqb s nct_id
  | _ => false
  end.

(** [next((s for s in studies if s.get('nct_id') == nct_id), None)]. *)
Definition find_study (m : mem) (nct_id : string) (stored : list ref) : option ref :=
  List.find (fun r => has_nct_id nct_id (default ∅ (heap m !! r))) stored.

(** The body returned by the handler [detokenize_study]. *)
Record detokenize_response := mkDetokenizeResponse {
  dr_nct_id : string;
  dr_study : dict
}.

(** The handler [detokenize_study]; [not study] holds of an empty
    dictionary. *)
Definition detokenize_study (nct_id : string) (a : app)
  : outcome detokenize_response * app :=
  except_http_then_exception
    (if String.eqb nct_id EmptyString
     then (Raise (HTTPException 400 "No NCT ID provided"), a)
     else
       match studies a with
       | [] => (Raise (HTTPException 404 "No data loaded"), a)
       | stored =>
           match find_study (memory a) nct_id stored with
           | None =>
               (Raise (HTTPException 404 ("Study " +:+ nct_id +:+ " not found")), a)
           | Some study =>
               if Nat.eqb (size (default ∅ (heap (memory a) !! study))) 0
               then (Raise (HTTPException 404 ("Study " +:+ nct_id +:+ " not found")), a)
               else
                 match Skyflow.detokenize_study study (memory a) with
                 | (Return r, m) =>
                     (Return (mkDetokenizeResponse nct_id (default ∅ (heap m !! r))),
                      mkApp m (studies a) (metadata_entry a) (claude_client a))
                 | (Raise e, m) =>
                     (Raise e, mkApp m (studies a) (metadata_entry a) (claude_client a))
                 end
           end
       end).

(** [s.get('_skyflow_protected')], as a condition. *)
Definition is_protected (m : mem) (r : ref) : bool :=
  truthy (default VNone (default ∅ (heap m !! r) !! "_skyflow_protected")).

(** The body returned by the handler [get_stats]. *)
Record stats_response := mkStatsResponse {
  ss_total : nat;
  ss_skyflow_protected : nat;
  ss_skyflow : Skyflow.stats;
  ss_metadata : option metadata
}.

(** The handler [get_stats]. *)
Definition get_stats (a : app) : stats_response :=
  mkStatsResponse
    (length (studies a))
    (length (List.filter (is_protected (memory a)) (studies a)))
    (Skyflow.get_stats (self (memory a)))
    (metadata_entry a).

(** The question and the prompt of [get_summary]. *)
Definition summary_question : string :=
  "Provide a comprehensive summary of this clinical trials dataset, including key statistics, conditions, phases, and notable patterns.".

Definition summary_prompt (data question : string) : string :=
  "Data: " +:+ data +:+ "

Question: " +:+ question.

(** The body returned by [get_summary]. *)
Record summary_response := mkSummaryResponse {
  sm_question : string;
  sm_answer : string;
  sm_studies_analyzed : nat
}.

(** [get_summary]. *)
Definition get_summary (a : app) : outcome summary_response * app :=
  match claude_client a with
  | None => (Raise (HTTPException 503 "Claude API not configured"), a)
  | Some client =>
      except_http_then_exception
        (match studies a with
         | [] => (Raise (HTTPException 404 "No data loaded"), a)
         | stored =>
             let sample := slice_to stored 30 in
             match client (summary_prompt
                             (json_dumps (snapshot (memory a) sample))
                             summary_question) with
             | Return answer =>
                 (Return (mkSummaryResponse summary_question answer
                                            (length stored)), a)
             | Raise e => (Raise e, a)
             end
         end)
  end.

End Handlers.

End FastapiBackend.

(** ** full_test_backend.py: the cache-backed variant

    The cache maps a key to a JSON text and an expiry.  A JSON text is
    identified with the document it denotes, so that [json.loads] of a stored
    [json.dumps] is the stored document.  Reads happen before the expiry. *)

Module FullTestBackend.

(** What [len(v)] returns. *)
Definition len (v : value) : exn + nat :=
  match v with
  | VList l => inr (length l)
  | VStr s => inr (String.length s)
  | VDict d => inr (length d)
  | VNone => inl (TypeError "object of type 'NoneType' has no len()")
  | VBool _ => inl (TypeError "object of type 'bool' has no len()")
  | VInt _ => inl (TypeError "object of type 'int' has no len()")
  end.

(** What [v[:stop]] returns. *)
Definition slice (v : value) (stop : Z) : exn + value :=
  match v with
  | VList l => inr (VList (slice_to l stop))
  | VStr s =>
      inr (VStr (string_of_list_ascii (slice_to (list_ascii_of_string s) stop)))
  | VDict _ => inl (TypeError "unhashable type: 'slice'")
  | VNone => inl (TypeError "'NoneType' object is not subscriptable")
  | VBool _ => inl (TypeError "'bool' object is not subscriptable")
  | VInt _ => inl (TypeError "'int' object is not subscriptable")
  end.

(** [s.lower()].  Among the code points 0 to 255 the characters that
    [str.lower] changes are the letters A to Z (65 to 90) and the capital
    letters from 192 to 222 other than the sign at 215; each becomes the
    character 32 code points higher.  Every other character is kept. *)
Definition lower_char (c : ascii) : ascii :=
  let n := nat_of_ascii c in
  if ((65 <=? n) && (n <=? 90))
     || ((192 <=? n) && (n <=? 222) && negb (n =? 215))
  then ascii_of_nat (n + 32) else c.

Fixpoint lower (s : string) : string :=
  match s with
  | EmptyString => EmptyString
  | String c s' => String (lower_char c) (lower s')
  end.

(** A cache entry: the stored document and the seconds until it expires. *)
Record entry := mkEntry {
  document : value;
  ttl : option nat
}.

Abbreviation redis := (gmap string entry).

(** [r.set(key, v)], [r.expire(key, seconds)], [r.get(key)]. *)
Definition redis_set (key : string) (v : value) (r : redis) : redis :=
  <[key := mkEntry v None]> r.

Definition redis_expire (key : string) (seconds : nat) (r : redis) : redis :=
  alter (fun e => mkEntry (document e) (Some seconds)) key r.

Definition redis_get (key : string) (r : redis) : option value :=
  document <$> r !! key.

(** The module-level state. *)
Record app := mkApp {
  redis_client : option redis;
  claude_client : option (string -> outcome string)
}.

(** A Flask response: a JSON body and a status code. *)
Record response := mkResponse {
  body : value;
  status_code : nat
}.

Definition error (msg : string) (code : nat) : response :=
  mkResponse (VDict [("error", VStr msg)]) code.

Definition error_with_message (msg hint : string) (code : nat) : response :=
  mkResponse (VDict [("error", VStr msg); ("message", VStr hint)]) code.

Section Handlers.

(** [str(e)], [json.dumps(sample, indent=2)], and the text an f-string
    inserts for a value. *)
Variable exn_str : exn -> string.
Variable json_dumps : value -> string.
Variable format : value -> string.

(** [except Exception as e: return jsonify({"error": str(e)}), 500]. *)
Definition except_exception (r : exn + response) : response :=
  match r with
  | inr resp => resp
  | inl e => error (exn_str e) 500
  end.

(** [cache_data]; [data] is [request.json], [now] the timestamp. *)
Definition cache_data (now : string) (data : gmap string value) (a : app)
  : response * app :=
  match redis_client a with
  | None => (error "Redis not connected" 503, a)
  | Some r =>
      let condition := default (VStr "unknown") (data !! "condition") in
      let studies := default (VList []) (data !! "studies") in
      if negb (truthy studies) then (error "No studies provided" 400, a)
      else
        match len studies with
        | inl e => (except_exception (inl e), a)
        | inr n =>
            match condition with
            | VStr c =>
                let key := "trials:" +:+ lower c in
                let r1 := redis_expire key 3600 (redis_set key studies r) in
                let r2 := redis_expire "trials:all" 3600
                            (redis_set "trials:all" studies r1) in
                let metadata :=
                  VDict [("total_studies", VInt (Z.of_nat n));
                         ("last_updated", VStr now);
                         ("condition", condition)] in
                let r3 := redis_expire "trials:metadata" 3600
                            (redis_set "trials:metadata" metadata r2) in
                (mkResponse
                   (VDict [("status", VStr "success");
                           ("message", VStr ("Cached " +:+ str_of_nat n
                                               +:+ " studies in Redis"));
                           ("condition", condition);
                           ("studies_cached", VInt (Z.of_nat n))])
                   200,
                 mkApp (Some r3) (claude_client a))
            | _ =>
                (except_exception
                   (inl (AttributeError "object has no attribute 'lower'")), a)
            end
        end
  end.

(** [get_studies]; an omitted [limit] is 50. *)
Definition get_studies (condition : option string) (limit : option Z) (a : app)
  : response :=
  match redis_client a with
  | None => error "Redis not connected" 503
  | Some r =>
      let stop := default 50%Z limit in
      let key :=
        match condition with
        | Some c => if String.eqb c EmptyString then "trials:all"
                    else "trials:" +:+ lower c
        | None => "trials:all"
        end in
      match redis_get key r with
      | None =>
          error_with_message "No cached data available"
                             "Use POST /api/cache to load data first" 404
      | Some studies =>
          except_exception
            (match len studies with
             | inl e => inl e
             | inr n =>
                 match slice studies stop with
                 | inl e => inl e
                 | inr part =>
                     inr (mkResponse
                            (VDict [("total", VInt (Z.of_nat n));
                                    ("returned", VInt (Z.min (Z.of_nat n) stop));
                                    ("studies", part);
                                    ("source", VStr "Redis Cache")])
                            200)
                 end
             end)
      end
  end.

(** The prompt of [ask_claude]. *)
Definition context (total analyzed : nat) (data question : string) : string :=
  "You are a medical research AI assistant analyzing clinical trials data.

DATASET INFORMATION:
- Total studies available: " +:+ str_of_nat total +:+ "
- Studies in this analysis: " +:+ str_of_nat analyzed +:+ "

CLINICAL TRIALS DATA:
" +:+ data +:+ "

RESEARCHER QUESTION:
" +:+ question +:+ "

INSTRUCTIONS:
1. Provide a detailed, data-driven analysis
2. Reference specific NCT IDs when relevant
3. Identify patterns across trials
4. Be concise but thorough
5. Use medical research terminology appropriately".

(** [ask_claude]; [data] is [request.json]. *)
Definition ask_claude (data : gmap string value) (a : app) : response :=
  match redis_client a with
  | None => error "Redis not connected" 503
  | Some r =>
      match claude_client a with
      | None => error "Claude API not configured. Set ANTHROPIC_API_KEY" 503
      | Some client =>
          let question := default (VStr EmptyString) (data !! "question") in
          if negb (truthy question) then error "No question provided" 400
          else
            match redis_get "trials:all" r with
            | None =>
                error_with_message "No data in cache"
                                   "Use POST /api/cache to load data first" 404
            | Some studies =>
                except_exception
                  (match len studies with
                   | inl e => inl e
                   | inr total =>
                       match slice studies 40 with
                       | inl e => inl e
                       | inr sample =>
                           match len sample with
                           | inl e => inl e
                           | inr analyzed =>
                               match client (context total analyzed
                                               (json_dumps sample)
                                               (format question)) with
                               | Raise e => inl e
                               | Return answer =>
                                   inr (mkResponse
                                          (VDict
                                             [("question", question);
                                              ("answer", VStr answer);
                                              ("total_studies", VInt (Z.of_nat total));
                                              ("analyzed_studies", VInt (Z.of_nat analyzed));
                                              ("model", VStr "claude-sonnet-4-20250514");
                                              ("data_source", VStr "Redis Cache")])
                                          200)
                               end
                           end
                       end
                   end)
            end
      end
  end.

(** [health_check]; the server answers the ping whenever a client exists. *)
Definition health_check (a : app) : response :=
  mkResponse
    (VDict [("status", VStr "active");
            ("redis", VStr (match redis_client a with
                            | Some _ => "connected"
                            | None => "disconnected"
                            end));
            ("claude", VStr (match claude_client a with
                             | Some _ => "ready"
                             | None => "not configured"
                             end));
            ("message", VStr "Clinical Trials API is running");
            ("data", match redis_client a with
                     | Some r => default VNone (redis_get "trials:metadata" r)
                     | None => VNone
                     end)])
    200.

(** [json.dumps(sample)], without indentation. *)
Variable json_dumps_compact : value -> string.

(** The question and the prompt of [get_summary]. *)
Definition summary_question : string :=
  "Provide a comprehensive summary of this clinical trials dataset, including total studies, key conditions, trial phases, and notable patterns.".

Definition summary_prompt (data question : string) : string :=
  "Data: " +:+ data +:+ "

Question: " +:+ question.

(** [get_summary]. *)
Definition get_summary (a : app) : response :=
  match redis_client a with
  | None => error "Redis not connected" 503
  | Some r =>
      match claude_client a with
      | None => error "Claude API not configured. Set ANTHROPIC_API_KEY" 503
      | Some client =>
          match redis_get "trials:all" r with
          | None => error "No data in cache" 404
          | Some studies =>
              except_exception
                (match slice studies 30 with
                 | inl e => inl e
                 | inr sample =>
                     match client (summary_prompt (json_dumps_compact sample)
                                                  summary_question) with
                     | Raise e => inl e
                     | Return answer =>
                         match len studies with
                         | inl e => inl e
                         | inr total =>
                             inr (mkResponse
                                    (VDict [("question", VStr summary_question);
                                            ("answer", VStr answer);
                                            ("studies_analyzed", VInt (Z.of_nat total))])
                                    200)
                         end
                     end
                 end)
          end
      end
  end.

(** [r.keys] with the pattern [trials:] followed by a star: the keys that
    start with [trials:]. *)
Definition trial_keys (r : redis) : list string :=
  List.filter (String.prefix "trials:") (map fst (map_to_list r)).

(** [r.delete] applied to all of [keys]. *)
Definition redis_delete (keys : list string) (r : redis) : redis :=
  foldr delete r keys.

(** [clear_cache]. *)
Definition clear_cache (a : app) : response * app :=
  match redis_client a with
  | None => (error "Redis not connected" 503, a)
  | Some r =>
      match trial_keys r with
      | [] =>
          (mkResponse (VDict [("status", VStr "success");
                              ("message", VStr "Cache was already empty")])
                      200, a)
      | keys =>
          (mkResponse
             (VDict [("status", VStr "success");
                     ("message", VStr ("Cleared " +:+ str_of_nat (length keys)
                                         +:+ " keys from cache"))])
             200,
           mkApp (Some (redis_delete keys r)) (claude_client a))
      end
  end.

End Handlers.

End FullTestBackend.

(** ** redis_cache.py: the cache manager *)

Module RedisCache.
Import FullTestBackend.

(** The fields of a [ClinicalTrialsCache] instance. *)
Record ClinicalTrialsCache := mkCache {
  client : redis;
  default_ttl : nat
}.

(** [ClinicalTrialsCache.__init__] on a server that holds [r]. *)
Definition init (r : redis) : ClinicalTrialsCache := mkCache r 3600.

(** [r.set(key, v, ex=seconds)]. *)
Definition redis_set_ex (key : string) (v : value) (seconds : nat) (r : redis)
  : redis :=
  <[key := mkEntry v (Some seconds)]> r.

(** [ttl or self.default_ttl]: [None] and 0 give the default. *)
Definition ttl_or_default (ttl : option nat) (c : ClinicalTrialsCache) : nat :=
  match ttl with
  | Some (S n) => S n
  | _ => default_ttl c
  end.

(** [cache_studies]: returns the key. *)
Definition cache_studies (condition : string) (studies : list value)
    (ttl : option nat) (c : ClinicalTrialsCache) : string * ClinicalTrialsCache :=
  let key := "trials:" +:+ lower condition in
  (key,
   mkCache (redis_set_ex key (VList studies) (ttl_or_default ttl c) (client c))
           (default_ttl c)).

(** [get_studies]. *)
Definition get_studies (condition : string) (c : ClinicalTrialsCache)
  : option value :=
  redis_get ("trials:" +:+ lower condition) (client c).

(** [cache_all_studies]: returns the key. *)
Definition cache_all_studies (studies : list value) (ttl : option nat)
    (c : ClinicalTrialsCache) : string * ClinicalTrialsCache :=
  ("trials:all",
   mkCache (redis_set_ex "trials:all" (VList studies) (ttl_or_default ttl c)
                         (client c))
           (default_ttl c)).

(** [get_all_studies]. *)
Definition get_all_studies (c : ClinicalTrialsCache) : option value :=
  redis_get "trials:all" (client c).

(** [cache_metadata]. *)
Definition cache_metadata (metadata : value) (c : ClinicalTrialsCache)
  : ClinicalTrialsCache :=
  mkCache (redis_set_ex "trials:metadata" metadata (default_ttl c) (client c))
          (default_ttl c).

(** [get_metadata]. *)
Definition get_metadata (c : ClinicalTrialsCache) : option value :=
  redis_get "trials:metadata" (client c).

(** [clear_cache]. *)
Definition clear_cache (c : ClinicalTrialsCache) : ClinicalTrialsCache :=
  match trial_keys (client c) with
  | [] => c
  | keys => mkCache (redis_delete keys (client c)) (default_ttl c)
  end.

End RedisCache.

(** ** Predicates used in the statements *)

(** No character of [s] is [c]. *)
Fixpoint avoids (c : ascii) (s : string) : bool :=
  match s with
  | EmptyString => true
  | String a s' => negb (Ascii.eqb a c) && avoids c s'
  end.

(** The vault holds exactly the tokens minted so far, one entry each. *)
Definition vault_inv (s : SkyflowManager) : Prop :=
  size (token_store s) = token_counter s /\
  forall t, is_Some (token_store s !! t) <->
            exists j, 1 <= j <= token_counter s /\ t = Skyflow.token_of j.

(** The vault and the counter only grow. *)
Definition grows (s s' : SkyflowManager) : Prop :=
  token_counter s <= token_counter s' /\
  forall t, is_Some (token_store s !! t) -> is_Some (token_store s' !! t).

(** The value under [k], when present, is a list. *)
Definition list_or_absent (d : dict) (k : string) : Prop :=
  d !! k = None \/ exists l, d !! k = Some (VList l).

(** [d'] has the items of [d] except possibly under [k]. *)
Definition off (k : string) (d d' : dict) : Prop :=
  forall k', k' <> k -> d' !! k' = d !! k'.

(** [store] still maps the tokens minted up to [s] as the vault of [s] does. *)
Definition preserved (s : SkyflowManager) (store : gmap string value) : Prop :=
  forall j, j <= token_counter s -> store !! Skyflow.token_of j = token_store s !! Skyflow.token_of j.

(** The three designated sensitive fields and the protection flag. *)
Definition designated : list string := ["lead_sponsor"; "investigators"; "sites"].
Definition flag : string := "_skyflow_protected".

(** [d'] is a masked copy of [d]: flagged, and equal to [d] outside the
    designated fields. *)
Definition masked_copy (d d' : dict) : Prop :=
  d' !! flag = Some (VBool true) /\
  forall k, k <> flag -> k ∉ designated -> d' !! k = d !! k.

(** A call on the masker: [tokenize_batch] or [detokenize_study]. *)
Inductive op :=
| Mask (studies : list ref)
| Unmask (study : ref).

(** The state after a call, whether it returned or raised. *)
Definition run_op (o : op) (m : mem) : mem :=
  match o with
  | Mask studies => (Skyflow.tokenize_batch studies m).2
  | Unmask study => (Skyflow.detokenize_study study m).2
  end.

Definition run_ops (ops : list op) (m : mem) : mem :=
  foldl (fun m o => run_op o m) m ops.

(** [n] successive calls of [_generate_token]. *)
Fixpoint generate_tokens (n : nat) : M (list string) :=
  match n with
  | O => ret []
  | S n' =>
      let* token := Skyflow._generate_token in
      let* tokens := generate_tokens n' in
      ret (token :: tokens)
  end.

(** The token of a tag is unknown to the vault. *)
Definition unknown (store : gmap string value) (v : value) : Prop :=
  exists t, v = VStr t /\ startswith t "[TOKENIZED:" = true /\
            store !! Skyflow.extract_token t = None.

(** What a caller observes of a call that returns a study: the items of
    the returned dictionary, or the exception raised. *)
Definition observed (x : outcome ref * mem) : exn + option dict :=
  match x.1 with
  | Return r => inr (heap x.2 !! r)
  | Raise e => inl e
  end.

(** ** Sample data *)

(** The study of the worked scenario, and a heap that holds only it. *)
Definition sample_study : dict :=
  <["nct_id" := VStr "NCT1"]>
    (<["lead_sponsor" := VStr "Acme Health"]>
       (<["investigators" := VList [VStr "Dr. Ada"; VStr "Dr. Bob"]]> ∅)).

Definition sample_mem : mem := mkMem {[0 := sample_study]} Skyflow.init.

(** A study whose [investigators] entry is a string, not a list. *)
Definition string_study : dict := {["investigators" := VStr "ab"]}.

(** A study with an unknown token and a null [investigators] entry. *)
Definition null_study : dict :=
  <["lead_sponsor" := VStr "[TOKENIZED:sky_000099]"]>
    {["investigators" := VNone]}.

(** A study as loaded from a body with a null [investigators] entry. *)
Definition null_loaded_study : dict :=
  <["lead_sponsor" := VStr "Acme Health"]> {["investigators" := VNone]}.

(** A request body of the cache-backed variant. *)
Definition cache_request (condition : string) (records : list value)
  : gmap string value :=
  <["condition" := VStr condition]> {["studies" := VList records]}.

(** [n] distinct records. *)
Definition numbered_records (n : nat) : list value :=
  map (fun i => VDict [("nct_id", VInt (Z.of_nat i))]) (seq 0 n).

(** A heap of [n] one-field studies at the references [0 .. n-1]. *)
Definition numbered_heap (n : nat) : gmap ref dict :=
  list_to_map (map (fun i => (i, {["nct_id" := VInt (Z.of_nat i)]})) (seq 0 n)).

(** A collaborator that answers every prompt with the same text. *)
Definition canned_client : string -> outcome string :=
  fun _ => Return "ok".

(** A heap with one study of a first batch and one of a second batch. *)
Definition two_batches_heap : gmap ref dict :=
  <[0 := {["nct_id" := VStr "A1"]}]> {[1 := sample_study]}.

(** [str(e)] and [json.dumps] stand-ins for closed examples. *)
Definition no_text {A} : A -> string := fun _ => EmptyString.

(** ** Predicates used in the further properties *)

(** [s'] has counted at least as far as [s] and maps every token minted up
    to [s] as the vault of [s] does. *)
Definition keeps (s s' : SkyflowManager) : Prop :=
  token_counter s <= token_counter s' /\ preserved s (token_store s').

(** The number of items [tokenize_batch] visits under a list field. *)
Definition items_under (d : dict) (k : string) : nat :=
  match d !! k with
  | Some v =>
      if truthy v
      then match iter v with inr items => length items | inl _ => 0 end
      else 0
  | None => 0
  end.

(** The number of tokens [tokenize_batch] mints for a study. *)
Definition minted_for (d : dict) : nat :=
  match d !! "lead_sponsor" with
  | Some v => if truthy v then 1 else 0
  | None => 0
  end + items_under d "investigators" + items_under d "sites".

(** The tag of a minted token. *)
Definition is_tag (v : value) : Prop :=
  exists n, v = VStr (Skyflow.tokenized_tag (Skyflow.token_of n)).

(** The value a list field holds after its branch of [tokenize_batch]. *)
Definition list_field_after (c : nat) (before : option value) : option value :=
  match before with
  | Some v =>
      if truthy v
      then match iter v with
           | inr items => Some (VList (Summary.tags_from c items))
           | inl _ => Some v
           end
      else Some v
  | None => None
  end.

(** What the designated fields of [d] have become in [d']: an absent field
    is absent, a value that is not truthy is kept, a truthy [lead_sponsor]
    is a tag, a truthy list field is a list of tags, one for each item. *)
Definition tokenized_fields (d d' : dict) : Prop :=
  (forall k, k ∈ designated -> d !! k = None -> d' !! k = None) /\
  (forall k v, k ∈ designated -> d !! k = Some v -> truthy v = false ->
               d' !! k = Some v) /\
  (forall v, d !! "lead_sponsor" = Some v -> truthy v = true ->
             exists t, d' !! "lead_sponsor" = Some t /\ is_tag t) /\
  (forall k v, k = "investigators" \/ k = "sites" ->
     d !! k = Some v -> truthy v = true ->
     exists items tags,
       iter v = inr items /\ d' !! k = Some (VList tags) /\
       length tags = length items /\ Forall is_tag tags).

(** A study that [tokenize_batch] cannot iterate. *)
Definition number_study : dict :=
  <["lead_sponsor" := VStr "Acme Health"]> {["investigators" := VInt 5]}.

(** The application state after the sample study was loaded. *)
Definition loaded_sample : FastapiBackend.app :=
  (FastapiBackend.load_data no_text "t1" "cancer" [1]
     (FastapiBackend.start two_batches_heap (Some canned_client))).2.


(** The conditions [CAFÉ] and [café]: the last character has code point
    201, respectively 233. *)
Definition cafe_upper : string := "CAF" +:+ String "201"%char EmptyString.
Definition cafe_lower : string := "caf" +:+ String "233"%char EmptyString.

(** A heap whose last study [tokenize_batch] cannot iterate. *)
Definition failing_heap : gmap ref dict :=
  <[2 := number_study]> two_batches_heap.

(** * Properties *)

(** ** Strings and token formatting *)

Section Strings.

#[local] Arguments Ascii.eqb : simpl never.
#[local] Arguments String.append : simpl nomatch.

Lemma prefix_empty s : String.prefix EmptyString s = true.
Proof. destruct s; reflexivity. Qed.

Lemma avoids_app c s t : avoids c (s +:+ t) = avoids c s && avoids c t.
Proof.
  induction s as [|a s IH]; simpl; [reflexivity|].
  rewrite IH. apply andb_assoc.
Qed.

Lemma avoids_zeros c w : c <> "0"%char -> avoids c (zeros w) = true.
Proof.
  intros Hc. induction w as [|w IH]; simpl; [reflexivity|].
  rewrite IH, andb_true_r. apply negb_true_iff, Ascii.eqb_neq. congruence.
Qed.

Lemma avoids_digits c d :
  (Ascii.leb c "9" && Ascii.leb "0" c = false) ->
  avoids c (NilEmpty.string_of_uint d) = true.
Proof.
  intros Hc. induction d; simpl; rewrite ?IHd, ?andb_true_r; try reflexivity;
    apply negb_true_iff, Ascii.eqb_neq; intros <-; discriminate Hc.
Qed.

(** A string without the first character of [old] holds no occurrence. *)
Lemma replace_from_avoids a old new s :
  avoids a s = true ->
  replace_from (String a old) new 0 s = s.
Proof.
  induction s as [|c s IH]; simpl; [reflexivity|].
  intros [Hc Hs]%andb_true_iff.
  apply negb_true_iff, Ascii.eqb_neq in Hc.
  destruct (ascii_dec a c) as [->|_]; [congruence|].
  f_equal. apply IH, Hs.
Qed.

Lemma replace_last a s :
  avoids a s = true ->
  replace (s +:+ String a EmptyString) (String a EmptyString) EmptyString = s.
Proof.
  unfold replace. induction s as [|c s IH]; simpl.
  - intros _. destruct (ascii_dec a a) as [_|Hne]; [reflexivity|congruence].
  - intros [Hc Hs]%andb_true_iff.
    apply negb_true_iff, Ascii.eqb_neq in Hc.
    destruct (ascii_dec a c) as [<-|_]; [congruence|].
    f_equal. apply IH, Hs.
Qed.

Lemma length_string_of_uint d :
  String.length (NilEmpty.string_of_uint d) = nb_digits d.
Proof. induction d; simpl; congruence. Qed.

Lemma length_app_string s t :
  String.length (s +:+ t) = String.length s + String.length t.
Proof. induction s as [|a s IH]; [reflexivity|]. simpl. congruence. Qed.

Lemma length_zeros w : String.length (zeros w) = w.
Proof. induction w; simpl; congruence. Qed.

Lemma uint_of_zeros w d :
  NilEmpty.uint_of_string (zeros w +:+ NilEmpty.string_of_uint d)
  = Some (Nat.iter w D0 d).
Proof.
  induction w as [|w IH]; simpl.
  - apply NilEmpty.usu.
  - rewrite IH. reflexivity.
Qed.

Lemma of_uint_iter_D0 w d : Nat.of_uint (Nat.iter w D0 d) = Nat.of_uint d.
Proof. induction w as [|w IH]; simpl; [reflexivity|]. exact IH. Qed.

(** Reading back the digits of [format_06d n] gives [n]. *)
Lemma format_06d_decode n :
  Nat.of_uint <$> NilEmpty.uint_of_string (format_06d n) = Some n.
Proof.
  unfold format_06d, str_of_nat. rewrite uint_of_zeros. simpl.
  rewrite of_uint_iter_D0, Unsigned.of_to. reflexivity.
Qed.

Lemma format_06d_inj a b : format_06d a = format_06d b -> a = b.
Proof.
  intros H. pose proof (format_06d_decode a) as Ha.
  rewrite H, format_06d_decode in Ha. congruence.
Qed.

Lemma token_of_inj a b : Skyflow.token_of a = Skyflow.token_of b -> a = b.
Proof.
  unfold Skyflow.token_of. intros H. apply format_06d_inj.
  injection H as H. exact H.
Qed.

Lemma token_of_avoids c n :
  (Ascii.leb c "9" && Ascii.leb "0" c = false) ->
  avoids c "sky_" = true ->
  avoids c (Skyflow.token_of n) = true.
Proof.
  intros Hc Hs. unfold Skyflow.token_of, format_06d, str_of_nat.
  rewrite !avoids_app, Hs, avoids_digits by exact Hc.
  rewrite avoids_zeros; [reflexivity|]. intros ->. discriminate Hc.
Qed.

(** The two [replace] calls of [detokenize_study] recover a token without
    brackets from its tag. *)
Lemma extract_token_plain t :
  avoids "[" t = true ->
  avoids "]" t = true ->
  Skyflow.extract_token (Skyflow.tokenized_tag t) = t.
Proof.
  intros Ht1 Ht2. unfold Skyflow.extract_token, Skyflow.tokenized_tag.
  replace (replace ("[TOKENIZED:" +:+ t +:+ "]") "[TOKENIZED:" EmptyString)
    with (t +:+ "]").
  - apply (replace_last "]"), Ht2.
  - unfold replace. simpl. rewrite prefix_empty.
    symmetry. apply (replace_from_avoids "[" "TOKENIZED:").
    rewrite avoids_app, Ht1. reflexivity.
Qed.

Lemma extract_token_tag n :
  Skyflow.extract_token (Skyflow.tokenized_tag (Skyflow.token_of n))
  = Skyflow.token_of n.
Proof. apply extract_token_plain; apply token_of_avoids; reflexivity. Qed.

Lemma startswith_tag t :
  startswith (Skyflow.tokenized_tag t) "[TOKENIZED:" = true.
Proof.
  unfold startswith, Skyflow.tokenized_tag. simpl. apply prefix_empty.
Qed.

End Strings.

(** ** The operations agree with their closed forms *)

Section Refinement.
Import Skyflow Summary.

(** Run the first operation of a sequence with the equation [E]. *)
Ltac run_with E := unfold bind at 1; rewrite E; cbv beta iota.

Lemma setitem_focus h r d s k v :
  setitem r k v (mkMem (<[r := d]> h) s)
  = (Return tt, mkMem (<[r := <[k := v]> d]> h) s).
Proof.
  unfold setitem. simpl. rewrite lookup_insert_eq, insert_insert_eq. reflexivity.
Qed.

Lemma getitem_focus h r d s k :
  getitem r k (mkMem (<[r := d]> h) s)
  = (match d !! k with Some v => Return v | None => Raise (KeyError k) end,
     mkMem (<[r := d]> h) s).
Proof.
  unfold getitem. simpl. rewrite lookup_insert_eq. destruct (d !! k); reflexivity.
Qed.

Lemma contains_focus h r d s k :
  contains r k (mkMem (<[r := d]> h) s)
  = (Return (bool_decide (is_Some (d !! k))), mkMem (<[r := d]> h) s).
Proof. unfold contains. simpl. rewrite lookup_insert_eq. reflexivity. Qed.

Lemma dict_copy_run m study d :
  heap m !! study = Some d ->
  dict_copy study m
  = (Return (fresh (dom (heap m))),
     mkMem (<[fresh (dom (heap m)) := d]> (heap m)) (self m)).
Proof. intros H. unfold dict_copy. rewrite H. reflexivity. Qed.

Lemma present_and_truthy_focus h r d s k :
  present_and_truthy r k (mkMem (<[r := d]> h) s)
  = (Return (match d !! k with Some v => truthy v | None => false end),
     mkMem (<[r := d]> h) s).
Proof.
  unfold present_and_truthy, bind. rewrite contains_focus.
  destruct (d !! k) as [v|] eqn:Hk; simpl.
  - rewrite getitem_focus, Hk. reflexivity.
  - reflexivity.
Qed.

Lemma tokenize_items_run items : forall acc h store c,
  tokenize_items items acc (mkMem h (mkSkyflowManager store c))
  = (Return (acc ++ tags_from c items),
     mkMem h (mkSkyflowManager (put_all c items store) (c + length items))).
Proof.
  induction items as [|item rest IH]; intros acc h store c; simpl.
  - rewrite app_nil_r, Nat.add_0_r. reflexivity.
  - unfold bind, _generate_token, store_token. simpl.
    rewrite IH, <- app_assoc, Nat.add_succ_r. reflexivity.
Qed.

Lemma tokenize_list_field_focus h r d s k :
  tokenize_list_field r k (mkMem (<[r := d]> h) s)
  = ((mask_list_field k d s).1,
     mkMem (<[r := (mask_list_field k d s).2.1]> h) (mask_list_field k d s).2.2).
Proof.
  unfold tokenize_list_field, mask_list_field, bind.
  rewrite present_and_truthy_focus.
  destruct (d !! k) as [v|] eqn:Hk; [|reflexivity].
  destruct (truthy v); [|reflexivity].
  rewrite getitem_focus, Hk. unfold for_items.
  destruct (iter v) as [e|items]; [reflexivity|].
  unfold ret. destruct s as [store c].
  rewrite tokenize_items_run, setitem_focus. reflexivity.
Qed.

Lemma tokenize_sponsor_focus h r d s :
  (if match d !! "lead_sponsor" with Some v => truthy v | None => false end
   then
     let* token := _generate_token in
     let* v := getitem r "lead_sponsor" in
     do store_token token v then
     setitem r "lead_sponsor" (VStr (tokenized_tag token))
   else ret tt) (mkMem (<[r := d]> h) s)
  = (Return tt,
     mkMem (<[r := (mask_sponsor d s).1]> h) (mask_sponsor d s).2).
Proof.
  unfold mask_sponsor.
  destruct (d !! "lead_sponsor") as [v|] eqn:Hk; [|reflexivity].
  destruct (truthy v); [|reflexivity].
  unfold bind, _generate_token. simpl. rewrite getitem_focus, Hk.
  unfold store_token. simpl. rewrite setitem_focus. reflexivity.
Qed.

Lemma tokenize_study_run m study d :
  heap m !! study = Some d ->
  tokenize_study study m
  = (on_copy (fresh (dom (heap m))) (mask_dict d (self m)).1,
     mkMem (<[fresh (dom (heap m)) := (mask_dict d (self m)).2.1]> (heap m))
           (mask_dict d (self m)).2.2).
Proof.
  intros Hd. unfold tokenize_study.
  run_with (dict_copy_run _ _ _ Hd).
  set (r := fresh (dom (heap m))).
  run_with setitem_focus.
  run_with present_and_truthy_focus.
  run_with tokenize_sponsor_focus.
  unfold mask_dict.
  destruct (mask_sponsor _ (self m)) as [d2 s2]. cbn [fst snd].
  run_with tokenize_list_field_focus.
  destruct (mask_list_field "investigators" d2 s2) as [[[]|e] [d3 s3]];
    cbn [fst snd]; [|reflexivity].
  run_with tokenize_list_field_focus.
  destruct (mask_list_field "sites" d3 s3) as [[[]|e] [d4 s4]]; reflexivity.
Qed.

Lemma store_get_run token dflt m :
  store_get token dflt m
  = (Return (default dflt (token_store (self m) !! token)), m).
Proof. unfold store_get. destruct (_ !! token); reflexivity. Qed.

Lemma detokenize_item_run item m :
  detokenize_item item m
  = (Return (unmask_item (token_store (self m)) item), m).
Proof.
  destruct item; try reflexivity. simpl.
  destruct (startswith s "[TOKENIZED:"); [apply store_get_run|reflexivity].
Qed.

Lemma detokenize_items_run items : forall acc m,
  detokenize_items items acc m
  = (Return (acc ++ map (unmask_item (token_store (self m))) items), m).
Proof.
  induction items as [|item rest IH]; intros acc m; simpl.
  - rewrite app_nil_r. reflexivity.
  - unfold bind. rewrite detokenize_item_run, IH, <- app_assoc. reflexivity.
Qed.

Lemma detokenize_list_field_focus h r d s k :
  detokenize_list_field r k (mkMem (<[r := d]> h) s)
  = ((unmask_list_field (token_store s) k d).1,
     mkMem (<[r := (unmask_list_field (token_store s) k d).2]> h) s).
Proof.
  unfold detokenize_list_field, unmask_list_field, bind.
  rewrite contains_focus.
  destruct (d !! k) as [v|] eqn:Hk; simpl; [|reflexivity].
  rewrite getitem_focus, Hk. unfold for_items.
  destruct (iter v) as [e|items]; [reflexivity|].
  unfold ret. rewrite detokenize_items_run. simpl.
  rewrite setitem_focus. reflexivity.
Qed.

Lemma detokenize_sponsor_focus h r d s :
  (if bool_decide (is_Some (d !! "lead_sponsor"))
   then
     let* sponsor := getitem r "lead_sponsor" in
     match sponsor with
     | VStr t =>
         if startswith t "[TOKENIZED:"
         then let* v := store_get (extract_token t) sponsor in
              setitem r "lead_sponsor" v
         else ret tt
     | _ => ret tt
     end
   else ret tt) (mkMem (<[r := d]> h) s)
  = (Return tt, mkMem (<[r := unmask_sponsor (token_store s) d]> h) s).
Proof.
  unfold unmask_sponsor.
  destruct (d !! "lead_sponsor") as [v|] eqn:Hk; simpl; [|reflexivity].
  unfold bind. rewrite getitem_focus, Hk.
  destruct v as [| | |t| |]; try reflexivity.
  destruct (startswith t "[TOKENIZED:"); [|reflexivity].
  rewrite store_get_run. simpl. rewrite setitem_focus. reflexivity.
Qed.

Lemma detokenize_study_run m study d :
  heap m !! study = Some d ->
  detokenize_study study m
  = (on_copy (fresh (dom (heap m))) (unmask_dict (token_store (self m)) d).1,
     mkMem (<[fresh (dom (heap m)) := (unmask_dict (token_store (self m)) d).2]>
              (heap m))
           (self m)).
Proof.
  intros Hd. unfold detokenize_study.
  run_with (dict_copy_run _ _ _ Hd).
  set (r := fresh (dom (heap m))).
  run_with contains_focus.
  run_with detokenize_sponsor_focus.
  unfold unmask_dict. cbv zeta.
  set (d1 := unmask_sponsor _ d).
  run_with detokenize_list_field_focus.
  destruct (unmask_list_field _ "investigators" d1) as [[[]|e] d2];
    cbn [fst snd]; [|reflexivity].
  run_with detokenize_list_field_focus.
  destruct (unmask_list_field _ "sites" d2) as [[[]|e] d3];
    cbn [fst snd]; [|reflexivity].
  run_with setitem_focus. reflexivity.
Qed.

End Refinement.

(** ** The vault *)

Section Vault.
Import Skyflow Summary.

(** Tokens minted outside the range of a loop keep their entry. *)
Lemma put_all_other items : forall c store t,
  (forall j, c < j <= c + length items -> t <> token_of j) ->
  put_all c items store !! t = store !! t.
Proof.
  induction items as [|item rest IH]; intros c store t Ht; simpl; [reflexivity|].
  rewrite IH.
  - apply lookup_insert_ne. apply not_eq_sym, Ht. simpl. lia.
  - intros j Hj. apply Ht. simpl. lia.
Qed.

Lemma put_all_earlier items c store j :
  j <= c -> put_all c items store !! token_of j = store !! token_of j.
Proof.
  intros Hj. apply put_all_other. intros j' Hj' Heq.
  apply token_of_inj in Heq. lia.
Qed.

(** The [i]-th token of a loop maps to the [i]-th item. *)
Lemma put_all_hit items : forall c store i x,
  items !! i = Some x ->
  put_all c items store !! token_of (S (c + i)) = Some x.
Proof.
  induction items as [|item rest IH]; intros c store i x Hi; [discriminate|].
  destruct i as [|i]; simpl in *.
  - injection Hi as ->. rewrite put_all_earlier by lia.
    rewrite Nat.add_0_r. apply lookup_insert_eq.
  - rewrite <- Nat.add_succ_comm. apply IH, Hi.
Qed.

(** Entries are only added. *)
Lemma put_all_keeps items : forall c store t,
  is_Some (store !! t) -> is_Some (put_all c items store !! t).
Proof.
  induction items as [|item rest IH]; intros c store t Ht; simpl; [exact Ht|].
  apply IH. rewrite lookup_insert. case_decide; [eexists; reflexivity|exact Ht].
Qed.

Lemma vault_inv_init : vault_inv init.
Proof.
  split; [apply map_size_empty|].
  intros t. simpl. rewrite lookup_empty. split.
  - intros [? [=]].
  - intros (j & Hj & _). lia.
Qed.

Lemma vault_inv_mint store c v :
  vault_inv (mkSkyflowManager store c) ->
  vault_inv (mkSkyflowManager (<[token_of (S c) := v]> store) (S c)).
Proof.
  intros [Hsize Hdom]. simpl in *. split; simpl.
  - rewrite map_size_insert_None; [congruence|].
    apply eq_None_not_Some. intros (j & Hj & Heq)%Hdom.
    apply token_of_inj in Heq. lia.
  - intros t. rewrite lookup_insert. case_decide as Ht.
    + subst t. split; [|eexists; reflexivity].
      intros _. exists (S c). split; [lia|reflexivity].
    + rewrite Hdom. split; intros (j & Hj & ->).
      * exists j. split; [lia|reflexivity].
      * exists j. split; [|reflexivity].
        destruct (decide (j = S c)) as [->|]; [congruence|lia].
Qed.

Lemma vault_inv_put_all items : forall c store,
  vault_inv (mkSkyflowManager store c) ->
  vault_inv (mkSkyflowManager (put_all c items store) (c + length items)).
Proof.
  induction items as [|item rest IH]; intros c store Hinv; simpl.
  - rewrite Nat.add_0_r. exact Hinv.
  - rewrite Nat.add_succ_r. apply (IH (S c)), vault_inv_mint, Hinv.
Qed.

Lemma vault_inv_mask_sponsor d s :
  vault_inv s -> vault_inv (mask_sponsor d s).2.
Proof.
  intros Hinv. unfold mask_sponsor.
  destruct (d !! "lead_sponsor") as [v|]; [|exact Hinv].
  destruct (truthy v); [|exact Hinv].
  destruct s as [store c]. apply vault_inv_mint, Hinv.
Qed.

Lemma vault_inv_mask_list_field k d s :
  vault_inv s -> vault_inv (mask_list_field k d s).2.2.
Proof.
  intros Hinv. unfold mask_list_field.
  destruct (d !! k) as [v|]; [|exact Hinv].
  destruct (truthy v); [|exact Hinv].
  destruct (iter v) as [e|items]; [exact Hinv|].
  destruct s as [store c]. apply vault_inv_put_all, Hinv.
Qed.

Lemma vault_inv_mask_dict d s :
  vault_inv s -> vault_inv (mask_dict d s).2.2.
Proof.
  intros Hinv. unfold mask_dict.
  pose proof (vault_inv_mask_sponsor (<["_skyflow_protected" := VBool true]> d) s Hinv) as H2.
  destruct (mask_sponsor _ s) as [d2 s2]. simpl in H2.
  pose proof (vault_inv_mask_list_field "investigators" d2 s2 H2) as H3.
  destruct (mask_list_field "investigators" d2 s2) as [[[]|e] [d3 s3]];
    simpl in *; [|exact H3].
  apply vault_inv_mask_list_field, H3.
Qed.

Lemma grows_refl s : grows s s.
Proof. split; [lia|auto]. Qed.

Lemma grows_trans s1 s2 s3 : grows s1 s2 -> grows s2 s3 -> grows s1 s3.
Proof. intros [H1 H2] [H3 H4]. split; [lia|auto]. Qed.

Lemma grows_mask_sponsor d s : grows s (mask_sponsor d s).2.
Proof.
  unfold mask_sponsor.
  destruct (d !! "lead_sponsor") as [v|]; [|apply grows_refl].
  destruct (truthy v); [|apply grows_refl].
  split; simpl; [lia|]. intros t Ht.
  rewrite lookup_insert. case_decide; [eexists; reflexivity|exact Ht].
Qed.

Lemma grows_mask_list_field k d s : grows s (mask_list_field k d s).2.2.
Proof.
  unfold mask_list_field.
  destruct (d !! k) as [v|]; [|apply grows_refl].
  destruct (truthy v); [|apply grows_refl].
  destruct (iter v) as [e|items]; [apply grows_refl|].
  split; simpl; [lia|]. intros t Ht. apply put_all_keeps, Ht.
Qed.

Lemma grows_mask_dict d s : grows s (mask_dict d s).2.2.
Proof.
  unfold mask_dict.
  pose proof (grows_mask_sponsor (<["_skyflow_protected" := VBool true]> d) s) as H2.
  destruct (mask_sponsor _ s) as [d2 s2]. simpl in H2.
  pose proof (grows_mask_list_field "investigators" d2 s2) as H3.
  destruct (mask_list_field "investigators" d2 s2) as [[[]|e] [d3 s3]];
    simpl in *; [|exact (grows_trans _ _ _ H2 H3)].
  exact (grows_trans _ _ _ (grows_trans _ _ _ H2 H3)
                     (grows_mask_list_field "sites" d3 s3)).
Qed.

End Vault.

(** ** Masking and unmasking one dictionary *)

Section RoundTrip.
Import Skyflow Summary.

Lemma mask_list_field_list k d s l :
  d !! k = Some (VList l) ->
  mask_list_field k d s
  = (Return tt,
     (<[k := VList (tags_from (token_counter s) l)]> d,
      mkSkyflowManager (put_all (token_counter s) l (token_store s))
                       (token_counter s + length l))).
Proof.
  intros Hk. unfold mask_list_field. rewrite Hk.
  destruct l as [|x l]; [|reflexivity]. simpl.
  rewrite insert_id by exact Hk. rewrite Nat.add_0_r.
  destruct s; reflexivity.
Qed.

Lemma mask_list_field_absent k d s :
  d !! k = None -> mask_list_field k d s = (Return tt, (d, s)).
Proof. intros Hk. unfold mask_list_field. rewrite Hk. reflexivity. Qed.

Lemma unmask_list_field_list store k d l :
  d !! k = Some (VList l) ->
  unmask_list_field store k d
  = (Return tt, <[k := VList (map (unmask_item store) l)]> d).
Proof. intros Hk. unfold unmask_list_field. rewrite Hk. reflexivity. Qed.

Lemma unmask_list_field_absent store k d :
  d !! k = None -> unmask_list_field store k d = (Return tt, d).
Proof. intros Hk. unfold unmask_list_field. rewrite Hk. reflexivity. Qed.

(** Unmasking the tags of a loop gives back its items. *)
Lemma unmask_tags store items : forall c,
  (forall i x, items !! i = Some x -> store !! token_of (S (c + i)) = Some x) ->
  map (unmask_item store) (tags_from c items) = items.
Proof.
  induction items as [|item rest IH]; intros c Hs; [reflexivity|].
  cbn [tags_from map unmask_item].
  rewrite startswith_tag, extract_token_tag.
  pose proof (Hs 0 item eq_refl) as H0. rewrite Nat.add_0_r in H0.
  rewrite H0. cbn [default].
  f_equal. apply IH. intros i x Hi.
  rewrite Nat.add_succ_comm. apply (Hs (S i)), Hi.
Qed.

Lemma unmask_sponsor_tag store d n v :
  d !! "lead_sponsor" = Some (VStr (tokenized_tag (token_of n))) ->
  store !! token_of n = Some v ->
  unmask_sponsor store d = <["lead_sponsor" := v]> d.
Proof.
  intros Hd Hs. unfold unmask_sponsor.
  rewrite Hd, startswith_tag, extract_token_tag, Hs. reflexivity.
Qed.

(** A value that is not truthy is not a tag. *)
Lemma unmask_sponsor_falsy store d :
  (forall v, d !! "lead_sponsor" = Some v -> truthy v = false) ->
  unmask_sponsor store d = d.
Proof.
  intros Hd. unfold unmask_sponsor.
  destruct (d !! "lead_sponsor") as [[| | |s| |]|] eqn:Hk; try reflexivity.
  specialize (Hd _ eq_refl). simpl in Hd.
  apply negb_false_iff, String.eqb_eq in Hd. subst s. reflexivity.
Qed.

Lemma preserved_step s1 s2 store :
  token_counter s1 <= token_counter s2 ->
  preserved s1 (token_store s2) -> preserved s2 store -> preserved s1 store.
Proof.
  intros Hc H12 H2 j Hj. rewrite H2 by lia. apply H12, Hj.
Qed.

Lemma mask_sponsor_spec d s d2 s2 :
  mask_sponsor d s = (d2, s2) ->
  off "lead_sponsor" d d2 /\
  token_counter s <= token_counter s2 /\
  preserved s (token_store s2) /\
  forall store dU,
    preserved s2 store ->
    dU !! "lead_sponsor" = d2 !! "lead_sponsor" ->
    unmask_sponsor store dU !! "lead_sponsor" = d !! "lead_sponsor".
Proof.
  unfold mask_sponsor.
  destruct (d !! "lead_sponsor") as [v|] eqn:Hl; [destruct (truthy v) eqn:Hv|];
    intros [= <- <-].
  - split; [|split; [|split]].
    + intros k' Hk'. apply lookup_insert_ne. congruence.
    + simpl. lia.
    + intros j Hj. simpl. apply lookup_insert_ne.
      intros Heq%token_of_inj. lia.
    + intros store dU Hst HdU. rewrite lookup_insert_eq in HdU.
      rewrite (unmask_sponsor_tag store dU (S (token_counter s)) v HdU).
      * rewrite lookup_insert_eq. congruence.
      * rewrite Hst by (simpl; lia). simpl. apply lookup_insert_eq.
  - split; [done|]. split; [done|]. split; [done|].
    intros store dU _ HdU. rewrite unmask_sponsor_falsy; congruence.
  - split; [done|]. split; [done|]. split; [done|].
    intros store dU _ HdU. rewrite unmask_sponsor_falsy; congruence.
Qed.

Lemma unmask_sponsor_off store d : off "lead_sponsor" d (unmask_sponsor store d).
Proof.
  intros k' Hk'. unfold unmask_sponsor.
  destruct (d !! "lead_sponsor") as [[| | |t| |]|]; try reflexivity.
  destruct (startswith t "[TOKENIZED:"); [|reflexivity].
  apply lookup_insert_ne. congruence.
Qed.

Lemma mask_list_field_spec k d s o d3 s3 :
  mask_list_field k d s = (o, (d3, s3)) ->
  off k d d3 /\
  token_counter s <= token_counter s3 /\
  preserved s (token_store s3) /\
  (list_or_absent d k ->
   o = Return tt /\
   forall store dU,
     preserved s3 store ->
     dU !! k = d3 !! k ->
     exists dU', unmask_list_field store k dU = (Return tt, dU') /\
                 dU' !! k = d !! k).
Proof.
  unfold mask_list_field.
  destruct (d !! k) as [v|] eqn:Hk;
    [destruct (truthy v) eqn:Hv; [destruct (iter v) as [e|items] eqn:Hit|]|];
    intros [= <- <- <-].
  - split; [done|]. split; [done|]. split; [done|].
    intros [Habs|[l Hl]]; [congruence|].
    assert (v = VList l) as -> by congruence. discriminate Hit.
  - split; [|split; [|split]].
    + intros k' Hk'. apply lookup_insert_ne. congruence.
    + simpl. lia.
    + intros j Hj. simpl. apply put_all_earlier, Hj.
    + intros [Habs|[l Hl]]; [congruence|]. split; [reflexivity|].
      intros store dU Hst HdU. rewrite lookup_insert_eq in HdU.
      assert (v = VList l) as -> by congruence. injection Hit as <-.
      rewrite (unmask_list_field_list _ _ _ _ HdU).
      eexists. split; [reflexivity|].
      rewrite lookup_insert_eq, unmask_tags; [done|].
      intros i x Hx. rewrite Hst.
      * simpl. apply put_all_hit, Hx.
      * simpl. apply lookup_lt_Some in Hx. lia.
  - split; [done|]. split; [done|]. split; [done|].
    intros [Habs|[l Hl]]; [congruence|]. split; [reflexivity|].
    intros store dU _ HdU.
    assert (v = VList l) as -> by congruence.
    destruct l; [|discriminate Hv].
    rewrite (unmask_list_field_list store k dU []) by congruence.
    eexists. split; [reflexivity|]. simpl. rewrite lookup_insert_eq. congruence.
  - split; [done|]. split; [done|]. split; [done|].
    intros _. split; [reflexivity|].
    intros store dU _ HdU. rewrite unmask_list_field_absent by congruence.
    eexists. split; [reflexivity|]. congruence.
Qed.

Lemma unmask_list_field_off store k d : off k d (unmask_list_field store k d).2.
Proof.
  intros k' Hk'. unfold unmask_list_field.
  destruct (d !! k) as [v|]; [|reflexivity].
  destruct (iter v); [reflexivity|]. simpl.
  apply lookup_insert_ne. congruence.
Qed.

(** Mask, then unmask with the vault so obtained: for a study whose list
    fields are lists, every item is back and the flag is cleared. *)
Lemma round_trip_dict d s :
  list_or_absent d "investigators" ->
  list_or_absent d "sites" ->
  exists d' s',
    mask_dict d s = (Return tt, (d', s')) /\
    unmask_dict (token_store s') d'
    = (Return tt, <["_skyflow_protected" := VBool false]> d).
Proof.
  intros Hi Hs. unfold mask_dict. cbv zeta.
  set (d1 := <["_skyflow_protected" := VBool true]> d).
  assert (H1 : off "_skyflow_protected" d d1).
  { intros k' Hk'. apply lookup_insert_ne. congruence. }
  destruct (mask_sponsor d1 s) as [d2 s2] eqn:E2.
  destruct (mask_sponsor_spec _ _ _ _ E2) as (O2 & C2 & P2 & R2).
  destruct (mask_list_field "investigators" d2 s2) as [o3 [d3 s3]] eqn:E3.
  destruct (mask_list_field_spec _ _ _ _ _ _ E3) as (O3 & C3 & P3 & R3).
  destruct R3 as [-> R3].
  { unfold list_or_absent. rewrite O2, H1 by discriminate. exact Hi. }
  destruct (mask_list_field "sites" d3 s3) as [o4 [d4 s4]] eqn:E4.
  destruct (mask_list_field_spec _ _ _ _ _ _ E4) as (O4 & C4 & P4 & R4).
  destruct R4 as [-> R4].
  { unfold list_or_absent. rewrite O3, O2, H1 by discriminate. exact Hs. }
  exists d4, s4. split; [reflexivity|].
  unfold unmask_dict. cbv zeta.
  set (st := token_store s4).
  set (u1 := unmask_sponsor st d4).
  pose proof (unmask_sponsor_off st d4) as U1. fold u1 in U1.
  destruct (R3 st u1) as (u2 & E5 & L5).
  { intros j Hj. unfold st. apply P4, Hj. }
  { rewrite U1, O4 by discriminate. reflexivity. }
  pose proof (unmask_list_field_off st "investigators" u1) as U2.
  rewrite E5 in U2 |- *. simpl in U2.
  destruct (R4 st u2) as (u3 & E6 & L6).
  { intros j Hj. reflexivity. }
  { rewrite U2, U1 by discriminate. reflexivity. }
  pose proof (unmask_list_field_off st "sites" u2) as U3.
  rewrite E6 in U3 |- *. simpl in U3.
  f_equal. apply map_eq. intros k.
  destruct (decide (k = "_skyflow_protected")) as [->|Hflag].
  { rewrite !lookup_insert_eq. reflexivity. }
  rewrite !lookup_insert_ne by congruence.
  destruct (decide (k = "sites")) as [->|Hsites].
  { rewrite L6, O3, O2, H1 by discriminate. reflexivity. }
  rewrite U3 by exact Hsites.
  destruct (decide (k = "investigators")) as [->|Hinv].
  { rewrite L5, O2, H1 by discriminate. reflexivity. }
  rewrite U2 by exact Hinv.
  destruct (decide (k = "lead_sponsor")) as [->|Hls].
  { unfold u1. rewrite (R2 st d4).
    - apply H1. discriminate.
    - apply (preserved_step s2 s3); [exact C3|exact P3|].
      intros j Hj. unfold st. apply P4, Hj.
    - rewrite O4, O3 by discriminate. reflexivity. }
  rewrite U1, O4, O3, O2, H1 by assumption. reflexivity.
Qed.

End RoundTrip.

(** ** The masker on the heap *)

Section Heap.
Import Skyflow Summary.

Lemma fresh_unused (h : gmap ref dict) : h !! fresh (dom h) = None.
Proof. apply not_elem_of_dom, is_fresh. Qed.

Lemma tokenize_study_dangling m study :
  heap m !! study = None ->
  tokenize_study study m = (Raise (KeyError "dangling reference"), m).
Proof.
  intros H. unfold tokenize_study, bind, dict_copy. rewrite H. reflexivity.
Qed.

Lemma detokenize_study_dangling m study :
  heap m !! study = None ->
  detokenize_study study m = (Raise (KeyError "dangling reference"), m).
Proof.
  intros H. unfold detokenize_study, bind, dict_copy. rewrite H. reflexivity.
Qed.

Lemma mask_dict_spec d s o d' s' :
  mask_dict d s = (o, (d', s')) -> masked_copy d d'.
Proof.
  unfold mask_dict. cbv zeta.
  destruct (mask_sponsor _ s) as [d2 s2] eqn:E2.
  destruct (mask_sponsor_spec _ _ _ _ E2) as (O2 & _).
  destruct (mask_list_field "investigators" d2 s2) as [o3 [d3 s3]] eqn:E3.
  destruct (mask_list_field_spec _ _ _ _ _ _ E3) as (O3 & _).
  assert (H3 : masked_copy d d3).
  { split.
    - unfold flag. rewrite O3, O2 by discriminate. apply lookup_insert_eq.
    - intros k Hf Hk. unfold designated in Hk.
      rewrite O3, O2 by set_solver. apply lookup_insert_ne.
      unfold flag in Hf. congruence. }
  destruct o3 as [[]|e]; [|intros [= <- <- <-]; exact H3].
  intros E4. destruct (mask_list_field_spec _ _ _ _ _ _ E4) as (O4 & _).
  destruct H3 as [Hflag Hrest]. split.
  - unfold flag in *. rewrite O4 by discriminate. exact Hflag.
  - intros k Hf Hk. unfold designated in Hk.
    rewrite O4 by set_solver. apply Hrest; [exact Hf|exact Hk].
Qed.

Lemma unmask_dict_spec store d o d' :
  unmask_dict store d = (o, d') ->
  (forall k, k <> flag -> k ∉ designated -> d' !! k = d !! k) /\
  (o = Return tt -> d' !! flag = Some (VBool false)).
Proof.
  unfold unmask_dict. cbv zeta.
  pose proof (unmask_sponsor_off store d) as U1.
  set (u1 := unmask_sponsor store d) in *.
  pose proof (unmask_list_field_off store "investigators" u1) as U2.
  destruct (unmask_list_field store "investigators" u1) as [o2 u2].
  simpl in U2.
  assert (H2 : forall k, k <> flag -> k ∉ designated -> u2 !! k = d !! k).
  { intros k Hf Hk. unfold designated in Hk. rewrite U2, U1 by set_solver.
    reflexivity. }
  destruct o2 as [[]|e]; [|intros [= <- <-]; split; [exact H2|discriminate]].
  pose proof (unmask_list_field_off store "sites" u2) as U3.
  destruct (unmask_list_field store "sites" u2) as [o3 u3]. simpl in U3.
  assert (H3 : forall k, k <> flag -> k ∉ designated -> u3 !! k = d !! k).
  { intros k Hf Hk. unfold designated in Hk. rewrite U3 by set_solver.
    apply H2; [exact Hf|exact Hk]. }
  destruct o3 as [[]|e]; intros [= <- <-].
  - split; [|intros _; apply lookup_insert_eq].
    intros k Hf Hk. rewrite lookup_insert_ne by (unfold flag in Hf; congruence).
    apply H3; [exact Hf|exact Hk].
  - split; [exact H3|discriminate].
Qed.

(** One iteration of [tokenize_batch]: what changes in the state. *)
Lemma tokenize_study_effect m study o m' :
  tokenize_study study m = (o, m') ->
  heap m ⊆ heap m' /\
  grows (self m) (self m') /\
  (vault_inv (self m) -> vault_inv (self m')) /\
  forall r, o = Return r ->
    heap m !! r = None /\
    exists d d', heap m !! study = Some d /\ heap m' !! r = Some d' /\
                 masked_copy d d'.
Proof.
  destruct (heap m !! study) as [d|] eqn:Hd.
  - rewrite (tokenize_study_run _ _ _ Hd).
    destruct (mask_dict d (self m)) as [o1 [d' s']] eqn:E. simpl.
    intros [= <- <-]. simpl.
    pose proof (grows_mask_dict d (self m)) as Hg.
    pose proof (vault_inv_mask_dict d (self m)) as Hv.
    rewrite E in Hg, Hv. simpl in Hg, Hv.
    split; [apply insert_subseteq, fresh_unused|].
    split; [exact Hg|]. split; [exact Hv|].
    intros r Hr. destruct o1 as [[]|e]; [|discriminate Hr].
    injection Hr as <-. split; [apply fresh_unused|].
    exists d, d'. split; [reflexivity|]. split; [apply lookup_insert_eq|].
    exact (mask_dict_spec _ _ _ _ _ E).
  - rewrite (tokenize_study_dangling _ _ Hd). intros [= <- <-].
    split; [reflexivity|]. split; [apply grows_refl|]. split; [auto|].
    discriminate.
Qed.

(** The loop of [tokenize_batch]. *)
Lemma tokenize_loop_effect studies : forall acc m o m',
  tokenize_loop studies acc m = (o, m') ->
  heap m ⊆ heap m' /\
  grows (self m) (self m') /\
  (vault_inv (self m) -> vault_inv (self m')) /\
  forall out, o = Return out ->
    exists new, out = acc ++ new /\
      Forall2 (fun study r =>
                 heap m !! r = None /\
                 exists d', heap m' !! r = Some d' /\
                   d' !! flag = Some (VBool true) /\
                   forall d, heap m !! study = Some d -> masked_copy d d')
              studies new.
Proof.
  induction studies as [|study rest IH]; intros acc m o m'; simpl.
  - intros [= <- <-]. split; [reflexivity|]. split; [apply grows_refl|].
    split; [auto|]. intros out [= <-]. exists []. rewrite app_nil_r.
    split; [reflexivity|constructor].
  - unfold bind.
    destruct (tokenize_study study m) as [o1 m1] eqn:E1.
    destruct (tokenize_study_effect _ _ _ _ E1) as (F1 & G1 & V1 & R1).
    destruct o1 as [r|e].
    + intros E2. destruct (IH _ _ _ _ E2) as (F2 & G2 & V2 & R2).
      split; [etrans; eassumption|].
      split; [eapply grows_trans; eassumption|]. split; [auto|].
      intros out Hout. destruct (R2 out Hout) as (new & -> & Hall).
      destruct (R1 r eq_refl) as (Hr & d & d' & Hd & Hd' & Hm).
      exists (r :: new). split; [rewrite <- app_assoc; reflexivity|].
      constructor.
      * split; [exact Hr|]. exists d'. split; [|split].
        -- eapply lookup_weaken; eassumption.
        -- apply Hm.
        -- intros d0 Hd0. assert (d0 = d) as -> by congruence. exact Hm.
      * eapply Forall2_impl; [exact Hall|].
        intros study' r' (Hr' & d2 & Hd2 & Hf2 & Hm2). split.
        -- destruct (heap m !! r') eqn:Hx; [|reflexivity].
           eapply lookup_weaken in Hx; [|exact F1]. congruence.
        -- exists d2. split; [exact Hd2|]. split; [exact Hf2|].
           intros d0 Hd0. apply Hm2.
           eapply lookup_weaken; eassumption.
    + intros [= <- <-]. split; [exact F1|]. split; [exact G1|].
      split; [exact V1|]. discriminate.
Qed.

(** [detokenize_study]: what changes in the state. *)
Lemma detokenize_study_effect m study o m' :
  detokenize_study study m = (o, m') ->
  self m' = self m /\
  heap m ⊆ heap m' /\
  forall r, o = Return r ->
    heap m !! r = None /\
    exists d d', heap m !! study = Some d /\ heap m' !! r = Some d' /\
                 unmask_dict (token_store (self m)) d = (Return tt, d').
Proof.
  destruct (heap m !! study) as [d|] eqn:Hd.
  - rewrite (detokenize_study_run _ _ _ Hd).
    destruct (unmask_dict (token_store (self m)) d) as [o1 d'] eqn:E. simpl.
    intros [= <- <-]. simpl. split; [reflexivity|].
    split; [apply insert_subseteq, fresh_unused|].
    intros r Hr. destruct o1 as [[]|e]; [|discriminate Hr].
    injection Hr as <-. split; [apply fresh_unused|].
    exists d, d'. split; [reflexivity|]. split; [apply lookup_insert_eq|].
    exact E.
  - rewrite (detokenize_study_dangling _ _ Hd). intros [= <- <-].
    split; [reflexivity|]. split; [reflexivity|]. discriminate.
Qed.

End Heap.

(** ** Width of the formatted counter *)

Section Width.

Lemma of_uint_acc_lower d : forall acc,
  acc * 10 ^ nb_digits d <= Nat.of_uint_acc d acc.
Proof.
  induction d; intros acc; simpl Nat.of_uint_acc; simpl nb_digits;
    rewrite ?Nat.tail_mul_spec;
    try (etrans; [|apply IHd]); rewrite ?Nat.pow_succ_r', ?Nat.pow_0_r; nia.
Qed.

Lemma of_uint_lower d :
  nzhead d = d -> d <> Nil -> 10 ^ (nb_digits d - 1) <= Nat.of_uint d.
Proof.
  intros Hn Hd. unfold Nat.of_uint.
  destruct d; try congruence.
  1:{ exfalso. exact (DecimalFacts.nzhead_nonzero _ _ Hn). }
  all: cbn [nb_digits Nat.of_uint_acc]; rewrite Nat.tail_mul_spec.
  all: replace (S (nb_digits d) - 1) with (nb_digits d) by lia.
  all: etrans; [|apply of_uint_acc_lower].
  all: nia.
Qed.

(** Below one million the counter has at most six digits. *)
Lemma nb_digits_to_uint n :
  (Z.of_nat n < 1000000)%Z -> nb_digits (Nat.to_uint n) <= 6.
Proof.
  intros Hn.
  pose proof (Unsigned.to_of (Nat.to_uint n)) as Hnorm.
  rewrite Unsigned.of_to in Hnorm.
  destruct (nzhead (Nat.to_uint n)) eqn:Hz.
  1:{ unfold unorm in Hnorm. rewrite Hz in Hnorm. rewrite Hnorm. simpl. lia. }
  all: rewrite DecimalFacts.unorm_nzhead in Hnorm by (rewrite Hz; discriminate).
  all: pose proof (of_uint_lower (Nat.to_uint n)) as Hlow.
  all: rewrite <- Hnorm, Unsigned.of_to in Hlow.
  all: specialize (Hlow eq_refl).
  all: destruct (le_lt_dec (nb_digits (Nat.to_uint n)) 6) as [Hle|Hgt];
    [exact Hle|exfalso].
  all: assert (Hpow : 10 ^ 6 <= 10 ^ (nb_digits (Nat.to_uint n) - 1))
    by (apply Nat.pow_le_mono_r; lia).
  all: assert (Hne : Nat.to_uint n <> Nil) by (rewrite Hnorm, Hz; discriminate).
  all: specialize (Hlow Hne).
  all: assert (Hz6 : Z.of_nat (10 ^ 6) = 1000000%Z)
    by (rewrite Nat2Z.inj_pow; reflexivity).
  all: apply Nat2Z.inj_le in Hpow, Hlow; lia.
Qed.

Lemma length_format_06d n :
  (Z.of_nat n < 1000000)%Z -> String.length (format_06d n) = 6.
Proof.
  intros Hn. apply nb_digits_to_uint in Hn.
  unfold format_06d, str_of_nat.
  rewrite length_app_string, length_zeros, length_string_of_uint. lia.
Qed.

Lemma length_format_06d_min n : 6 <= String.length (format_06d n).
Proof.
  unfold format_06d, str_of_nat.
  rewrite length_app_string, length_zeros, length_string_of_uint. lia.
Qed.

Lemma of_uint_acc_upper d : forall acc,
  Nat.of_uint_acc d acc < (acc + 1) * 10 ^ nb_digits d.
Proof.
  induction d; intros acc; simpl Nat.of_uint_acc; simpl nb_digits;
    rewrite ?Nat.tail_mul_spec;
    try (eapply Nat.lt_le_trans; [apply IHd|]);
    rewrite ?Nat.pow_succ_r', ?Nat.pow_0_r; nia.
Qed.

(** From one million on the counter has more than six digits. *)
Lemma length_format_06d_over n :
  (1000000 <= Z.of_nat n)%Z -> 6 < String.length (format_06d n).
Proof.
  intros Hn.
  pose proof (of_uint_acc_upper (Nat.to_uint n) 0) as Hup.
  fold (Nat.of_uint (Nat.to_uint n)) in Hup. rewrite Unsigned.of_to in Hup.
  unfold format_06d, str_of_nat.
  rewrite length_app_string, length_zeros, length_string_of_uint.
  destruct (le_lt_dec (nb_digits (Nat.to_uint n)) 6) as [Hle|Hgt]; [exfalso|lia].
  assert (Hpow : 10 ^ nb_digits (Nat.to_uint n) <= 10 ^ 6)
    by (apply Nat.pow_le_mono_r; lia).
  assert (Hz6 : Z.of_nat (10 ^ 6) = 1000000%Z)
    by (rewrite Nat2Z.inj_pow; reflexivity).
  apply Nat2Z.inj_le in Hpow. apply Nat2Z.inj_lt in Hup. lia.
Qed.

End Width.

(** ** The masker: round trip, tokens, counters, frames *)

Section Masker.
Import Skyflow Summary.

Lemma designated_not_flag field : field ∈ designated -> field <> flag.
Proof.
  unfold designated, flag. intros Hfield ->.
  repeat (apply elem_of_cons in Hfield as [Hfield|Hfield];
          [discriminate Hfield|]).
  apply elem_of_nil in Hfield. exact Hfield.
Qed.

Lemma tokenize_batch_single m study :
  tokenize_batch [study] m
  = (match (tokenize_study study m).1 with
     | Return r => Return [r]
     | Raise e => Raise e
     end, (tokenize_study study m).2).
Proof.
  unfold tokenize_batch. simpl. unfold bind.
  destruct (tokenize_study study m) as [[r|e] m1]; reflexivity.
Qed.

(** C1 (amended): for a study whose [investigators] and [sites] entries,
    when present, are lists, masking the one-study batch and unmasking the
    result both succeed, and the restored study holds under every designated
    field exactly what the original held (list fields element by element);
    it differs from the original in the protection flag only. *)
Theorem mask_unmask_round_trip m study d :
  heap m !! study = Some d ->
  list_or_absent d "investigators" ->
  list_or_absent d "sites" ->
  exists masked m1 restored m2 d2,
    tokenize_batch [study] m = (Return [masked], m1) /\
    detokenize_study masked m1 = (Return restored, m2) /\
    heap m2 !! restored = Some d2 /\
    d2 = <[flag := VBool false]> d /\
    forall field, field ∈ designated -> d2 !! field = d !! field.
Proof.
  intros Hd Hi Hs.
  destruct (round_trip_dict d (self m) Hi Hs) as (d' & s' & Emask & Eunmask).
  rewrite tokenize_batch_single, (tokenize_study_run _ _ _ Hd), Emask.
  cbn [fst snd on_copy].
  set (masked := fresh (dom (heap m))).
  set (m1 := mkMem (<[masked := d']> (heap m)) s').
  assert (Hm1 : heap m1 !! masked = Some d') by apply lookup_insert_eq.
  exists masked, m1. eexists _, _, _.
  split; [reflexivity|].
  rewrite (detokenize_study_run _ _ _ Hm1). cbn [self m1]. rewrite Eunmask.
  cbn [fst snd on_copy].
  split; [reflexivity|]. split; [apply lookup_insert_eq|].
  split; [reflexivity|].
  intros field Hfield. apply lookup_insert_ne, not_eq_sym, designated_not_flag.
  exact Hfield.
Qed.

Lemma mask_unmask_round_trip_witness :
  exists masked m1 restored m2 d2,
    tokenize_batch [0] sample_mem = (Return [masked], m1) /\
    detokenize_study masked m1 = (Return restored, m2) /\
    heap m2 !! restored = Some d2 /\
    d2 = <[flag := VBool false]> sample_study /\
    forall field, field ∈ designated -> d2 !! field = sample_study !! field.
Proof.
  apply (mask_unmask_round_trip sample_mem 0 sample_study).
  - reflexivity.
  - right. exists [VStr "Dr. Ada"; VStr "Dr. Bob"]. reflexivity.
  - left. reflexivity.
Defined.

(** C1, as stated, fails: a non-empty [investigators] entry that is a
    string is iterated character by character, and what comes back is the
    list of its characters. *)
Lemma round_trip_string_field :
  let m := mkMem {[0 := string_study]} init in
  let masked := tokenize_batch [0] m in
  let restored := detokenize_study 1 masked.2 in
  string_study !! "investigators" = Some (VStr "ab") /\
  truthy (VStr "ab") = true /\
  masked.1 = Return [1] /\
  restored.1 = Return 2 /\
  heap restored.2 !! 2 ≫= (fun d2 => d2 !! "investigators")
  = Some (VList [VStr "a"; VStr "b"]).
Proof. vm_compute. repeat split. Qed.

Lemma generate_tokens_run n : forall h store c,
  generate_tokens n (mkMem h (mkSkyflowManager store c))
  = (Return (map token_of (seq (S c) n)),
     mkMem h (mkSkyflowManager store (c + n))).
Proof.
  induction n as [|n IH]; intros h store c; simpl.
  - rewrite Nat.add_0_r. reflexivity.
  - unfold bind, _generate_token. simpl. rewrite IH.
    rewrite Nat.add_succ_r. reflexivity.
Qed.

Lemma NoDup_tokens c n : NoDup (map token_of (seq c n)).
Proof.
  apply NoDup_fmap_2_strong; [|apply NoDup_seq].
  intros a b _ _ Hab. apply token_of_inj, Hab.
Qed.

(** C3 (amended): [n] successive mints at counter [c] return the tokens of
    the counter values [c+1 .. c+n], in that order, and leave the counter at
    [c+n]; each token is [sky_] followed by the counter value in decimal,
    padded with zeros to at least six digits: exactly six digits below one
    million, more than six from one million on; the tokens are pairwise
    distinct, and tokens of distinct counter values always differ; a fresh
    instance mints [sky_000001] first. *)
Theorem tokens_unique n h store c :
  let m := mkMem h (mkSkyflowManager store c) in
  generate_tokens n m
  = (Return (map token_of (seq (S c) n)),
     mkMem h (mkSkyflowManager store (c + n))) /\
  NoDup (map token_of (seq (S c) n)) /\
  (forall j, token_of j = "sky_" +:+ format_06d j /\
             6 <= String.length (format_06d j) /\
             ((Z.of_nat j < 1000000)%Z -> String.length (format_06d j) = 6) /\
             ((1000000 <= Z.of_nat j)%Z -> 6 < String.length (format_06d j))) /\
  (forall i j, token_of i = token_of j -> i = j) /\
  (_generate_token (mkMem h init)).1 = Return "sky_000001" /\
  token_counter (self (_generate_token m).2) = S c.
Proof.
  split; [apply generate_tokens_run|].
  split; [apply NoDup_tokens|].
  split.
  { intros j. split; [reflexivity|].
    split; [apply length_format_06d_min|].
    split; [apply length_format_06d|apply length_format_06d_over]. }
  split; [apply token_of_inj|].
  split; reflexivity.
Qed.

(** C3, as stated, fails from the millionth token on: after 999999 mints on
    a fresh instance the next token is [sky_1000000], whose counter part has
    seven digits. *)
Lemma millionth_token :
  let minted := generate_tokens (Z.to_nat 999999) (mkMem ∅ init) in
  let next := _generate_token minted.2 in
  next.1 = Return "sky_1000000" /\
  String.length (format_06d (Z.to_nat 1000000)) = 7.
Proof.
  cbv zeta. unfold init. rewrite generate_tokens_run. cbn [snd].
  split; vm_compute; reflexivity.
Qed.

(** C6, at the failing input: a study whose [lead_sponsor] holds a tag of a
    token that was never minted and whose [investigators] entry is [None]
    makes [detokenize_study] raise; [tokenize_batch] accepts the same entry,
    so a study loaded with a null [investigators] entry cannot be
    detokenized either. *)
Theorem detokenize_null_list_field :
  let m := mkMem {[0 := null_study]} init in
  let loaded := mkMem {[0 := null_loaded_study]} init in
  startswith "[TOKENIZED:sky_000099]" "[TOKENIZED:" = true /\
  token_store (self m) !! extract_token "[TOKENIZED:sky_000099]" = None /\
  (detokenize_study 0 m).1
  = Raise (TypeError "'NoneType' object is not iterable") /\
  (tokenize_batch [0] loaded).1 = Return [1] /\
  (detokenize_study 1 (tokenize_batch [0] loaded).2).1
  = Raise (TypeError "'NoneType' object is not iterable").
Proof.
  split; [reflexivity|]. split; [reflexivity|].
  split; [vm_compute; reflexivity|].
  split; vm_compute; reflexivity.
Qed.

Lemma unmask_item_unknown store t :
  store !! extract_token t = None ->
  unmask_item store (VStr t) = VStr t.
Proof.
  intros Ht. simpl. destruct (startswith t "[TOKENIZED:"); [|reflexivity].
  rewrite Ht. reflexivity.
Qed.

(** Where the list fields are lists, an unknown token is inert: the call
    returns, and every tag of a token that the vault does not hold is left
    as it is, under [lead_sponsor] and at every position of a list field. *)
Lemma unknown_token_inert m study d :
  heap m !! study = Some d ->
  list_or_absent d "investigators" ->
  list_or_absent d "sites" ->
  exists r m' d',
    detokenize_study study m = (Return r, m') /\
    heap m' !! r = Some d' /\
    (forall v, d !! "lead_sponsor" = Some v ->
               unknown (token_store (self m)) v ->
               d' !! "lead_sponsor" = Some v) /\
    (forall k l, k = "investigators" \/ k = "sites" ->
       d !! k = Some (VList l) ->
       exists l', d' !! k = Some (VList l') /\ length l' = length l /\
         forall i v, l !! i = Some v ->
                     unknown (token_store (self m)) v ->
                     l' !! i = Some v).
Proof.
  intros Hd Hi Hs. rewrite (detokenize_study_run _ _ _ Hd).
  set (store := token_store (self m)).
  unfold unmask_dict. cbv zeta.
  pose proof (unmask_sponsor_off store d) as U1.
  set (u1 := unmask_sponsor store d) in *.
  assert (L1 : forall v, d !! "lead_sponsor" = Some v -> unknown store v ->
                         u1 !! "lead_sponsor" = Some v).
  { intros v Hv (t & -> & Hstart & Hnone). unfold u1, unmask_sponsor.
    rewrite Hv, Hstart, Hnone. simpl. apply lookup_insert_eq. }
  assert (field : forall k u, list_or_absent u k ->
            exists u', unmask_list_field store k u = (Return tt, u') /\
              off k u u' /\
              forall l, u !! k = Some (VList l) ->
                u' !! k = Some (VList (map (unmask_item store) l))).
  { intros k u [Habs|[l Hl]].
    - rewrite unmask_list_field_absent by exact Habs.
      exists u. split; [reflexivity|]. split; [intros ? _; reflexivity|].
      congruence.
    - rewrite (unmask_list_field_list _ _ _ _ Hl). eexists.
      split; [reflexivity|]. split.
      + intros k' Hk'. apply lookup_insert_ne. congruence.
      + intros l0 Hl0. assert (l0 = l) as -> by congruence.
        apply lookup_insert_eq. }
  destruct (field "investigators" u1) as (u2 & E2 & U2 & L2).
  { unfold list_or_absent. rewrite U1 by discriminate. exact Hi. }
  destruct (field "sites" u2) as (u3 & E3 & U3 & L3).
  { unfold list_or_absent. rewrite U2, U1 by discriminate. exact Hs. }
  rewrite E2, E3. cbn [fst snd on_copy].
  eexists _, _, _. split; [reflexivity|].
  split; [apply lookup_insert_eq|]. split.
  - intros v Hv Hu. rewrite lookup_insert_ne, U3, U2 by discriminate.
    apply L1; assumption.
  - assert (items : forall l, exists l',
              map (unmask_item store) l = l' /\ length l' = length l /\
              forall i v, l !! i = Some v -> unknown store v -> l' !! i = Some v).
    { intros l. eexists. split; [reflexivity|]. split; [apply length_map|].
      intros i v Hv (t & -> & _ & Hnone).
      rewrite list_lookup_fmap, Hv. simpl.
      f_equal. apply (unmask_item_unknown store t Hnone). }
    intros k l [-> | ->] Hl.
    + destruct (items l) as (l' & <- & Hlen & Hall).
      eexists. split; [|split; [exact Hlen|exact Hall]].
      rewrite lookup_insert_ne, U3 by discriminate.
      apply L2. rewrite U1 by discriminate. exact Hl.
    + destruct (items l) as (l' & <- & Hlen & Hall).
      eexists. split; [|split; [exact Hlen|exact Hall]].
      rewrite lookup_insert_ne by discriminate.
      apply L3. rewrite U2, U1 by discriminate. exact Hl.
Qed.

Lemma run_op_inv o m :
  grows (self m) (self (run_op o m)) /\
  (vault_inv (self m) -> vault_inv (self (run_op o m))).
Proof.
  destruct o as [studies|study]; simpl.
  - unfold tokenize_batch.
    destruct (tokenize_loop studies [] m) as [o m'] eqn:E.
    destruct (tokenize_loop_effect _ _ _ _ _ E) as (_ & G & V & _).
    split; assumption.
  - destruct (detokenize_study study m) as [o m'] eqn:E.
    destruct (detokenize_study_effect _ _ _ _ E) as (Hself & _).
    cbn [snd]. rewrite Hself. split; [apply grows_refl|auto].
Qed.

Lemma run_ops_inv ops : forall m,
  vault_inv (self m) -> vault_inv (self (run_ops ops m)).
Proof.
  induction ops as [|o ops IH]; intros m Hm; [exact Hm|].
  apply (IH (run_op o m)), run_op_inv, Hm.
Qed.

(** C7: after any sequence of [tokenize_batch] and [detokenize_study] calls
    on a new instance, whether they returned or raised, [get_stats] reports
    the counter as [total_tokens] and the number of vault entries as
    [vault_size], and the two are equal: the vault holds exactly the tokens
    of the counter values [1 .. total_tokens], one entry each, and a further
    call never removes an entry nor lowers the counter. *)
Theorem stats_counts_agree h ops :
  let m := run_ops ops (mkMem h init) in
  total_tokens (get_stats (self m)) = token_counter (self m) /\
  vault_size (get_stats (self m)) = size (token_store (self m)) /\
  total_tokens (get_stats (self m)) = vault_size (get_stats (self m)) /\
  (forall t, is_Some (token_store (self m) !! t) <->
             exists j, 1 <= j <= token_counter (self m) /\ t = token_of j) /\
  (forall o, grows (self m) (self (run_op o m))).
Proof.
  intros m.
  destruct (run_ops_inv ops (mkMem h init) vault_inv_init) as [Hsize Hdom].
  fold m in Hsize, Hdom.
  split; [reflexivity|]. split; [reflexivity|].
  split; [simpl; congruence|]. split; [exact Hdom|].
  intros o. apply run_op_inv.
Qed.

(** C8: [tokenize_batch] leaves every dictionary that existed before the
    call as it was, whether it returns or raises: the heap after the call
    extends the heap before it.  The list it returns has one reference per
    input study, each to a dictionary that did not exist before the call. *)
Theorem mask_keeps_inputs studies m :
  heap m ⊆ heap (tokenize_batch studies m).2 /\
  forall out, (tokenize_batch studies m).1 = Return out ->
    length out = length studies /\
    Forall (fun r => heap m !! r = None) out.
Proof.
  unfold tokenize_batch.
  destruct (tokenize_loop studies [] m) as [o m'] eqn:E.
  destruct (tokenize_loop_effect _ _ _ _ _ E) as (F & _ & _ & R).
  split; [exact F|]. simpl. intros out ->.
  destruct (R out eq_refl) as (new & -> & Hall). simpl. split.
  - symmetry. eapply Forall2_length, Hall.
  - clear -Hall. induction Hall as [|study r studies new [Hr _] _ IH];
      constructor; assumption.
Qed.

(** C9: every dictionary returned by [tokenize_batch] holds [True] under
    the protection flag, and the dictionary returned by [detokenize_study]
    holds [False] under it, whatever fields the study has. *)
Theorem protection_flag :
  (forall studies m out m',
     tokenize_batch studies m = (Return out, m') ->
     Forall (fun r => exists d', heap m' !! r = Some d' /\
                                 d' !! flag = Some (VBool true)) out) /\
  (forall study m r m',
     detokenize_study study m = (Return r, m') ->
     exists d', heap m' !! r = Some d' /\ d' !! flag = Some (VBool false)).
Proof.
  split.
  - intros studies m out m' E. unfold tokenize_batch in E.
    destruct (tokenize_loop_effect _ _ _ _ _ E) as (_ & _ & _ & R).
    destruct (R out eq_refl) as (new & -> & Hall). simpl.
    clear -Hall. induction Hall as [|study r studies new Hr _ IH];
      constructor; [|exact IH].
    destruct Hr as (_ & d' & Hd' & Hflag & _). exists d'. split; assumption.
  - intros study m r m' E.
    destruct (detokenize_study_effect _ _ _ _ E) as (_ & _ & R).
    destruct (R r eq_refl) as (_ & d & d' & _ & Hd' & Eu).
    exists d'. split; [exact Hd'|].
    apply (unmask_dict_spec _ _ _ _ Eu). reflexivity.
Qed.

Lemma protection_flag_witness :
  Forall (fun r => exists d', heap (tokenize_batch [0] sample_mem).2 !! r = Some d' /\
                              d' !! flag = Some (VBool true)) [1] /\
  exists d', heap (detokenize_study 0 sample_mem).2 !! 1 = Some d' /\
             d' !! flag = Some (VBool false).
Proof.
  split.
  - apply (proj1 protection_flag [0] sample_mem [1]
                 (tokenize_batch [0] sample_mem).2).
    vm_compute. reflexivity.
  - apply (proj2 protection_flag 0 sample_mem 1
                 (detokenize_study 0 sample_mem).2).
    vm_compute. reflexivity.
Defined.

(** C10: [detokenize_study] never changes the vault or the counter, and
    leaves every existing dictionary as it was, whether it returns or
    raises.  The dictionary it returns agrees with the study on every field
    other than the designated three and the flag.  A second call on the same
    study gives a result with the same items, or raises the same exception. *)
Theorem unmask_read_only study m :
  let m1 := (detokenize_study study m).2 in
  self m1 = self m /\
  heap m ⊆ heap m1 /\
  (forall r d, (detokenize_study study m).1 = Return r ->
     heap m !! study = Some d ->
     exists d', heap m1 !! r = Some d' /\
       forall k, k <> flag -> k ∉ designated -> d' !! k = d !! k) /\
  observed (detokenize_study study m1) = observed (detokenize_study study m).
Proof.
  intros m1. unfold m1.
  destruct (detokenize_study study m) as [o m'] eqn:E.
  destruct (detokenize_study_effect _ _ _ _ E) as (Hself & F & R).
  cbn [fst snd]. split; [exact Hself|]. split; [exact F|]. split.
  - intros r d -> Hd. destruct (R r eq_refl) as (_ & d0 & d' & Hd0 & Hd' & Eu).
    assert (d0 = d) as -> by congruence.
    exists d'. split; [exact Hd'|]. apply (unmask_dict_spec _ _ _ _ Eu).
  - destruct (heap m !! study) as [d|] eqn:Hd.
    + assert (Hd' : heap m' !! study = Some d)
        by (eapply lookup_weaken; eassumption).
      rewrite (detokenize_study_run _ _ _ Hd) in E.
      rewrite (detokenize_study_run _ _ _ Hd'), Hself.
      injection E as <- <-. unfold observed. cbn [fst snd].
      destruct (unmask_dict (token_store (self m)) d) as [[[]|e] d'];
        cbn [fst snd on_copy heap]; [|reflexivity].
      rewrite !lookup_insert_eq. reflexivity.
    + rewrite (detokenize_study_dangling _ _ Hd) in E. injection E as <- <-.
      rewrite (detokenize_study_dangling _ _ Hd). reflexivity.
Qed.

End Masker.

(** ** The in-memory variant of the handlers *)

Section InMemory.
Import Skyflow FastapiBackend.

Variable exn_str : exn -> string.
Variable json_dumps : list dict -> string.

Lemma slice_to_all {A} (xs : list A) (stop : Z) :
  (Z.of_nat (length xs) <= stop)%Z -> slice_to xs stop = xs.
Proof.
  intros H. unfold slice_to.
  destruct (0 <=? stop)%Z eqn:E; [|apply Z.leb_gt in E; lia].
  apply firstn_all2. lia.
Qed.

Lemma slice_to_length {A} (xs : list A) (stop : Z) :
  (0 <= stop)%Z ->
  Z.of_nat (length (slice_to xs stop)) = Z.min (Z.of_nat (length xs)) stop.
Proof.
  intros H. unfold slice_to.
  destruct (0 <=? stop)%Z eqn:E; [|apply Z.leb_gt in E; lia].
  rewrite length_firstn. lia.
Qed.

(** An accepted load: the batch was not empty, the masker returned, and its
    result is the stored batch. *)
Lemma load_data_accepted now condition request_studies a resp a' :
  load_data exn_str now condition request_studies a = (Return resp, a') ->
  request_studies <> [] /\
  tokenize_batch request_studies (memory a) = (Return (studies a'), memory a') /\
  claude_client a' = claude_client a /\
  lr_studies_loaded resp = length request_studies /\
  lr_skyflow_protected resp = length (studies a').
Proof.
  unfold load_data, load_data_try, except_exception.
  destruct request_studies as [|study rest]; [discriminate|].
  destruct (tokenize_batch (study :: rest) (memory a)) as [[out|e] m];
    [|discriminate].
  intros [= <- <-]. simpl. repeat split. discriminate.
Qed.

(** A load of a batch that the masker accepts is accepted. *)
Lemma load_data_total now condition request_studies a out m :
  request_studies <> [] ->
  tokenize_batch request_studies (memory a) = (Return out, m) ->
  exists resp md,
    load_data exn_str now condition request_studies a
    = (Return resp, mkApp m out (Some md) (claude_client a)).
Proof.
  intros Hne E. unfold load_data, load_data_try, except_exception.
  destruct request_studies as [|study rest]; [congruence|].
  rewrite E. eexists _, _. reflexivity.
Qed.

(** C2, at the failing input: in the in-memory variant the rejection of an
    empty batch is raised inside the [try] block of [load_data], whose only
    handler turns every exception into status 500; the state is unchanged.
    The cache-backed variant answers 400 and leaves the cache unchanged. *)
Theorem empty_load_status :
  (forall now condition a,
     load_data exn_str now condition [] a
     = (Raise (HTTPException 500
                 (exn_str (HTTPException 400 "No studies provided"))), a)) /\
  (forall now data r client,
     default (VList []) (data !! "studies") = VList [] ->
     FullTestBackend.cache_data exn_str now data
       (FullTestBackend.mkApp (Some r) client)
     = (FullTestBackend.error "No studies provided" 400,
        FullTestBackend.mkApp (Some r) client)).
Proof.
  split.
  - intros now condition a. reflexivity.
  - intros now data r client Hs. unfold FullTestBackend.cache_data. simpl.
    rewrite Hs. reflexivity.
Qed.

(** What two accepted loads leave in the store. *)
Lemma second_load_replaces nowA cA A rA nowB cB B rB a a1 a2 :
  load_data exn_str nowA cA A a = (Return rA, a1) ->
  load_data exn_str nowB cB B a1 = (Return rB, a2) ->
  B <> [] /\
  length (studies a2) = length B /\
  Forall2 (fun b r =>
             heap (memory a1) !! r = None /\
             exists d', heap (memory a2) !! r = Some d' /\
               forall d, heap (memory a1) !! b = Some d -> masked_copy d d')
          B (studies a2) /\
  Forall (fun r => r ∉ studies a1) (studies a2).
Proof.
  intros EA EB.
  destruct (load_data_accepted _ _ _ _ _ _ EA) as (_ & TA & _).
  destruct (load_data_accepted _ _ _ _ _ _ EB) as (HB & TB & _).
  unfold tokenize_batch in TA, TB.
  destruct (tokenize_loop_effect _ _ _ _ _ TA) as (_ & _ & _ & RA).
  destruct (tokenize_loop_effect _ _ _ _ _ TB) as (_ & _ & _ & RB).
  destruct (RA _ eq_refl) as (newA & HnewA & HallA).
  destruct (RB _ eq_refl) as (newB & HnewB & HallB).
  simpl in HnewA, HnewB. subst newA newB.
  split; [exact HB|]. split; [symmetry; eapply Forall2_length, HallB|].
  split.
  - eapply Forall2_impl; [exact HallB|].
    intros b r (Hr & d' & Hd' & _ & Hm). split; [exact Hr|].
    exists d'. split; [exact Hd'|exact Hm].
  - assert (Hlive : Forall (fun r => is_Some (heap (memory a1) !! r)) (studies a1)).
    { clear -HallA. induction HallA as [|x r xs rs Hr _ IH]; constructor;
        [|exact IH].
      destruct Hr as (_ & d' & Hd' & _). eexists. exact Hd'. }
    assert (Hnew : Forall (fun r => heap (memory a1) !! r = None) (studies a2)).
    { clear -HallB. induction HallB as [|x r xs rs Hr _ IH]; constructor;
        [|exact IH].
      destruct Hr as (Hr & _). exact Hr. }
    rewrite Forall_forall in Hlive, Hnew. apply Forall_forall.
    intros r Hr2 Hr1. specialize (Hlive _ Hr1). specialize (Hnew _ Hr2).
    rewrite Hnew in Hlive. destruct Hlive as [? [=]].
Qed.

Lemma get_studies_stored limit condition a :
  studies a <> [] ->
  get_studies exn_str limit condition a
  = (Return (mkStudiesResponse
               (length (studies a))
               (Z.min (Z.of_nat (length (studies a))) (default 50%Z limit))
               (snapshot (memory a) (slice_to (studies a) (default 50%Z limit)))),
     a).
Proof.
  intros Hne. unfold get_studies.
  destruct (studies a) as [|r rs]; [congruence|]. reflexivity.
Qed.

Lemma ask_claude_answered question a client answer :
  claude_client a = Some client ->
  String.eqb question EmptyString = false ->
  0 < length (studies a) ->
  client (context (length (studies a)) (Nat.min 40 (length (studies a)))
                  (json_dumps (snapshot (memory a) (firstn 40 (studies a))))
                  question)
  = Return answer ->
  ask_claude exn_str json_dumps question a
  = (Return (mkAskResponse question answer
                           (length (studies a))
                           (Nat.min 40 (length (studies a)))
                           "claude-sonnet-4-20250514"), a).
Proof.
  intros Hc Hq Hn Hans. unfold ask_claude. rewrite Hc, Hq.
  destruct (studies a) as [|r rs] eqn:Hs; [simpl in Hn; lia|].
  rewrite <- Hs in *. clear Hs.
  change (slice_to (studies a) 40) with (firstn 40 (studies a)).
  rewrite length_firstn, Hans. reflexivity.
Qed.

End InMemory.

(** ** The cache-backed variant of the handlers *)

Section CacheBacked.
Import FullTestBackend.

Variable exn_str : exn -> string.
Variable json_dumps : value -> string.
Variable format : value -> string.

(** A key that was set and given an expiry reads back the document. *)
Lemma redis_get_set_expire key v seconds r :
  redis_get key (redis_expire key seconds (redis_set key v r)) = Some v.
Proof.
  unfold redis_get, redis_expire, redis_set.
  rewrite lookup_alter_eq, lookup_insert_eq. reflexivity.
Qed.

Lemma redis_get_set_expire_ne key key' v seconds r :
  key <> key' ->
  redis_get key' (redis_expire key seconds (redis_set key v r))
  = redis_get key' r.
Proof.
  intros Hne. unfold redis_get, redis_expire, redis_set.
  rewrite lookup_alter_ne, lookup_insert_ne by exact Hne. reflexivity.
Qed.

(** An accepted [cache_data]: status 200, and the batch is what
    [trials:all] now holds. *)
Lemma cache_data_accepted now condition records r client :
  records <> [] ->
  exists r',
    cache_data exn_str now (cache_request condition records) (mkApp (Some r) client)
    = (mkResponse
         (VDict [("status", VStr "success");
                 ("message", VStr ("Cached " +:+ str_of_nat (length records)
                                     +:+ " studies in Redis"));
                 ("condition", VStr condition);
                 ("studies_cached", VInt (Z.of_nat (length records)))])
         200,
       mkApp (Some r') client) /\
    redis_get "trials:all" r' = Some (VList records).
Proof.
  intros Hne. unfold cache_data, cache_request. cbn [redis_client claude_client].
  rewrite lookup_insert_eq, lookup_insert_ne, lookup_singleton_eq by discriminate.
  cbn [default]. destruct records as [|x xs]; [congruence|].
  cbn [truthy negb len]. eexists. split; [reflexivity|].
  rewrite redis_get_set_expire_ne by discriminate.
  apply redis_get_set_expire.
Qed.

Lemma get_studies_cached limit records r client :
  redis_get "trials:all" r = Some (VList records) ->
  get_studies exn_str None limit (mkApp (Some r) client)
  = mkResponse
      (VDict [("total", VInt (Z.of_nat (length records)));
              ("returned", VInt (Z.min (Z.of_nat (length records))
                                       (default 50%Z limit)));
              ("studies", VList (slice_to records (default 50%Z limit)));
              ("source", VStr "Redis Cache")])
      200.
Proof.
  intros Hget. unfold get_studies. cbn [redis_client]. rewrite Hget.
  reflexivity.
Qed.

Lemma ask_claude_cached data question records r client answer :
  data !! "question" = Some question ->
  truthy question = true ->
  redis_get "trials:all" r = Some (VList records) ->
  client (context (length records) (Nat.min 40 (length records))
                  (json_dumps (VList (firstn 40 records)))
                  (format question))
  = Return answer ->
  ask_claude exn_str json_dumps format data (mkApp (Some r) (Some client))
  = mkResponse
      (VDict [("question", question);
              ("answer", VStr answer);
              ("total_studies", VInt (Z.of_nat (length records)));
              ("analyzed_studies", VInt (Z.of_nat (Nat.min 40 (length records))));
              ("model", VStr "claude-sonnet-4-20250514");
              ("data_source", VStr "Redis Cache")])
      200.
Proof.
  intros Hq Ht Hget Hans. unfold ask_claude.
  cbn [redis_client claude_client]. rewrite Hq. cbn [default from_option id].
  rewrite Ht, Hget. cbn [negb len slice].
  change (slice_to records 40) with (firstn 40 records).
  rewrite length_firstn, Hans. reflexivity.
Qed.

End CacheBacked.

(** * Further properties *)

(** ** The masker on batches and over time *)

Section MaskerOverTime.
Import Skyflow Summary.

Lemma keeps_refl s : keeps s s.
Proof. split; [lia|]. intros j _. reflexivity. Qed.

Lemma keeps_trans s1 s2 s3 : keeps s1 s2 -> keeps s2 s3 -> keeps s1 s3.
Proof.
  intros [C12 P12] [C23 P23]. split; [lia|].
  exact (preserved_step s1 s2 _ C12 P12 P23).
Qed.

Lemma keeps_mask_dict d s : keeps s (mask_dict d s).2.2.
Proof.
  unfold mask_dict. cbv zeta.
  destruct (mask_sponsor _ s) as [d2 s2] eqn:E2.
  destruct (mask_sponsor_spec _ _ _ _ E2) as (_ & C2 & P2 & _).
  destruct (mask_list_field "investigators" d2 s2) as [o3 [d3 s3]] eqn:E3.
  destruct (mask_list_field_spec _ _ _ _ _ _ E3) as (_ & C3 & P3 & _).
  assert (K3 : keeps s s3)
    by (apply (keeps_trans s s2 s3); split; assumption).
  destruct o3 as [[]|e]; [|exact K3].
  destruct (mask_list_field "sites" d3 s3) as [o4 [d4 s4]] eqn:E4.
  destruct (mask_list_field_spec _ _ _ _ _ _ E4) as (_ & C4 & P4 & _).
  apply (keeps_trans s s3 s4); [exact K3|split; assumption].
Qed.

Lemma tokenize_study_keeps m study o m' :
  tokenize_study study m = (o, m') -> keeps (self m) (self m').
Proof.
  destruct (heap m !! study) as [d|] eqn:Hd.
  - rewrite (tokenize_study_run _ _ _ Hd). intros [= <- <-]. simpl.
    apply keeps_mask_dict.
  - rewrite (tokenize_study_dangling _ _ Hd). intros [= <- <-].
    apply keeps_refl.
Qed.

Lemma tokenize_loop_keeps studies : forall acc m o m',
  tokenize_loop studies acc m = (o, m') -> keeps (self m) (self m').
Proof.
  induction studies as [|study rest IH]; intros acc m o m'; simpl.
  - intros [= <- <-]. apply keeps_refl.
  - unfold bind. destruct (tokenize_study study m) as [[r|e] m1] eqn:E1.
    + intros E2. eapply keeps_trans;
        [exact (tokenize_study_keeps _ _ _ _ E1)|exact (IH _ _ _ _ E2)].
    + intros [= <- <-]. exact (tokenize_study_keeps _ _ _ _ E1).
Qed.

Lemma run_op_keeps o m :
  keeps (self m) (self (run_op o m)) /\ heap m ⊆ heap (run_op o m).
Proof.
  destruct o as [studies|study]; simpl.
  - unfold tokenize_batch.
    destruct (tokenize_loop studies [] m) as [o m'] eqn:E. simpl. split.
    + exact (tokenize_loop_keeps _ _ _ _ _ E).
    + apply (tokenize_loop_effect _ _ _ _ _ E).
  - destruct (detokenize_study study m) as [o m'] eqn:E.
    destruct (detokenize_study_effect _ _ _ _ E) as (Hself & F & _).
    simpl. rewrite Hself. split; [apply keeps_refl|exact F].
Qed.

Lemma run_ops_keeps ops : forall m,
  keeps (self m) (self (run_ops ops m)) /\ heap m ⊆ heap (run_ops ops m).
Proof.
  induction ops as [|o ops IH]; intros m.
  - split; [apply keeps_refl|reflexivity].
  - destruct (run_op_keeps o m) as [K1 F1].
    destruct (IH (run_op o m)) as [K2 F2]. split.
    + eapply keeps_trans; eassumption.
    + etrans; eassumption.
Qed.

(** Unmasking with any later vault gives the study back. *)
Lemma round_trip_dict_later d s o d' s' store :
  list_or_absent d "investigators" ->
  list_or_absent d "sites" ->
  mask_dict d s = (o, (d', s')) ->
  preserved s' store ->
  o = Return tt /\
  unmask_dict store d' = (Return tt, <[flag := VBool false]> d).
Proof.
  intros Hi Hs. unfold mask_dict. cbv zeta.
  set (d1 := <["_skyflow_protected" := VBool true]> d).
  assert (H1 : off "_skyflow_protected" d d1).
  { intros k' Hk'. apply lookup_insert_ne. congruence. }
  destruct (mask_sponsor d1 s) as [d2 s2] eqn:E2.
  destruct (mask_sponsor_spec _ _ _ _ E2) as (O2 & C2 & P2 & R2).
  destruct (mask_list_field "investigators" d2 s2) as [o3 [d3 s3]] eqn:E3.
  destruct (mask_list_field_spec _ _ _ _ _ _ E3) as (O3 & C3 & P3 & R3).
  destruct R3 as [-> R3].
  { unfold list_or_absent. rewrite O2, H1 by discriminate. exact Hi. }
  intros E4 Hst.
  destruct (mask_list_field_spec _ _ _ _ _ _ E4) as (O4 & C4 & P4 & R4).
  destruct R4 as [-> R4].
  { unfold list_or_absent. rewrite O3, O2, H1 by discriminate. exact Hs. }
  split; [reflexivity|].
  assert (Hst3 : preserved s3 store)
    by exact (preserved_step s3 s' _ C4 P4 Hst).
  assert (Hst2 : preserved s2 store)
    by exact (preserved_step s2 s3 _ C3 P3 Hst3).
  unfold unmask_dict. cbv zeta.
  set (u1 := unmask_sponsor store d').
  pose proof (unmask_sponsor_off store d') as U1. fold u1 in U1.
  destruct (R3 store u1 Hst3) as (u2 & E5 & L5).
  { rewrite U1, O4 by discriminate. reflexivity. }
  pose proof (unmask_list_field_off store "investigators" u1) as U2.
  rewrite E5 in U2 |- *. simpl in U2.
  destruct (R4 store u2 Hst) as (u3 & E6 & L6).
  { rewrite U2, U1 by discriminate. reflexivity. }
  pose proof (unmask_list_field_off store "sites" u2) as U3.
  rewrite E6 in U3 |- *. simpl in U3.
  f_equal. apply map_eq. intros k. unfold flag.
  destruct (decide (k = "_skyflow_protected")) as [->|Hflag].
  { rewrite !lookup_insert_eq. reflexivity. }
  rewrite !lookup_insert_ne by congruence.
  destruct (decide (k = "sites")) as [->|Hsites].
  { rewrite L6, O3, O2, H1 by discriminate. reflexivity. }
  rewrite U3 by exact Hsites.
  destruct (decide (k = "investigators")) as [->|Hinv].
  { rewrite L5, O2, H1 by discriminate. reflexivity. }
  rewrite U2 by exact Hinv.
  destruct (decide (k = "lead_sponsor")) as [->|Hls].
  { unfold u1. rewrite (R2 store d' Hst2).
    - apply H1. discriminate.
    - rewrite O4, O3 by discriminate. reflexivity. }
  rewrite U1, O4, O3, O2, H1 by assumption. reflexivity.
Qed.

(** What each study of an accepted batch became. *)
Lemma tokenize_loop_masks studies : forall acc m out m',
  tokenize_loop studies acc m = (Return out, m') ->
  exists new, out = acc ++ new /\
    Forall2 (fun study r =>
               forall d, heap m !! study = Some d ->
                 exists d' s s',
                   heap m' !! r = Some d' /\
                   mask_dict d s = (Return tt, (d', s')) /\
                   keeps s' (self m'))
            studies new.
Proof.
  induction studies as [|study rest IH]; intros acc m out m'; simpl.
  - intros [= <- <-]. exists []. rewrite app_nil_r. split; [reflexivity|constructor].
  - unfold bind. destruct (tokenize_study study m) as [[r|e] m1] eqn:E1;
      [|discriminate].
    intros E2.
    destruct (tokenize_study_effect _ _ _ _ E1) as (F1 & _).
    destruct (tokenize_loop_effect _ _ _ _ _ E2) as (F2 & _).
    pose proof (tokenize_loop_keeps _ _ _ _ _ E2) as K2.
    destruct (IH _ _ _ _ E2) as (new & -> & Hall).
    exists (r :: new). split; [rewrite <- app_assoc; reflexivity|].
    constructor.
    + intros d Hd. rewrite (tokenize_study_run _ _ _ Hd) in E1.
      destruct (mask_dict d (self m)) as [[[]|e] [d' s']] eqn:Em;
        simpl in E1; [|discriminate].
      injection E1 as <- <-. exists d', (self m), s'.
      split; [|split; [exact Em|exact K2]].
      eapply lookup_weaken; [|exact F2]. apply lookup_insert_eq.
    + eapply Forall2_impl; [exact Hall|].
      intros study' r' Hr' d Hd. apply Hr'.
      eapply lookup_weaken; eassumption.
Qed.

End MaskerOverTime.

Section MaskerExtras.
Import Skyflow Summary.

(** X1: every study of an accepted batch whose list fields are lists can be
    detokenized from its masked copy at any later time, after any further
    [tokenize_batch] and [detokenize_study] calls: the call returns a
    dictionary that is the original study with the flag set to [False]. *)
Theorem batch_round_trip studies m out m' ops i study r d :
  tokenize_batch studies m = (Return out, m') ->
  studies !! i = Some study ->
  out !! i = Some r ->
  heap m !! study = Some d ->
  list_or_absent d "investigators" ->
  list_or_absent d "sites" ->
  exists restored m2,
    detokenize_study r (run_ops ops m') = (Return restored, m2) /\
    heap m2 !! restored = Some (<[flag := VBool false]> d).
Proof.
  intros E Hstudy Hr Hd Hi Hs. unfold tokenize_batch in E.
  destruct (tokenize_loop_masks _ _ _ _ _ E) as (new & Hout & Hall).
  simpl in Hout. subst new.
  destruct (Forall2_lookup_l _ _ _ _ _ Hall Hstudy) as (r' & Hr' & Hmask).
  assert (r' = r) as -> by congruence.
  destruct (Hmask d Hd) as (d' & s & s' & Hd' & Em & K).
  destruct (run_ops_keeps ops m') as [Kops Fops].
  set (later := run_ops ops m') in *.
  assert (Hlater : heap later !! r = Some d')
    by (eapply lookup_weaken; eassumption).
  assert (Hst : preserved s' (token_store (self later)))
    by apply (keeps_trans s' (self m') (self later) K Kops).
  destruct (round_trip_dict_later d s _ d' s' _ Hi Hs Em Hst) as [_ Eu].
  rewrite (detokenize_study_run _ _ _ Hlater), Eu. cbn [fst snd on_copy].
  eexists _, _. split; [reflexivity|]. apply lookup_insert_eq.
Qed.

Lemma batch_round_trip_witness :
  let m := mkMem two_batches_heap init in
  let masked := tokenize_batch [0; 1] m in
  exists restored m2,
    detokenize_study 3 (run_ops [Mask [0]; Unmask 2] masked.2)
    = (Return restored, m2) /\
    heap m2 !! restored = Some (<[flag := VBool false]> sample_study).
Proof.
  cbv zeta.
  apply (batch_round_trip [0; 1] (mkMem two_batches_heap init) [2; 3]
           (tokenize_batch [0; 1] (mkMem two_batches_heap init)).2
           [Mask [0]; Unmask 2] 1 1 3 sample_study).
  - vm_compute. reflexivity.
  - reflexivity.
  - reflexivity.
  - reflexivity.
  - right. exists [VStr "Dr. Ada"; VStr "Dr. Bob"]. reflexivity.
  - left. reflexivity.
Defined.

(** X2: on an instance that started empty, a vault entry never changes:
    whatever token maps to a value after some calls maps to the same value
    after any further calls. *)
Theorem vault_entries_permanent h ops1 ops2 t v :
  token_store (self (run_ops ops1 (mkMem h init))) !! t = Some v ->
  token_store (self (run_ops (ops1 ++ ops2) (mkMem h init))) !! t = Some v.
Proof.
  intros Ht. unfold run_ops in *. rewrite foldl_app.
  fold (run_ops ops1 (mkMem h init)) in *.
  set (m1 := run_ops ops1 (mkMem h init)) in *.
  fold (run_ops ops2 m1).
  destruct (run_ops_inv ops1 (mkMem h init) vault_inv_init) as [_ Hdom].
  fold m1 in Hdom.
  destruct (proj1 (Hdom t)) as (j & Hj & ->); [eexists; exact Ht|].
  destruct (run_ops_keeps ops2 m1) as [[_ P] _].
  rewrite P by lia. exact Ht.
Qed.

Lemma vault_entries_permanent_witness :
  token_store (self (run_ops ([Mask [0]] ++ [Mask [0]; Unmask 1])
                             (mkMem {[0 := sample_study]} init)))
    !! "sky_000001" = Some (VStr "Acme Health").
Proof.
  apply (vault_entries_permanent {[0 := sample_study]} [Mask [0]]
           [Mask [0]; Unmask 1] "sky_000001" (VStr "Acme Health")).
  vm_compute. reflexivity.
Defined.

Lemma mask_dict_count d s d' s' :
  mask_dict d s = (Return tt, (d', s')) ->
  token_counter s' = token_counter s + minted_for d.
Proof.
  unfold mask_dict, minted_for, items_under. cbv zeta.
  set (d1 := <["_skyflow_protected" := VBool true]> d).
  assert (H1 : off "_skyflow_protected" d d1).
  { intros k' Hk'. apply lookup_insert_ne. congruence. }
  destruct (mask_sponsor d1 s) as [d2 s2] eqn:E2.
  destruct (mask_sponsor_spec _ _ _ _ E2) as (O2 & _).
  assert (C2 : token_counter s2 = token_counter s
               + match d !! "lead_sponsor" with
                 | Some v => if truthy v then 1 else 0
                 | None => 0
                 end).
  { revert E2. unfold mask_sponsor. rewrite H1 by discriminate.
    destruct (d !! "lead_sponsor") as [v|]; [destruct (truthy v)|];
      intros [= <- <-]; simpl; lia. }
  assert (count : forall k dk sk o dk' sk',
            mask_list_field k dk sk = (o, (dk', sk')) -> o = Return tt ->
            token_counter sk' = token_counter sk
              + match dk !! k with
                | Some v =>
                    if truthy v
                    then match iter v with inr items => length items | inl _ => 0 end
                    else 0
                | None => 0
                end).
  { intros k dk sk o dk' sk'. unfold mask_list_field.
    destruct (dk !! k) as [v|]; [destruct (truthy v); [destruct (iter v)|]|];
      intros [= <- <- <-] Ho; try discriminate Ho; simpl; lia. }
  destruct (mask_list_field "investigators" d2 s2) as [o3 [d3 s3]] eqn:E3.
  destruct (mask_list_field_spec _ _ _ _ _ _ E3) as (O3 & _).
  destruct o3 as [[]|e]; [|discriminate].
  intros E4.
  pose proof (count _ _ _ _ _ _ E3 eq_refl) as C3.
  pose proof (count _ _ _ _ _ _ E4 eq_refl) as C4.
  rewrite O2, H1 in C3 by discriminate.
  rewrite O3, O2, H1 in C4 by discriminate. lia.
Qed.

(** The counter after the loop of [tokenize_batch]. *)
Lemma tokenize_loop_count studies : forall acc ds m out m',
  Forall2 (fun study d => heap m !! study = Some d) studies ds ->
  tokenize_loop studies acc m = (Return out, m') ->
  token_counter (self m')
  = token_counter (self m) + sum_list (minted_for <$> ds).
Proof.
  induction studies as [|study rest IH]; intros acc ds m out m' Hds; simpl.
  - apply Forall2_nil_inv_l in Hds as ->. intros [= <- <-]. simpl. lia.
  - apply Forall2_cons_inv_l in Hds as (d & ds' & Hd & Hrest & ->).
    unfold bind. rewrite (tokenize_study_run _ _ _ Hd).
    destruct (mask_dict d (self m)) as [[[]|e] [d' s']] eqn:Em;
      cbn [fst snd on_copy]; [|discriminate].
    intros E2. rewrite fmap_cons. simpl sum_list.
    assert (Hrest' : Forall2 (fun study d =>
                        heap (mkMem (<[fresh (dom (heap m)) := d']> (heap m)) s')
                          !! study = Some d) rest ds').
    { eapply Forall2_impl; [exact Hrest|].
      intros study' d0 Hd0. simpl.
      rewrite lookup_insert_ne; [exact Hd0|].
      intros <-. rewrite fresh_unused in Hd0. discriminate. }
    pose proof (IH _ ds' _ out m' Hrest' E2) as Hcount.
    pose proof (mask_dict_count _ _ _ _ Em) as Hone.
    simpl in Hcount |- *. lia.
Qed.

(** X3: an accepted [tokenize_batch] raises the counter by exactly the
    number of items it had to mask: one for each truthy [lead_sponsor] and
    one for each item visited under a truthy [investigators] or [sites]. *)
Theorem tokens_minted_by_batch studies ds m out m' :
  Forall2 (fun study d => heap m !! study = Some d) studies ds ->
  tokenize_batch studies m = (Return out, m') ->
  total_tokens (get_stats (self m'))
  = total_tokens (get_stats (self m)) + sum_list (minted_for <$> ds).
Proof.
  intros Hds E. exact (tokenize_loop_count _ _ _ _ _ _ Hds E).
Qed.

Lemma tokens_minted_by_batch_witness :
  total_tokens (get_stats (self (tokenize_batch [0; 1]
                                   (mkMem two_batches_heap init)).2))
  = total_tokens (get_stats (self (mkMem two_batches_heap init)))
    + sum_list (minted_for <$> [{["nct_id" := VStr "A1"]}; sample_study]).
Proof.
  apply (tokens_minted_by_batch [0; 1]
           [{["nct_id" := VStr "A1"]}; sample_study]
           (mkMem two_batches_heap init) [2; 3]).
  - repeat constructor.
  - vm_compute. reflexivity.
Defined.

Lemma tags_from_shape items : forall c,
  length (tags_from c items) = length items /\
  Forall is_tag (tags_from c items).
Proof.
  induction items as [|item rest IH]; intros c; simpl.
  - split; [reflexivity|constructor].
  - destruct (IH (S c)) as [Hlen Hall]. split; [congruence|].
    constructor; [eexists; reflexivity|exact Hall].
Qed.

Lemma mask_list_field_at k d s o d' s' :
  mask_list_field k d s = (o, (d', s')) ->
  d' !! k = list_field_after (token_counter s) (d !! k).
Proof.
  unfold mask_list_field, list_field_after.
  destruct (d !! k) as [v|] eqn:Hk;
    [destruct (truthy v); [destruct (iter v)|]|];
    intros [= <- <- <-]; try exact Hk.
  apply lookup_insert_eq.
Qed.

Lemma mask_dict_fields d s d' s' :
  mask_dict d s = (Return tt, (d', s')) ->
  exists c2 c3,
    d' !! "lead_sponsor"
    = match d !! "lead_sponsor" with
      | Some v =>
          if truthy v
          then Some (VStr (tokenized_tag (token_of (S (token_counter s)))))
          else Some v
      | None => None
      end /\
    d' !! "investigators" = list_field_after c2 (d !! "investigators") /\
    d' !! "sites" = list_field_after c3 (d !! "sites").
Proof.
  unfold mask_dict. cbv zeta.
  set (d1 := <["_skyflow_protected" := VBool true]> d).
  assert (H1 : off "_skyflow_protected" d d1).
  { intros k' Hk'. apply lookup_insert_ne. congruence. }
  destruct (mask_sponsor d1 s) as [d2 s2] eqn:E2.
  destruct (mask_sponsor_spec _ _ _ _ E2) as (O2 & _).
  assert (S2 : d2 !! "lead_sponsor"
               = match d !! "lead_sponsor" with
                 | Some v =>
                     if truthy v
                     then Some (VStr (tokenized_tag (token_of (S (token_counter s)))))
                     else Some v
                 | None => None
                 end).
  { revert E2. unfold mask_sponsor. rewrite H1 by discriminate.
    destruct (d !! "lead_sponsor") as [v|] eqn:Hl; [destruct (truthy v)|];
      intros [= <- <-].
    - apply lookup_insert_eq.
    - rewrite H1 by discriminate. exact Hl.
    - rewrite H1 by discriminate. exact Hl. }
  destruct (mask_list_field "investigators" d2 s2) as [o3 [d3 s3]] eqn:E3.
  destruct (mask_list_field_spec _ _ _ _ _ _ E3) as (O3 & _).
  pose proof (mask_list_field_at _ _ _ _ _ _ E3) as A3.
  destruct o3 as [[]|e]; [|discriminate].
  intros E4.
  destruct (mask_list_field_spec _ _ _ _ _ _ E4) as (O4 & _).
  pose proof (mask_list_field_at _ _ _ _ _ _ E4) as A4.
  exists (token_counter s2), (token_counter s3).
  rewrite O4, O3, S2 by discriminate. split; [reflexivity|].
  rewrite O4, A3, O2, H1 by discriminate. split; [reflexivity|].
  rewrite A4, O3, O2, H1 by discriminate. reflexivity.
Qed.

(** What [tokenize_batch] leaves under the designated fields of a copy. *)
Lemma mask_dict_tokenized d s d' s' :
  mask_dict d s = (Return tt, (d', s')) -> tokenized_fields d d'.
Proof.
  intros Em.
  destruct (mask_dict_fields _ _ _ _ Em) as (c2 & c3 & Fl & Fi & Fs).
  assert (raised : forall k v dk sk,
            dk !! k = Some v -> truthy v = true ->
            (mask_list_field k dk sk).1 = Return tt ->
            exists items, iter v = inr items).
  { intros k v dk sk Hk Hv. unfold mask_list_field. rewrite Hk, Hv.
    destruct (iter v) as [e|items]; [discriminate|]. eexists. reflexivity. }
  split; [|split; [|split]].
  - intros k Hk Hnone. unfold designated in Hk.
    repeat (apply elem_of_cons in Hk as [->|Hk]);
      [rewrite Fl, Hnone|rewrite Fi, Hnone|rewrite Fs, Hnone|];
      try reflexivity.
    apply elem_of_nil in Hk. destruct Hk.
  - intros k v Hk Hsome Hfalse. unfold designated in Hk.
    repeat (apply elem_of_cons in Hk as [->|Hk]);
      [rewrite Fl, Hsome, Hfalse|rewrite Fi, Hsome|rewrite Fs, Hsome|];
      try reflexivity; try (simpl; rewrite Hfalse; reflexivity).
    apply elem_of_nil in Hk. destruct Hk.
  - intros v Hsome Htrue. rewrite Fl, Hsome, Htrue.
    eexists. split; [reflexivity|]. eexists. reflexivity.
  - revert Em. unfold mask_dict. cbv zeta.
    set (d1 := <["_skyflow_protected" := VBool true]> d).
    assert (H1 : off "_skyflow_protected" d d1).
    { intros k' Hk'. apply lookup_insert_ne. congruence. }
    destruct (mask_sponsor d1 s) as [d2 s2] eqn:E2.
    destruct (mask_sponsor_spec _ _ _ _ E2) as (O2 & _).
    destruct (mask_list_field "investigators" d2 s2) as [o3 [d3 s3]] eqn:E3.
    destruct (mask_list_field_spec _ _ _ _ _ _ E3) as (O3 & _).
    destruct o3 as [[]|e]; [|discriminate].
    intros E4 k v [-> | ->] Hsome Htrue.
    + assert (Hit : exists items, iter v = inr items).
      { apply (raised "investigators" v d2 s2); [|exact Htrue|].
        - rewrite O2, H1 by discriminate. exact Hsome.
        - rewrite E3. reflexivity. }
      destruct Hit as (items & Hit).
      exists items, (tags_from c2 items).
      split; [exact Hit|]. rewrite Fi, Hsome. simpl. rewrite Htrue, Hit.
      split; [reflexivity|]. apply tags_from_shape.
    + assert (Hit : exists items, iter v = inr items).
      { apply (raised "sites" v d3 s3); [|exact Htrue|].
        - rewrite O3, O2, H1 by discriminate. exact Hsome.
        - rewrite E4. reflexivity. }
      destruct Hit as (items & Hit).
      exists items, (tags_from c3 items).
      split; [exact Hit|]. rewrite Fs, Hsome. simpl. rewrite Htrue, Hit.
      split; [reflexivity|]. apply tags_from_shape.
Qed.

(** X4: in every masked copy of an accepted batch, a designated field that
    is absent stays absent and one whose value is not truthy keeps its
    value; a truthy [lead_sponsor] holds one tag; a truthy [investigators]
    or [sites] holds a list of tags with one tag per item visited. *)
Theorem masked_fields studies m out m' i study r d :
  tokenize_batch studies m = (Return out, m') ->
  studies !! i = Some study ->
  out !! i = Some r ->
  heap m !! study = Some d ->
  exists d',
    heap m' !! r = Some d' /\
    (forall k, k ∈ designated -> d !! k = None -> d' !! k = None) /\
    (forall k v, k ∈ designated -> d !! k = Some v -> truthy v = false ->
                 d' !! k = Some v) /\
    (forall v, d !! "lead_sponsor" = Some v -> truthy v = true ->
               exists t, d' !! "lead_sponsor" = Some t /\ is_tag t) /\
    (forall k v, k = "investigators" \/ k = "sites" ->
       d !! k = Some v -> truthy v = true ->
       exists items tags,
         iter v = inr items /\ d' !! k = Some (VList tags) /\
         length tags = length items /\ Forall is_tag tags).
Proof.
  intros E Hstudy Hr Hd. unfold tokenize_batch in E.
  destruct (tokenize_loop_masks _ _ _ _ _ E) as (new & Hout & Hall).
  simpl in Hout. subst new.
  destruct (Forall2_lookup_l _ _ _ _ _ Hall Hstudy) as (r' & Hr' & Hmask).
  assert (r' = r) as -> by congruence.
  destruct (Hmask d Hd) as (d' & s & s' & Hd' & Em & _).
  exists d'. split; [exact Hd'|]. exact (mask_dict_tokenized _ _ _ _ Em).
Qed.

Lemma masked_fields_witness :
  exists d',
    heap (tokenize_batch [0; 1] (mkMem two_batches_heap init)).2 !! 3 = Some d' /\
    (forall k, k ∈ designated -> sample_study !! k = None -> d' !! k = None) /\
    (forall k v, k ∈ designated -> sample_study !! k = Some v ->
                 truthy v = false -> d' !! k = Some v) /\
    (forall v, sample_study !! "lead_sponsor" = Some v -> truthy v = true ->
               exists t, d' !! "lead_sponsor" = Some t /\ is_tag t) /\
    (forall k v, k = "investigators" \/ k = "sites" ->
       sample_study !! k = Some v -> truthy v = true ->
       exists items tags,
         iter v = inr items /\ d' !! k = Some (VList tags) /\
         length tags = length items /\ Forall is_tag tags).
Proof.
  apply (masked_fields [0; 1] (mkMem two_batches_heap init) [2; 3]
           (tokenize_batch [0; 1] (mkMem two_batches_heap init)).2
           1 1 3 sample_study).
  - vm_compute. reflexivity.
  - reflexivity.
  - reflexivity.
  - reflexivity.
Defined.

End MaskerExtras.

(** ** The in-memory handlers around a load *)

Section InMemoryExtras.
Import Skyflow Summary FastapiBackend.

Variable exn_str : exn -> string.
Variable json_dumps : list dict -> string.

Lemma find_first {A} (p : A -> bool) (l : list A) : forall i x,
  l !! i = Some x -> p x = true ->
  (forall j y, j < i -> l !! j = Some y -> p y = false) ->
  List.find p l = Some x.
Proof.
  induction l as [|a l IH]; intros i x Hi Hx Hbefore; [discriminate|].
  destruct i as [|i]; simpl in *.
  - injection Hi as ->. rewrite Hx. reflexivity.
  - rewrite (Hbefore 0 a) by (reflexivity || lia).
    apply (IH i x Hi Hx). intros j y Hj Hy. apply (Hbefore (S j) y); [lia|exact Hy].
Qed.

Lemma find_nowhere {A} (p : A -> bool) (l : list A) :
  Forall (fun y => p y = false) l -> List.find p l = None.
Proof.
  induction 1 as [|a l Ha _ IH]; simpl; [reflexivity|]. rewrite Ha. exact IH.
Qed.

Lemma has_nct_id_masked nct_id d d' :
  masked_copy d d' -> has_nct_id nct_id d' = has_nct_id nct_id d.
Proof.
  intros [_ Hrest]. unfold has_nct_id. rewrite Hrest; [reflexivity|discriminate|].
  unfold designated. intros Hin.
  repeat (apply elem_of_cons in Hin as [Hin|Hin]; [discriminate Hin|]).
  apply elem_of_nil in Hin. exact Hin.
Qed.

(** What an accepted load stored for each study of the batch. *)
Lemma load_data_masks now condition B ds a resp a1 :
  load_data exn_str now condition B a = (Return resp, a1) ->
  Forall2 (fun b d => heap (memory a) !! b = Some d) B ds ->
  Forall2 (fun d r =>
             exists d' s s',
               heap (memory a1) !! r = Some d' /\
               mask_dict d s = (Return tt, (d', s')) /\
               keeps s' (self (memory a1)))
          ds (studies a1).
Proof.
  intros E Hds.
  destruct (load_data_accepted _ _ _ _ _ _ _ E) as (_ & T & _).
  unfold tokenize_batch in T.
  destruct (tokenize_loop_masks _ _ _ _ _ T) as (new & Hnew & Hall).
  simpl in Hnew. subst new.
  revert Hall. generalize (studies a1). clear -Hds.
  induction Hds as [|b d B ds Hb _ IH]; intros stored Hall.
  - apply Forall2_nil_inv_l in Hall as ->. constructor.
  - apply Forall2_cons_inv_l in Hall as (r & rs & Hr & Hrs & ->).
    constructor; [exact (Hr d Hb)|exact (IH rs Hrs)].
Qed.

(** X5: after an accepted load, the handler [detokenize_study] called with
    the identifier of a loaded study whose list fields are lists answers
    with that study as it was loaded, the flag set to [False]; the stored
    batch, its metadata, the vault and the counter are as before.  The study
    answered is the first of the batch that carries the identifier. *)
Theorem detokenize_after_load now condition B ds a resp a1 nct_id i d :
  load_data exn_str now condition B a = (Return resp, a1) ->
  Forall2 (fun b d => heap (memory a) !! b = Some d) B ds ->
  ds !! i = Some d ->
  has_nct_id nct_id d = true ->
  String.eqb nct_id EmptyString = false ->
  (forall j dj, j < i -> ds !! j = Some dj -> has_nct_id nct_id dj = false) ->
  list_or_absent d "investigators" ->
  list_or_absent d "sites" ->
  exists a2,
    detokenize_study exn_str nct_id a1
    = (Return (mkDetokenizeResponse nct_id (<[flag := VBool false]> d)), a2) /\
    studies a2 = studies a1 /\
    metadata_entry a2 = metadata_entry a1 /\
    self (memory a2) = self (memory a1) /\
    heap (memory a1) ⊆ heap (memory a2).
Proof.
  intros E Hds Hi Hid Hne Hfirst Hinv Hsites.
  pose proof (load_data_masks _ _ _ _ _ _ _ E Hds) as Hall.
  destruct (Forall2_lookup_l _ _ _ _ _ Hall Hi) as (r & Hr & d' & s & s' & Hd' & Em & K).
  pose proof (mask_dict_spec _ _ _ _ _ Em) as Hcopy.
  assert (Hfind : find_study (memory a1) nct_id (studies a1) = Some r).
  { unfold find_study. apply (find_first _ _ i r Hr).
    - rewrite Hd'. simpl. rewrite (has_nct_id_masked _ _ _ Hcopy). exact Hid.
    - intros j rj Hj Hrj.
      destruct (Forall2_lookup_r _ _ _ _ _ Hall Hrj)
        as (dj & Hdj & dj' & sj & sj' & Hdj' & Emj & _).
      rewrite Hdj'. simpl.
      rewrite (has_nct_id_masked _ _ _ (mask_dict_spec _ _ _ _ _ Emj)).
      exact (Hfirst j dj Hj Hdj). }
  unfold detokenize_study. rewrite Hne.
  destruct (studies a1) as [|r0 rs] eqn:Hstored; [destruct i; discriminate Hr|].
  rewrite <- Hstored in *. rewrite Hfind, Hd'. cbn [default from_option id].
  assert (Hsize : Nat.eqb (size d') 0 = false).
  { apply Nat.eqb_neq. intros H0. apply map_size_empty_inv in H0. subst d'.
    destruct Hcopy as [Hflag _]. rewrite lookup_empty in Hflag. discriminate. }
  rewrite Hsize.
  destruct (round_trip_dict_later d s _ d' s' (token_store (self (memory a1)))
              Hinv Hsites Em (proj2 K)) as [_ Eu].
  rewrite (detokenize_study_run _ _ _ Hd'), Eu. cbn [fst snd on_copy heap].
  rewrite lookup_insert_eq. cbn [default from_option id].
  eexists. split; [reflexivity|]. cbn [studies metadata_entry memory self heap].
  repeat split. apply insert_subseteq, fresh_unused.
Qed.

(** X6: after an accepted load, the handler [detokenize_study] called with
    an identifier that no study of the batch carries answers 404 and
    changes nothing; with an empty identifier it answers 400, whatever the
    state. *)
Theorem detokenize_unknown_id now condition B ds a resp a1 nct_id :
  load_data exn_str now condition B a = (Return resp, a1) ->
  Forall2 (fun b d => heap (memory a) !! b = Some d) B ds ->
  Forall (fun d => has_nct_id nct_id d = false) ds ->
  String.eqb nct_id EmptyString = false ->
  detokenize_study exn_str nct_id a1
  = (Raise (HTTPException 404 ("Study " +:+ nct_id +:+ " not found")), a1) /\
  detokenize_study exn_str EmptyString a1
  = (Raise (HTTPException 400 "No NCT ID provided"), a1).
Proof.
  intros E Hds Hnone Hne. split; [|reflexivity].
  pose proof (load_data_masks _ _ _ _ _ _ _ E Hds) as Hall.
  destruct (load_data_accepted _ _ _ _ _ _ _ E) as (HB & T & _).
  assert (Hfind : find_study (memory a1) nct_id (studies a1) = None).
  { unfold find_study. apply find_nowhere.
    clear -Hall Hnone. induction Hall as [|d r ds rs Hr _ IH]; constructor.
    - destruct Hr as (d' & s & s' & Hd' & Em & _). rewrite Hd'. simpl.
      rewrite (has_nct_id_masked _ _ _ (mask_dict_spec _ _ _ _ _ Em)).
      apply (Forall_inv Hnone).
    - apply IH, (Forall_inv_tail Hnone). }
  unfold detokenize_study. rewrite Hne.
  destruct (studies a1) as [|r rs] eqn:Hstored.
  - exfalso. apply Forall2_nil_inv_r in Hall. subst ds.
    apply Forall2_nil_inv_r in Hds. congruence.
  - rewrite <- Hstored in *. rewrite Hfind. reflexivity.
Qed.

(** X7: a load that fails, because [tokenize_batch] raises, is answered
    with status 500 and leaves the current batch and its metadata as they
    were; every dictionary that existed keeps its items, so a listing gives
    what it gave before; the vault keeps every entry it had, though the
    studies masked before the failure have added theirs. *)
Theorem failed_load_keeps_batch now condition B a e a1 :
  load_data exn_str now condition B a = (Raise e, a1) ->
  (exists detail, e = HTTPException 500 detail) /\
  studies a1 = studies a /\
  metadata_entry a1 = metadata_entry a /\
  claude_client a1 = claude_client a /\
  heap (memory a) ⊆ heap (memory a1) /\
  keeps (self (memory a)) (self (memory a1)) /\
  (Forall (fun r => is_Some (heap (memory a) !! r)) (studies a) ->
   forall limit c,
     (get_studies exn_str limit c a1).1 = (get_studies exn_str limit c a).1).
Proof.
  unfold load_data, load_data_try, except_exception.
  destruct B as [|b B].
  - intros [= <- <-]. split; [eexists; reflexivity|].
    split; [reflexivity|]. split; [reflexivity|]. split; [reflexivity|].
    split; [reflexivity|]. split; [apply keeps_refl|]. reflexivity.
  - destruct (tokenize_batch (b :: B) (memory a)) as [[out|e0] m] eqn:T;
      [discriminate|].
    intros [= <- <-]. cbn [studies metadata_entry claude_client memory].
    unfold tokenize_batch in T.
    destruct (tokenize_loop_effect _ _ _ _ _ T) as (F & _).
    pose proof (tokenize_loop_keeps _ _ _ _ _ T) as K.
    split; [eexists; reflexivity|].
    split; [reflexivity|]. split; [reflexivity|]. split; [reflexivity|].
    split; [exact F|]. split; [exact K|].
    intros Hlive limit c. unfold get_studies.
    cbn [studies memory].
    destruct (studies a) as [|r rs] eqn:Hs; [reflexivity|].
    rewrite <- Hs in *. cbn [except_http_then_exception except_exception fst].
    do 2 f_equal. unfold snapshot. apply map_ext_in. intros x Hx.
    assert (Hin : x ∈ studies a).
    { apply list_elem_of_In in Hx. unfold slice_to in Hx.
      destruct (0 <=? default 50%Z limit)%Z; exact (subseteq_take _ _ _ Hx). }
    rewrite Forall_forall in Hlive. destruct (Hlive x Hin) as [d Hd].
    rewrite Hd, (lookup_weaken _ _ _ _ Hd F). reflexivity.
Qed.

(** Every study stored by an accepted load carries the flag. *)
Lemma load_data_flags now condition B ds a resp a1 :
  load_data exn_str now condition B a = (Return resp, a1) ->
  Forall2 (fun b d => heap (memory a) !! b = Some d) B ds ->
  List.filter (is_protected (memory a1)) (studies a1) = studies a1.
Proof.
  intros E Hds.
  pose proof (load_data_masks _ _ _ _ _ _ _ E Hds) as Hall.
  clear E Hds. induction Hall as [|d r ds' rs Hr _ IH]; [reflexivity|].
  destruct Hr as (d' & s & s' & Hd' & Em & _).
  destruct (mask_dict_spec _ _ _ _ _ Em) as [Hflag _]. unfold flag in Hflag.
  simpl. unfold is_protected at 1. rewrite Hd'. cbn [default from_option id].
  rewrite Hflag. cbn [default from_option id truthy]. f_equal. exact IH.
Qed.

(** X8: after an accepted load of a batch, the statistics and the health
    check report the size of that batch as total, and the statistics report
    every study of it as protected; the token count in the metadata and in
    the statistics is the counter before the load plus the number of items
    the load had to mask. *)
Theorem stats_after_load now condition B ds a resp a1 :
  load_data exn_str now condition B a = (Return resp, a1) ->
  Forall2 (fun b d => heap (memory a) !! b = Some d) B ds ->
  ss_total (get_stats a1) = length B /\
  ss_skyflow_protected (get_stats a1) = length B /\
  hr_total_studies (health_check a1) = length B /\
  total_tokens (ss_skyflow (get_stats a1))
  = token_counter (self (memory a)) + sum_list (minted_for <$> ds) /\
  exists md,
    ss_metadata (get_stats a1) = Some md /\
    hr_metadata (health_check a1) = Some md /\
    md_total_studies md = length B /\
    md_skyflow_protected md = length B /\
    md_condition md = condition /\
    md_last_updated md = now /\
    md_skyflow_tokens md = total_tokens (ss_skyflow (get_stats a1)).
Proof.
  intros E Hds.
  pose proof (load_data_flags _ _ _ _ _ _ _ E Hds) as Hflags.
  pose proof (load_data_masks _ _ _ _ _ _ _ E Hds) as Hall.
  assert (Hlen : length (studies a1) = length B).
  { rewrite <- (Forall2_length _ _ _ Hall). symmetry.
    exact (Forall2_length _ _ _ Hds). }
  destruct (load_data_accepted _ _ _ _ _ _ _ E) as (_ & T & _).
  pose proof (tokenize_loop_count _ _ _ _ _ _ Hds T) as Hcount.
  unfold get_stats, health_check. cbn [ss_total ss_skyflow_protected
    hr_total_studies ss_skyflow ss_metadata hr_metadata].
  rewrite Hflags, Hlen.
  split; [reflexivity|]. split; [reflexivity|]. split; [reflexivity|].
  split; [exact Hcount|].
  revert E Hlen. unfold load_data, load_data_try, except_exception.
  destruct B as [|b B']; [discriminate|].
  destruct (tokenize_batch (b :: B') (memory a)) as [[out|e] m]; [|discriminate].
  intros [= <- <-] Hlen. cbn [metadata_entry memory studies] in *.
  eexists. split; [reflexivity|]. split; [reflexivity|].
  cbn [md_total_studies md_skyflow_protected md_condition md_last_updated
       md_skyflow_tokens].
  split; [reflexivity|]. split; [exact Hlen|]. repeat split.
Qed.

(** X9: after [clear_data] the listing, the question, the summary and the
    detokenize handlers answer 404 and the statistics report no study,
    while the vault and the counter are what they were: clearing the data
    does not clear the tokens. *)
Theorem clear_data_effect a :
  (forall limit condition,
     get_studies exn_str limit condition (clear_data a)
     = (Raise (HTTPException 404 "No data loaded. Use POST /api/load first"),
        clear_data a)) /\
  (forall nct_id,
     String.eqb nct_id EmptyString = false ->
     detokenize_study exn_str nct_id (clear_data a)
     = (Raise (HTTPException 404 "No data loaded"), clear_data a)) /\
  (forall question,
     is_Some (claude_client a) ->
     String.eqb question EmptyString = false ->
     ask_claude exn_str json_dumps question (clear_data a)
     = (Raise (HTTPException 404 "No data loaded. Use POST /api/load first"),
        clear_data a)) /\
  (is_Some (claude_client a) ->
   get_summary exn_str json_dumps (clear_data a)
   = (Raise (HTTPException 404 "No data loaded"), clear_data a)) /\
  ss_total (get_stats (clear_data a)) = 0 /\
  ss_skyflow_protected (get_stats (clear_data a)) = 0 /\
  ss_metadata (get_stats (clear_data a)) = None /\
  ss_skyflow (get_stats (clear_data a)) = Skyflow.get_stats (self (memory a)) /\
  memory (clear_data a) = memory a /\
  clear_data (clear_data a) = clear_data a.
Proof.
  split; [reflexivity|]. split.
  { intros nct_id Hne. unfold detokenize_study. rewrite Hne. reflexivity. }
  split.
  { intros question [client Hc] Hq. unfold ask_claude.
    cbn [clear_data claude_client]. rewrite Hc, Hq. reflexivity. }
  split.
  { intros [client Hc]. unfold get_summary.
    cbn [clear_data claude_client]. rewrite Hc. reflexivity. }
  repeat split.
Qed.

(** What the collaborator is shown of a loaded batch: the copies made by
    the load, in load order. *)
Lemma snapshot_masked now condition B ds a resp a1 n :
  load_data exn_str now condition B a = (Return resp, a1) ->
  Forall2 (fun b d => heap (memory a) !! b = Some d) B ds ->
  Forall2 (fun d d' => masked_copy d d' /\ tokenized_fields d d')
          (firstn n ds) (snapshot (memory a1) (firstn n (studies a1))).
Proof.
  intros E Hds.
  pose proof (load_data_masks _ _ _ _ _ _ _ E Hds) as Hall.
  clear E Hds. revert n.
  induction Hall as [|d r ds' rs Hr _ IH]; intros [|n]; simpl;
    [constructor|constructor|constructor|].
  constructor; [|apply IH].
  destruct Hr as (d' & s & s' & Hd' & Em & _). rewrite Hd'.
  cbn [default from_option id].
  split; [exact (mask_dict_spec _ _ _ _ _ Em)|exact (mask_dict_tokenized _ _ _ _ Em)].
Qed.

(** X10: after an accepted load, what [ask_claude] and [get_summary] hand
    to the collaborator is the serialization of masked copies only: of the
    first 40, respectively 30, studies of the batch, each with the flag set
    and its designated fields replaced by tags.  [get_summary] reports the
    size of the whole batch as [studies_analyzed], also when it has shown
    only 30 studies. *)
Theorem prompts_show_masked_copies now condition B ds a resp a1 client question :
  load_data exn_str now condition B a = (Return resp, a1) ->
  Forall2 (fun b d => heap (memory a) !! b = Some d) B ds ->
  claude_client a = Some client ->
  String.eqb question EmptyString = false ->
  exists shown40 shown30,
    Forall2 (fun d d' => masked_copy d d' /\ tokenized_fields d d')
            (firstn 40 ds) shown40 /\
    Forall2 (fun d d' => masked_copy d d' /\ tokenized_fields d d')
            (firstn 30 ds) shown30 /\
    ask_claude exn_str json_dumps question a1
    = except_http_then_exception exn_str
        (match client (context (length B) (Nat.min 40 (length B))
                               (json_dumps shown40) question) with
         | Return answer =>
             (Return (mkAskResponse question answer (length B)
                                    (Nat.min 40 (length B))
                                    "claude-sonnet-4-20250514"), a1)
         | Raise e => (Raise e, a1)
         end) /\
    get_summary exn_str json_dumps a1
    = except_http_then_exception exn_str
        (match client (summary_prompt (json_dumps shown30) summary_question) with
         | Return answer =>
             (Return (mkSummaryResponse summary_question answer (length B)), a1)
         | Raise e => (Raise e, a1)
         end).
Proof.
  intros E Hds Hc Hq.
  pose proof (load_data_masks _ _ _ _ _ _ _ E Hds) as Hall.
  assert (Hlen : length (studies a1) = length B).
  { rewrite <- (Forall2_length _ _ _ Hall). symmetry.
    exact (Forall2_length _ _ _ Hds). }
  destruct (load_data_accepted _ _ _ _ _ _ _ E) as (HB & _ & Hc1 & _).
  rewrite Hc in Hc1.
  exists (snapshot (memory a1) (firstn 40 (studies a1))),
         (snapshot (memory a1) (firstn 30 (studies a1))).
  split; [exact (snapshot_masked _ _ _ _ _ _ _ 40 E Hds)|].
  split; [exact (snapshot_masked _ _ _ _ _ _ _ 30 E Hds)|].
  unfold ask_claude, get_summary. rewrite Hc1, Hq.
  destruct (studies a1) as [|r rs] eqn:Hs.
  { destruct B; [congruence|discriminate Hlen]. }
  rewrite <- Hs in *. clear Hs.
  change (slice_to (studies a1) 40) with (firstn 40 (studies a1)).
  change (slice_to (studies a1) 30) with (firstn 30 (studies a1)).
  rewrite length_firstn, Hlen. split; reflexivity.
Qed.

(** X11: in an answered listing, [total] is the size of the batch; for a
    limit that is not negative, [returned] is the number of studies listed;
    for a negative limit, [returned] is the limit itself, while the listing
    holds the batch without its last [-limit] studies. *)
Theorem listing_count limit condition a resp a' :
  get_studies exn_str limit condition a = (Return resp, a') ->
  a' = a /\
  sr_total resp = length (studies a) /\
  ((0 <= default 50%Z limit)%Z ->
   sr_returned resp = Z.of_nat (length (sr_studies resp))) /\
  ((default 50%Z limit < 0)%Z ->
   sr_returned resp = default 50%Z limit /\
   Z.of_nat (length (sr_studies resp))
   = Z.max 0 (Z.of_nat (length (studies a)) + default 50%Z limit)).
Proof.
  unfold get_studies.
  destruct (studies a) as [|r rs] eqn:Hs; [discriminate|].
  rewrite <- Hs. clear Hs. cbn [except_http_then_exception except_exception].
  intros [= <- <-]. cbn [sr_total sr_returned sr_studies].
  split; [reflexivity|]. split; [reflexivity|].
  unfold snapshot. rewrite length_map. split.
  - intros Hpos. symmetry. apply slice_to_length. exact Hpos.
  - intros Hneg. split; [lia|]. unfold slice_to.
    destruct (0 <=? default 50%Z limit)%Z eqn:Hle; [apply Z.leb_le in Hle; lia|].
    rewrite length_firstn. lia.
Qed.

End InMemoryExtras.

Lemma detokenize_after_load_witness :
  exists a2,
    FastapiBackend.detokenize_study no_text "NCT1"
      (FastapiBackend.load_data no_text "t1" "cancer" [0; 1]
         (FastapiBackend.start two_batches_heap None)).2
    = (Return (FastapiBackend.mkDetokenizeResponse
                 "NCT1" (<[flag := VBool false]> sample_study)), a2).
Proof.
  assert (E : FastapiBackend.load_data no_text "t1" "cancer" [0; 1]
                (FastapiBackend.start two_batches_heap None)
              = (Return (FastapiBackend.mkLoadResponse
                           "success" "Loaded 2 studies with Skyflow protection"
                           2 2),
                 (FastapiBackend.load_data no_text "t1" "cancer" [0; 1]
                    (FastapiBackend.start two_batches_heap None)).2))
    by (vm_compute; reflexivity).
  destruct (detokenize_after_load no_text "t1" "cancer" [0; 1]
              [{["nct_id" := VStr "A1"]}; sample_study]
              (FastapiBackend.start two_batches_heap None) _ _ "NCT1" 1
              sample_study E) as (a2 & Ea2 & _).
  - repeat constructor.
  - reflexivity.
  - reflexivity.
  - reflexivity.
  - intros [|j] dj Hj Hdj; [injection Hdj as <-; reflexivity|lia].
  - right. exists [VStr "Dr. Ada"; VStr "Dr. Bob"]. reflexivity.
  - left. reflexivity.
  - exists a2. exact Ea2.
Defined.

Lemma detokenize_unknown_id_witness :
  FastapiBackend.detokenize_study no_text "NCT9" loaded_sample
  = (Raise (HTTPException 404 ("Study " +:+ "NCT9" +:+ " not found")),
     loaded_sample) /\
  FastapiBackend.detokenize_study no_text EmptyString loaded_sample
  = (Raise (HTTPException 400 "No NCT ID provided"), loaded_sample).
Proof.
  assert (E : FastapiBackend.load_data no_text "t1" "cancer" [1]
                (FastapiBackend.start two_batches_heap (Some canned_client))
              = (Return (FastapiBackend.mkLoadResponse
                           "success" "Loaded 1 studies with Skyflow protection"
                           1 1),
                 loaded_sample))
    by (vm_compute; reflexivity).
  apply (detokenize_unknown_id no_text "t1" "cancer" [1] [sample_study]
           (FastapiBackend.start two_batches_heap (Some canned_client))
           _ loaded_sample "NCT9" E).
  - repeat constructor.
  - repeat constructor.
  - reflexivity.
Defined.

Lemma failed_load_keeps_batch_witness :
  let a := (FastapiBackend.load_data no_text "t1" "cancer" [0]
              (FastapiBackend.start failing_heap None)).2 in
  let r := FastapiBackend.load_data no_text "t2" "flu" [1; 2] a in
  (exists detail, r.1 = Raise (HTTPException 500 detail)) /\
  FastapiBackend.studies r.2 = FastapiBackend.studies a /\
  FastapiBackend.metadata_entry r.2 = FastapiBackend.metadata_entry a /\
  keeps (self (FastapiBackend.memory a)) (self (FastapiBackend.memory r.2)).
Proof.
  cbv zeta.
  assert (E : FastapiBackend.load_data no_text "t2" "flu" [1; 2]
                (FastapiBackend.load_data no_text "t1" "cancer" [0]
                   (FastapiBackend.start failing_heap None)).2
              = (Raise (HTTPException 500 EmptyString),
                 (FastapiBackend.load_data no_text "t2" "flu" [1; 2]
                    (FastapiBackend.load_data no_text "t1" "cancer" [0]
                       (FastapiBackend.start failing_heap None)).2).2))
    by (vm_compute; reflexivity).
  destruct (failed_load_keeps_batch no_text "t2" "flu" [1; 2] _ _ _ E)
    as (_ & Hs & Hm & _ & _ & K & _).
  split; [exists EmptyString; rewrite E; reflexivity|].
  split; [exact Hs|]. split; [exact Hm|exact K].
Defined.

Lemma stats_after_load_witness :
  let a1 := (FastapiBackend.load_data no_text "t1" "cancer" [0; 1]
               (FastapiBackend.start two_batches_heap None)).2 in
  FastapiBackend.ss_total (FastapiBackend.get_stats a1) = 2 /\
  FastapiBackend.ss_skyflow_protected (FastapiBackend.get_stats a1) = 2 /\
  Skyflow.total_tokens (FastapiBackend.ss_skyflow (FastapiBackend.get_stats a1))
  = 0 + sum_list (minted_for <$> [{["nct_id" := VStr "A1"]}; sample_study]).
Proof.
  cbv zeta.
  assert (E : FastapiBackend.load_data no_text "t1" "cancer" [0; 1]
                (FastapiBackend.start two_batches_heap None)
              = (Return (FastapiBackend.mkLoadResponse
                           "success" "Loaded 2 studies with Skyflow protection"
                           2 2),
                 (FastapiBackend.load_data no_text "t1" "cancer" [0; 1]
                    (FastapiBackend.start two_batches_heap None)).2))
    by (vm_compute; reflexivity).
  destruct (stats_after_load no_text "t1" "cancer" [0; 1]
              [{["nct_id" := VStr "A1"]}; sample_study]
              (FastapiBackend.start two_batches_heap None) _ _ E)
    as (Ht & Hp & _ & Hk & _).
  - repeat constructor.
  - split; [exact Ht|]. split; [exact Hp|exact Hk].
Defined.

Lemma prompts_show_masked_copies_witness :
  exists shown40 shown30,
    Forall2 (fun d d' => masked_copy d d' /\ tokenized_fields d d')
            (firstn 40 [sample_study]) shown40 /\
    Forall2 (fun d d' => masked_copy d d' /\ tokenized_fields d d')
            (firstn 30 [sample_study]) shown30 /\
    FastapiBackend.ask_claude no_text no_text "q" loaded_sample
    = FastapiBackend.except_http_then_exception no_text
        (match canned_client
                 (FastapiBackend.context (length [1]) (Nat.min 40 (length [1]))
                    (no_text shown40) "q") with
         | Return answer =>
             (Return (FastapiBackend.mkAskResponse
                        "q" answer (length [1]) (Nat.min 40 (length [1]))
                        "claude-sonnet-4-20250514"), loaded_sample)
         | Raise e => (Raise e, loaded_sample)
         end) /\
    FastapiBackend.get_summary no_text no_text loaded_sample
    = FastapiBackend.except_http_then_exception no_text
        (match canned_client
                 (FastapiBackend.summary_prompt (no_text shown30)
                    FastapiBackend.summary_question) with
         | Return answer =>
             (Return (FastapiBackend.mkSummaryResponse
                        FastapiBackend.summary_question answer (length [1])),
              loaded_sample)
         | Raise e => (Raise e, loaded_sample)
         end).
Proof.
  assert (E : FastapiBackend.load_data no_text "t1" "cancer" [1]
                (FastapiBackend.start two_batches_heap (Some canned_client))
              = (Return (FastapiBackend.mkLoadResponse
                           "success" "Loaded 1 studies with Skyflow protection"
                           1 1),
                 loaded_sample))
    by (vm_compute; reflexivity).
  apply (prompts_show_masked_copies no_text no_text "t1" "cancer" [1]
           [sample_study]
           (FastapiBackend.start two_batches_heap (Some canned_client))
           _ loaded_sample canned_client "q" E).
  - repeat constructor.
  - reflexivity.
  - reflexivity.
Defined.

Lemma listing_count_witness :
  let r := FastapiBackend.get_studies no_text (Some (-1)%Z) None loaded_sample in
  exists resp,
    r.1 = Return resp /\
    FastapiBackend.sr_returned resp = (-1)%Z /\
    Z.of_nat (length (FastapiBackend.sr_studies resp)) = 0%Z.
Proof.
  cbv zeta.
  assert (E : FastapiBackend.get_studies no_text (Some (-1)%Z) None loaded_sample
              = (Return (FastapiBackend.mkStudiesResponse 1 (-1) []),
                 loaded_sample))
    by (vm_compute; reflexivity).
  destruct (listing_count no_text (Some (-1)%Z) None loaded_sample _ _ E)
    as (_ & _ & _ & Hneg).
  destruct Hneg as [Hret Hlen]; [reflexivity|].
  eexists. split; [rewrite E; reflexivity|]. split; [exact Hret|exact Hlen].
Defined.

(** ** The cache-backed handlers around a load *)

Section CacheExtras.
Import FullTestBackend.

Variable exn_str : exn -> string.
Variable json_dumps : value -> string.
Variable format : value -> string.
Variable json_dumps_compact : value -> string.

Lemma trials_key_inj x y : "trials:" +:+ x = "trials:" +:+ y -> x = y.
Proof. apply (inj (String.app "trials:")). Qed.

Lemma trials_key_prefix x : String.prefix "trials:" ("trials:" +:+ x) = true.
Proof. cbv [String.app String.append]. simpl. apply prefix_empty. Qed.

(** The cache after an accepted [cache_data]. *)
Lemma cache_data_stored now condition records r client :
  records <> [] ->
  (cache_data exn_str now (cache_request condition records)
              (mkApp (Some r) client)).2
  = mkApp
      (Some (redis_expire "trials:metadata" 3600
               (redis_set "trials:metadata"
                  (VDict [("total_studies", VInt (Z.of_nat (length records)));
                          ("last_updated", VStr now);
                          ("condition", VStr condition)])
                  (redis_expire "trials:all" 3600
                     (redis_set "trials:all" (VList records)
                        (redis_expire ("trials:" +:+ lower condition) 3600
                           (redis_set ("trials:" +:+ lower condition)
                                      (VList records) r)))))))
      client.
Proof.
  intros Hne. unfold cache_data, cache_request. cbn [redis_client claude_client].
  rewrite lookup_insert_eq, lookup_insert_ne, lookup_singleton_eq by discriminate.
  cbn [default]. destruct records as [|x xs]; [congruence|]. reflexivity.
Qed.

Lemma get_studies_at condition limit key v r client :
  match condition with
  | Some c => if String.eqb c EmptyString then "trials:all"
              else "trials:" +:+ lower c
  | None => "trials:all"
  end = key ->
  redis_get key r = Some v ->
  get_studies exn_str condition limit (mkApp (Some r) client)
  = except_exception exn_str
      (match len v with
       | inl e => inl e
       | inr n =>
           match slice v (default 50%Z limit) with
           | inl e => inl e
           | inr part =>
               inr (mkResponse
                      (VDict [("total", VInt (Z.of_nat n));
                              ("returned", VInt (Z.min (Z.of_nat n)
                                                       (default 50%Z limit)));
                              ("studies", part);
                              ("source", VStr "Redis Cache")])
                      200)
           end
       end).
Proof.
  intros Hkey Hget. unfold get_studies. cbn [redis_client].
  rewrite Hkey, Hget. reflexivity.
Qed.

(** X12: after an accepted [cache_data] under a condition, the listing by
    that condition, written in any mix of upper and lower case, gives the
    first [limit] records of the batch, provided the condition is not
    [metadata] in lower case. *)
Theorem cached_by_condition now condition records r client c limit :
  records <> [] ->
  lower c = lower condition ->
  String.eqb c EmptyString = false ->
  lower condition <> "metadata" ->
  get_studies exn_str (Some c) limit
    (cache_data exn_str now (cache_request condition records)
                (mkApp (Some r) client)).2
  = mkResponse
      (VDict [("total", VInt (Z.of_nat (length records)));
              ("returned", VInt (Z.min (Z.of_nat (length records))
                                       (default 50%Z limit)));
              ("studies", VList (slice_to records (default 50%Z limit)));
              ("source", VStr "Redis Cache")])
      200.
Proof.
  intros Hne Hc Hc0 Hmeta. rewrite (cache_data_stored _ _ _ _ _ Hne).
  rewrite (get_studies_at (Some c) limit ("trials:" +:+ lower condition)
             (VList records)).
  - reflexivity.
  - rewrite Hc0, Hc. reflexivity.
  - rewrite redis_get_set_expire_ne
      by (intros H; apply trials_key_inj in H; congruence).
    destruct (decide ("trials:all" = "trials:" +:+ lower condition)) as [<-|Hall].
    + apply redis_get_set_expire.
    + rewrite redis_get_set_expire_ne by exact Hall.
      apply redis_get_set_expire.
Qed.

(** X13: the metadata entry shares the key space of the conditions: after
    any accepted [cache_data], the listing by the condition [metadata], in
    any case, reads the metadata entry as if it were a batch and answers
    with status 500; a batch cached under that condition is listed only
    without a condition. *)
Theorem metadata_condition_collision now condition records r client c limit :
  records <> [] ->
  lower c = "metadata" ->
  status_code
    (get_studies exn_str (Some c) limit
       (cache_data exn_str now (cache_request condition records)
                   (mkApp (Some r) client)).2) = 500 /\
  get_studies exn_str None limit
    (cache_data exn_str now (cache_request condition records)
                (mkApp (Some r) client)).2
  = mkResponse
      (VDict [("total", VInt (Z.of_nat (length records)));
              ("returned", VInt (Z.min (Z.of_nat (length records))
                                       (default 50%Z limit)));
              ("studies", VList (slice_to records (default 50%Z limit)));
              ("source", VStr "Redis Cache")])
      200.
Proof.
  intros Hne Hc. rewrite (cache_data_stored _ _ _ _ _ Hne). split.
  - assert (Hc0 : String.eqb c EmptyString = false).
    { destruct c; [discriminate Hc|reflexivity]. }
    rewrite (get_studies_at (Some c) limit "trials:metadata"
               (VDict [("total_studies", VInt (Z.of_nat (length records)));
                       ("last_updated", VStr now);
                       ("condition", VStr condition)])).
    + reflexivity.
    + rewrite Hc0, Hc. reflexivity.
    + apply redis_get_set_expire.
  - rewrite (get_studies_at None limit "trials:all" (VList records)).
    + reflexivity.
    + reflexivity.
    + rewrite redis_get_set_expire_ne by discriminate.
      apply redis_get_set_expire.
Qed.

(** X14: a batch cached under one condition stays listed under that
    condition after a batch was cached under another condition, while the
    listing without a condition gives the later batch. *)
Theorem earlier_condition_persists nowA cA A nowB cB B r client limit :
  A <> [] -> B <> [] ->
  lower cA <> lower cB ->
  lower cA <> "all" ->
  lower cA <> "metadata" ->
  String.eqb cA EmptyString = false ->
  get_studies exn_str (Some cA) limit
    (cache_data exn_str nowB (cache_request cB B)
       (cache_data exn_str nowA (cache_request cA A) (mkApp (Some r) client)).2).2
  = mkResponse
      (VDict [("total", VInt (Z.of_nat (length A)));
              ("returned", VInt (Z.min (Z.of_nat (length A))
                                       (default 50%Z limit)));
              ("studies", VList (slice_to A (default 50%Z limit)));
              ("source", VStr "Redis Cache")])
      200 /\
  get_studies exn_str None limit
    (cache_data exn_str nowB (cache_request cB B)
       (cache_data exn_str nowA (cache_request cA A) (mkApp (Some r) client)).2).2
  = mkResponse
      (VDict [("total", VInt (Z.of_nat (length B)));
              ("returned", VInt (Z.min (Z.of_nat (length B))
                                       (default 50%Z limit)));
              ("studies", VList (slice_to B (default 50%Z limit)));
              ("source", VStr "Redis Cache")])
      200.
Proof.
  intros HA HB Hne Hall Hmeta Hc0.
  rewrite (cache_data_stored _ _ _ _ _ HA), (cache_data_stored _ _ _ _ _ HB).
  assert (Kmeta : "trials:metadata" <> "trials:" +:+ lower cA)
    by (intros H; apply trials_key_inj in H; congruence).
  assert (Kall : "trials:all" <> "trials:" +:+ lower cA)
    by (intros H; apply trials_key_inj in H; congruence).
  assert (Kb : "trials:" +:+ lower cB <> "trials:" +:+ lower cA)
    by (intros H; apply trials_key_inj in H; congruence).
  split.
  - rewrite (get_studies_at (Some cA) limit ("trials:" +:+ lower cA) (VList A)).
    + reflexivity.
    + rewrite Hc0. reflexivity.
    + rewrite !redis_get_set_expire_ne by assumption.
      apply redis_get_set_expire.
  - rewrite (get_studies_at None limit "trials:all" (VList B)).
    + reflexivity.
    + reflexivity.
    + rewrite redis_get_set_expire_ne by discriminate.
      apply redis_get_set_expire.
Qed.

(** X15: an accepted [cache_data] writes three keys and no other: the key
    of the condition, [trials:all] and [trials:metadata]; each of them
    expires after 3600 seconds; the health check then shows the metadata
    of the batch. *)
Theorem cache_data_writes now condition records r client :
  records <> [] ->
  exists r',
    redis_client (cache_data exn_str now (cache_request condition records)
                             (mkApp (Some r) client)).2 = Some r' /\
    (forall key,
       key <> "trials:" +:+ lower condition ->
       key <> "trials:all" -> key <> "trials:metadata" ->
       r' !! key = r !! key) /\
    (forall key,
       key = "trials:" +:+ lower condition \/
       key = "trials:all" \/ key = "trials:metadata" ->
       ttl <$> r' !! key = Some (Some 3600)) /\
    body (health_check
            (cache_data exn_str now (cache_request condition records)
                        (mkApp (Some r) client)).2)
    = VDict [("status", VStr "active");
             ("redis", VStr "connected");
             ("claude", VStr (match client with
                              | Some _ => "ready"
                              | None => "not configured"
                              end));
             ("message", VStr "Clinical Trials API is running");
             ("data", VDict [("total_studies", VInt (Z.of_nat (length records)));
                             ("last_updated", VStr now);
                             ("condition", VStr condition)])].
Proof.
  intros Hne. rewrite (cache_data_stored _ _ _ _ _ Hne).
  eexists. split; [reflexivity|]. split; [|split].
  - intros key K1 K2 K3. unfold redis_expire, redis_set.
    repeat (rewrite lookup_alter_ne, lookup_insert_ne by congruence).
    reflexivity.
  - intros key Hkey. unfold redis_expire, redis_set.
    destruct (decide (key = "trials:metadata")) as [->|K3].
    { rewrite lookup_alter_eq, lookup_insert_eq. reflexivity. }
    rewrite lookup_alter_ne, lookup_insert_ne by congruence.
    destruct (decide (key = "trials:all")) as [->|K2].
    { rewrite lookup_alter_eq, lookup_insert_eq. reflexivity. }
    rewrite lookup_alter_ne, lookup_insert_ne by congruence.
    destruct Hkey as [->|[->| ->]]; [|congruence|congruence].
    rewrite lookup_alter_eq, lookup_insert_eq. reflexivity.
  - unfold health_check. cbn [redis_client claude_client body].
    rewrite redis_get_set_expire. reflexivity.
Qed.

Lemma filter_none {A} (p : A -> bool) (l : list A) :
  (forall x, In x l -> p x = false) -> List.filter p l = [].
Proof.
  induction l as [|a l IH]; intros H; simpl; [reflexivity|].
  rewrite (H a) by (left; reflexivity).
  apply IH. intros x Hx. apply H. right. exact Hx.
Qed.

Lemma lookup_redis_delete keys (r : redis) key :
  redis_delete keys r !! key
  = if decide (key ∈ keys) then None else r !! key.
Proof.
  unfold redis_delete. induction keys as [|k ks IH]; simpl.
  - destruct (decide (key ∈ [])) as [H|_]; [|reflexivity].
    apply elem_of_nil in H. destruct H.
  - destruct (decide (k = key)) as [->|Hne].
    + rewrite lookup_delete_eq.
      destruct (decide (key ∈ key :: ks)) as [_|H]; [reflexivity|].
      exfalso. apply H. left.
    + rewrite lookup_delete_ne by exact Hne. rewrite IH.
      destruct (decide (key ∈ ks)) as [Hin|Hout];
        destruct (decide (key ∈ k :: ks)) as [Hin'|Hout']; try reflexivity.
      * exfalso. apply Hout'. right. exact Hin.
      * exfalso. apply elem_of_cons in Hin' as [->|Hin']; [congruence|auto].
Qed.

Lemma elem_of_trial_keys (r : redis) key :
  key ∈ trial_keys r <->
  String.prefix "trials:" key = true /\ is_Some (r !! key).
Proof.
  unfold trial_keys. rewrite list_elem_of_In, filter_In, in_map_iff. split.
  - intros [([k e] & Hk & Hin) Hp]. simpl in Hk. subst k. split; [exact Hp|].
    apply list_elem_of_In, elem_of_map_to_list in Hin. eexists. exact Hin.
  - intros [Hp [e He]]. split; [|exact Hp]. exists (key, e).
    split; [reflexivity|]. apply list_elem_of_In, elem_of_map_to_list. exact He.
Qed.

(** The keys left by [r.delete] on the keys that start with [trials:]. *)
Lemma lookup_cleared (r : redis) key :
  redis_delete (trial_keys r) r !! key
  = if String.prefix "trials:" key then None else r !! key.
Proof.
  rewrite lookup_redis_delete.
  destruct (decide (key ∈ trial_keys r)) as [Hin|Hout].
  - apply elem_of_trial_keys in Hin as [-> _]. reflexivity.
  - destruct (String.prefix "trials:" key) eqn:Hp; [|reflexivity].
    destruct (r !! key) as [e|] eqn:He; [|reflexivity].
    exfalso. apply Hout, elem_of_trial_keys. split; [exact Hp|].
    eexists. exact He.
Qed.

Lemma trial_keys_cleared (r : redis) :
  trial_keys (redis_delete (trial_keys r) r) = [].
Proof.
  unfold trial_keys at 1. apply filter_none. intros key Hin.
  apply in_map_iff in Hin as ([k e] & Hk & Hin). simpl in Hk. subst k.
  apply list_elem_of_In, elem_of_map_to_list in Hin.
  rewrite lookup_cleared in Hin.
  destruct (String.prefix "trials:" key); [discriminate|reflexivity].
Qed.

(** The cache that [clear_cache] leaves. *)
Lemma clear_cache_state r client :
  (clear_cache (mkApp (Some r) client)).2
  = mkApp (Some (redis_delete (trial_keys r) r)) client.
Proof.
  unfold clear_cache. cbn [redis_client claude_client].
  destruct (trial_keys r) as [|k ks] eqn:Hk; reflexivity.
Qed.

(** X16: [clear_cache] removes exactly the keys that start with
    [trials:] and keeps every other key of the server; afterwards the
    listing, for any condition, and the question handler answer 404, and
    a second [clear_cache] finds the cache already empty and changes
    nothing. *)
Theorem clear_cache_effect r client :
  exists r',
    (clear_cache (mkApp (Some r) client)).2 = mkApp (Some r') client /\
    (forall key,
       r' !! key = if String.prefix "trials:" key then None else r !! key) /\
    (forall condition limit,
       get_studies exn_str condition limit (mkApp (Some r') client)
       = error_with_message "No cached data available"
                            "Use POST /api/cache to load data first" 404) /\
    (forall data question,
       is_Some client ->
       data !! "question" = Some question -> truthy question = true ->
       ask_claude exn_str json_dumps format data (mkApp (Some r') client)
       = error_with_message "No data in cache"
                            "Use POST /api/cache to load data first" 404) /\
    clear_cache (mkApp (Some r') client)
    = (mkResponse (VDict [("status", VStr "success");
                          ("message", VStr "Cache was already empty")])
                  200,
       mkApp (Some r') client).
Proof.
  exists (redis_delete (trial_keys r) r).
  split; [apply clear_cache_state|]. split; [apply lookup_cleared|].
  assert (Hnone : forall key, String.prefix "trials:" key = true ->
            redis_get key (redis_delete (trial_keys r) r) = None).
  { intros key Hp. unfold redis_get. rewrite lookup_cleared, Hp. reflexivity. }
  split; [|split].
  - intros condition limit. unfold get_studies. cbn [redis_client].
    rewrite Hnone; [reflexivity|].
    destruct condition as [c|]; [|reflexivity].
    destruct (String.eqb c EmptyString); [reflexivity|apply trials_key_prefix].
  - intros data question [c ->] Hq Ht. unfold ask_claude.
    cbn [redis_client claude_client]. rewrite Hq. cbn [default from_option id].
    rewrite Ht, Hnone by reflexivity. reflexivity.
  - unfold clear_cache. cbn [redis_client claude_client].
    rewrite trial_keys_cleared. reflexivity.
Qed.


End CacheExtras.

(** ** The cache manager *)

Section CacheManager.
Import FullTestBackend RedisCache.

(** X18: [cache_studies] followed by [get_studies] with the same
    condition, in any mix of upper and lower case, gives the studies back;
    the entry is written under the returned key with an expiry that is the
    given [ttl] when that is positive and the default of the instance
    otherwise, so never without expiry; no other key is written. *)
Theorem cache_studies_round_trip condition c studies seconds cache :
  lower c = lower condition ->
  0 < default_ttl cache ->
  RedisCache.get_studies c (cache_studies condition studies seconds cache).2
  = Some (VList studies) /\
  (cache_studies condition studies seconds cache).1
  = "trials:" +:+ lower condition /\
  (exists expiry,
     ttl <$> client (cache_studies condition studies seconds cache).2
               !! ("trials:" +:+ lower condition) = Some (Some expiry) /\
     0 < expiry /\
     expiry = match seconds with
              | Some (S n) => S n
              | _ => default_ttl cache
              end) /\
  (forall key,
     key <> "trials:" +:+ lower condition ->
     client (cache_studies condition studies seconds cache).2 !! key
     = client cache !! key) /\
  default_ttl (cache_studies condition studies seconds cache).2
  = default_ttl cache.
Proof.
  intros Hc Hpos. unfold RedisCache.get_studies, cache_studies, redis_set_ex,
    redis_get. cbn [fst snd client RedisCache.default_ttl].
  rewrite Hc, lookup_insert_eq.
  split; [reflexivity|]. split; [reflexivity|]. split; [|split].
  - eexists. split; [reflexivity|]. cbn [ttl]. split; [|reflexivity].
    unfold ttl_or_default. destruct seconds as [[|n]|]; lia.
  - intros key Hkey. apply lookup_insert_ne. congruence.
  - reflexivity.
Qed.

(** X19: after [clear_cache] of the cache manager, [get_studies] for any
    condition, [get_all_studies] and [get_metadata] return [None], whatever
    was cached before, and every key of the server that does not start
    with [trials:] is kept. *)
Theorem manager_clear_cache cache :
  (forall condition, RedisCache.get_studies condition (RedisCache.clear_cache cache) = None) /\
  get_all_studies (RedisCache.clear_cache cache) = None /\
  get_metadata (RedisCache.clear_cache cache) = None /\
  (forall key,
     String.prefix "trials:" key = false ->
     client (RedisCache.clear_cache cache) !! key = client cache !! key) /\
  default_ttl (RedisCache.clear_cache cache) = default_ttl cache.
Proof.
  assert (Hstate : client (RedisCache.clear_cache cache)
                   = redis_delete (trial_keys (client cache)) (client cache)).
  { unfold RedisCache.clear_cache.
    destruct (trial_keys (client cache)) as [|k ks]; reflexivity. }
  assert (Hnone : forall key, String.prefix "trials:" key = true ->
            redis_get key (client (RedisCache.clear_cache cache)) = None).
  { intros key Hp. unfold redis_get. rewrite Hstate, lookup_cleared, Hp.
    reflexivity. }
  split; [|split; [|split; [|split]]].
  - intros condition. apply Hnone. cbv [String.app String.append]. simpl.
    apply prefix_empty.
  - apply Hnone. reflexivity.
  - apply Hnone. reflexivity.
  - intros key Hp. rewrite Hstate, lookup_cleared, Hp. reflexivity.
  - unfold RedisCache.clear_cache.
    destruct (trial_keys (client cache)) as [|k ks]; reflexivity.
Qed.

End CacheManager.

Lemma cached_by_condition_witness :
  FullTestBackend.get_studies no_text (Some cafe_lower) (Some 1%Z)
    (FullTestBackend.cache_data no_text "t1"
       (cache_request cafe_upper (numbered_records 2))
       (FullTestBackend.mkApp (Some ∅) None)).2
  = FullTestBackend.mkResponse
      (VDict [("total", VInt (Z.of_nat (length (numbered_records 2))));
              ("returned", VInt (Z.min (Z.of_nat (length (numbered_records 2)))
                                       (default 50%Z (Some 1%Z))));
              ("studies", VList (slice_to (numbered_records 2)
                                          (default 50%Z (Some 1%Z))));
              ("source", VStr "Redis Cache")])
      200.
Proof.
  apply (cached_by_condition no_text "t1" cafe_upper (numbered_records 2) ∅ None
           cafe_lower (Some 1%Z)).
  - discriminate.
  - reflexivity.
  - reflexivity.
  - intros H. vm_compute in H. discriminate H.
Defined.

Lemma metadata_condition_collision_witness :
  FullTestBackend.status_code
    (FullTestBackend.get_studies no_text (Some "MetaData") None
       (FullTestBackend.cache_data no_text "t1"
          (cache_request "metadata" (numbered_records 2))
          (FullTestBackend.mkApp (Some ∅) None)).2) = 500 /\
  FullTestBackend.get_studies no_text None None
    (FullTestBackend.cache_data no_text "t1"
       (cache_request "metadata" (numbered_records 2))
       (FullTestBackend.mkApp (Some ∅) None)).2
  = FullTestBackend.mkResponse
      (VDict [("total", VInt (Z.of_nat (length (numbered_records 2))));
              ("returned", VInt (Z.min (Z.of_nat (length (numbered_records 2)))
                                       (default 50%Z None)));
              ("studies", VList (slice_to (numbered_records 2)
                                          (default 50%Z None)));
              ("source", VStr "Redis Cache")])
      200.
Proof.
  apply (metadata_condition_collision no_text "t1" "metadata"
           (numbered_records 2) ∅ None "MetaData" None).
  - discriminate.
  - reflexivity.
Defined.

Lemma earlier_condition_persists_witness :
  FullTestBackend.get_studies no_text (Some "cancer") None
    (FullTestBackend.cache_data no_text "t2"
       (cache_request "Flu" (numbered_records 1))
       (FullTestBackend.cache_data no_text "t1"
          (cache_request "Cancer" (numbered_records 2))
          (FullTestBackend.mkApp (Some ∅) None)).2).2
  = FullTestBackend.mkResponse
      (VDict [("total", VInt (Z.of_nat (length (numbered_records 2))));
              ("returned", VInt (Z.min (Z.of_nat (length (numbered_records 2)))
                                       (default 50%Z None)));
              ("studies", VList (slice_to (numbered_records 2)
                                          (default 50%Z None)));
              ("source", VStr "Redis Cache")])
      200.
Proof.
  refine (proj1 (earlier_condition_persists no_text "t1" "Cancer"
                   (numbered_records 2) "t2" "Flu" (numbered_records 1)
                   ∅ None None _ _ _ _ _ _)).
  - discriminate.
  - discriminate.
  - discriminate.
  - discriminate.
  - discriminate.
  - reflexivity.
Defined.

Lemma cache_data_writes_witness :
  exists r',
    FullTestBackend.redis_client
      (FullTestBackend.cache_data no_text "t1"
         (cache_request "Cancer" (numbered_records 2))
         (FullTestBackend.mkApp (Some ∅) None)).2 = Some r' /\
    FullTestBackend.ttl <$> r' !! "trials:cancer" = Some (Some 3600) /\
    r' !! "other" = None.
Proof.
  destruct (cache_data_writes no_text "t1" "Cancer" (numbered_records 2) ∅ None)
    as (r' & Hr' & Hframe & Httl & _).
  - discriminate.
  - exists r'. split; [exact Hr'|]. split.
    + apply (Httl "trials:cancer"). left. reflexivity.
    + rewrite (Hframe "other") by discriminate. reflexivity.
Defined.


Lemma cache_studies_round_trip_witness :
  RedisCache.get_studies cafe_lower
    (RedisCache.cache_studies cafe_upper [VInt 1] (Some 0) (RedisCache.init ∅)).2
  = Some (VList [VInt 1]) /\
  (RedisCache.cache_studies cafe_upper [VInt 1] (Some 0) (RedisCache.init ∅)).1
  = "trials:" +:+ cafe_lower /\
  FullTestBackend.ttl
    <$> RedisCache.client
          (RedisCache.cache_studies cafe_upper [VInt 1] (Some 0)
             (RedisCache.init ∅)).2 !! ("trials:" +:+ cafe_lower)
  = Some (Some 3600).
Proof.
  destruct (cache_studies_round_trip cafe_upper cafe_lower [VInt 1] (Some 0)
              (RedisCache.init ∅))
    as (Hget & Hkey & (expiry & Hexp & _ & ->) & _).
  - reflexivity.
  - simpl. lia.
  - split; [exact Hget|]. split; [exact Hkey|exact Hexp].
Defined.

(** ** Load, list and ask in both variants *)

Lemma app_string_assoc (s t u : string) : (s +:+ t) +:+ u = s +:+ (t +:+ u).
Proof.
  induction s as [|a s IH]; [reflexivity|].
  change (String a ((s +:+ t) +:+ u) = String a (s +:+ (t +:+ u))).
  f_equal. exact IH.
Qed.

(** A text that mentions two numbers, a serialization and a question, in
    that order, is the serialization between a text of the numbers and a
    text of the question. *)
Lemma prompt_parts (A st B sa C data D q E : string) :
  A +:+ st +:+ B +:+ sa +:+ C +:+ data +:+ D +:+ q +:+ E
  = (A +:+ st +:+ B +:+ sa +:+ C) +:+ data +:+ (D +:+ q +:+ E).
Proof. rewrite !app_string_assoc. reflexivity. Qed.

(** The prompts of [ask_claude] hold the serialized sample between a text
    that depends on the two counts only and a text that depends on the
    question only. *)
Lemma in_memory_context_parts :
  exists (pre : nat -> nat -> string) (post : string -> string),
    forall total analyzed data question,
      FastapiBackend.context total analyzed data question
      = pre total analyzed +:+ data +:+ post question.
Proof.
  refine (ex_intro _ (fun t n => _ +:+ str_of_nat t +:+ _ +:+ str_of_nat n +:+ _)
            (ex_intro _ (fun q => _ +:+ q +:+ _) _)).
  intros total analyzed data question. unfold FastapiBackend.context.
  apply prompt_parts.
Qed.

Lemma cached_context_parts :
  exists (pre : nat -> nat -> string) (post : string -> string),
    forall total analyzed data question,
      FullTestBackend.context total analyzed data question
      = pre total analyzed +:+ data +:+ post question.
Proof.
  refine (ex_intro _ (fun t n => _ +:+ str_of_nat t +:+ _ +:+ str_of_nat n +:+ _)
            (ex_intro _ (fun q => _ +:+ q +:+ _) _)).
  intros total analyzed data question. unfold FullTestBackend.context.
  apply prompt_parts.
Qed.

(** C4 (amended): after two accepted loads of batches [A] then [B], the
    current batch is the one stored by the load of [B] and holds nothing of
    [A].  In the in-memory variant it is the list of masked copies of the
    studies of [B], in the order of [B], each a new dictionary that is none
    of those stored for [A]: a copy carries the flag, has its designated
    fields tokenized (a truthy [lead_sponsor] is a tag, a truthy
    [investigators] or [sites] is a list of tags, one for each item; an
    absent field is absent and a value that is not truthy is kept) and
    equals the study in every other field.  In the cache-backed variant the
    current batch is [B] itself.  Listing returns the first [limit] records
    of it in that order (50 when no limit is given), hence all of them when
    [limit] is at least the size of [B]. *)
Theorem load_replaces_batch :
  (forall exn_str nowA cA A rA nowB cB B rB a a1 a2 limit condition,
     FastapiBackend.load_data exn_str nowA cA A a = (Return rA, a1) ->
     FastapiBackend.load_data exn_str nowB cB B a1 = (Return rB, a2) ->
     let stored := FastapiBackend.studies a2 in
     let stop := default 50%Z limit in
     length stored = length B /\
     Forall2 (fun b r =>
                heap (FastapiBackend.memory a1) !! r = None /\
                exists d', heap (FastapiBackend.memory a2) !! r = Some d' /\
                  forall d, heap (FastapiBackend.memory a1) !! b = Some d ->
                            masked_copy d d' /\ tokenized_fields d d')
             B stored /\
     Forall (fun r => r ∉ FastapiBackend.studies a1) stored /\
     FastapiBackend.get_studies exn_str limit condition a2
     = (Return (FastapiBackend.mkStudiesResponse
                  (length B)
                  (Z.min (Z.of_nat (length B)) stop)
                  (FastapiBackend.snapshot (FastapiBackend.memory a2)
                                           (slice_to stored stop))),
        a2) /\
     ((Z.of_nat (length B) <= stop)%Z -> slice_to stored stop = stored)) /\
  (forall exn_str nowA cA A nowB cB B r client limit,
     A <> [] -> B <> [] ->
     let a0 := FullTestBackend.mkApp (Some r) client in
     let loadA := FullTestBackend.cache_data exn_str nowA
                    (cache_request cA A) a0 in
     let loadB := FullTestBackend.cache_data exn_str nowB
                    (cache_request cB B) loadA.2 in
     let stop := default 50%Z limit in
     FullTestBackend.status_code loadA.1 = 200 /\
     FullTestBackend.status_code loadB.1 = 200 /\
     FullTestBackend.get_studies exn_str None limit loadB.2
     = FullTestBackend.mkResponse
         (VDict [("total", VInt (Z.of_nat (length B)));
                 ("returned", VInt (Z.min (Z.of_nat (length B)) stop));
                 ("studies", VList (slice_to B stop));
                 ("source", VStr "Redis Cache")])
         200 /\
     ((Z.of_nat (length B) <= stop)%Z -> slice_to B stop = B)).
Proof.
  split.
  - intros exn_str nowA cA A rA nowB cB B rB a a1 a2 limit condition EA EB.
    destruct (second_load_replaces _ _ _ _ _ _ _ _ _ _ _ _ EA EB)
      as (HB & Hlen & Hall & Hnone).
    destruct (load_data_accepted _ _ _ _ _ _ _ EB) as (_ & TB & _).
    unfold Skyflow.tokenize_batch in TB.
    destruct (tokenize_loop_masks _ _ _ _ _ TB) as (new & Hnew & Hmasks).
    simpl in Hnew. subst new.
    cbv zeta. split; [exact Hlen|]. split.
    { apply Forall2_same_length_lookup_2; [eapply Forall2_length, Hall|].
      intros i b r Hb Hr.
      destruct (Forall2_lookup_lr _ _ _ _ _ _ Hall Hb Hr)
        as (Hfresh & d' & Hd' & Hcopy).
      pose proof (Forall2_lookup_lr _ _ _ _ _ _ Hmasks Hb Hr) as Hm.
      split; [exact Hfresh|]. exists d'. split; [exact Hd'|].
      intros d Hd. split; [exact (Hcopy d Hd)|].
      destruct (Hm d Hd) as (d'' & s & s' & Hd'' & Em & _).
      rewrite Hd' in Hd''. injection Hd'' as <-.
      exact (mask_dict_tokenized _ _ _ _ Em). }
    split; [exact Hnone|]. split.
    + rewrite get_studies_stored, Hlen; [reflexivity|].
      intros Hnil. rewrite Hnil in Hlen. destruct B; [congruence|discriminate].
    + intros Hstop. apply slice_to_all. rewrite Hlen. exact Hstop.
  - intros exn_str nowA cA A nowB cB B r client limit HA HB. cbv zeta.
    destruct (cache_data_accepted exn_str nowA cA A r client HA)
      as (r1 & -> & _).
    cbn [fst snd].
    destruct (cache_data_accepted exn_str nowB cB B r1 client HB)
      as (r2 & -> & Hget).
    cbn [fst snd FullTestBackend.status_code].
    split; [reflexivity|]. split; [reflexivity|]. split.
    + apply get_studies_cached, Hget.
    + apply slice_to_all.
Qed.

Lemma load_replaces_batch_witness :
  let a := FastapiBackend.start two_batches_heap None in
  let loadA := FastapiBackend.load_data no_text "t1" "cancer" [0] a in
  let loadB := FastapiBackend.load_data no_text "t2" "asthma" [1] loadA.2 in
  let c := (FullTestBackend.cache_data no_text "t2"
              (cache_request "asthma" (numbered_records 2))
              (FullTestBackend.cache_data no_text "t1"
                 (cache_request "cancer" (numbered_records 1))
                 (FullTestBackend.mkApp (Some ∅) None)).2).2 in
  (length (FastapiBackend.studies loadB.2) = 1 /\
   Forall (fun r => r ∉ FastapiBackend.studies loadA.2)
          (FastapiBackend.studies loadB.2)) /\
  FullTestBackend.get_studies no_text None None c
  = FullTestBackend.mkResponse
      (VDict [("total", VInt 2);
              ("returned", VInt 2);
              ("studies", VList (numbered_records 2));
              ("source", VStr "Redis Cache")])
      200.
Proof.
  cbv zeta. split.
  - assert (EA : FastapiBackend.load_data no_text "t1" "cancer" [0]
                   (FastapiBackend.start two_batches_heap None)
                 = (Return (FastapiBackend.mkLoadResponse "success"
                              "Loaded 1 studies with Skyflow protection" 1 1),
                    (FastapiBackend.load_data no_text "t1" "cancer" [0]
                       (FastapiBackend.start two_batches_heap None)).2))
      by (vm_compute; reflexivity).
    assert (EB : FastapiBackend.load_data no_text "t2" "asthma" [1]
                   (FastapiBackend.load_data no_text "t1" "cancer" [0]
                      (FastapiBackend.start two_batches_heap None)).2
                 = (Return (FastapiBackend.mkLoadResponse "success"
                              "Loaded 1 studies with Skyflow protection" 1 1),
                    (FastapiBackend.load_data no_text "t2" "asthma" [1]
                       (FastapiBackend.load_data no_text "t1" "cancer" [0]
                          (FastapiBackend.start two_batches_heap None)).2).2))
      by (vm_compute; reflexivity).
    destruct (proj1 load_replaces_batch no_text _ _ _ _ _ _ _ _ _ _ _
                    None None EA EB) as (Hlen & _ & Hnone & _).
    split; [exact Hlen|exact Hnone].
  - refine (proj1 (proj2 (proj2 (proj2 load_replaces_batch no_text
              "t1" "cancer" (numbered_records 1)
              "t2" "asthma" (numbered_records 2) ∅ None None _ _)))).
    + discriminate.
    + discriminate.
Defined.

(** C4, as stated, fails.  In the cache-backed variant a listing without a
    limit returns 50 of the 51 records of the second batch.  In the
    in-memory variant the listing returns a masked copy, which differs from
    the record that was loaded. *)
Lemma listing_is_not_the_loaded_batch :
  let B := numbered_records 51 in
  let c := (FullTestBackend.cache_data no_text "t2" (cache_request "asthma" B)
             (FullTestBackend.cache_data no_text "t1" (cache_request "cancer" (numbered_records 1))
                (FullTestBackend.mkApp (Some ∅) None)).2).2 in
  let a := FastapiBackend.start two_batches_heap None in
  let a1 := (FastapiBackend.load_data no_text "t1" "cancer" [0] a).2 in
  let a2 := (FastapiBackend.load_data no_text "t2" "asthma" [1] a1).2 in
  (exists part,
     FullTestBackend.body (FullTestBackend.get_studies no_text None None c)
     = VDict [("total", VInt 51); ("returned", VInt 50);
              ("studies", VList part); ("source", VStr "Redis Cache")] /\
     length part = 50 /\ length B = 51) /\
  (exists d',
     (FastapiBackend.get_studies no_text None None a2).1
     = Return (FastapiBackend.mkStudiesResponse 1 1 [d']) /\
     d' !! "lead_sponsor" = Some (VStr "[TOKENIZED:sky_000001]") /\
     d' !! flag = Some (VBool true) /\
     sample_study !! "lead_sponsor" = Some (VStr "Acme Health") /\
     sample_study !! flag = None).
Proof.
  cbv zeta. split.
  - eexists. split; [vm_compute; reflexivity|].
    split; vm_compute; reflexivity.
  - eexists. split; [vm_compute; reflexivity|].
    repeat split; vm_compute; reflexivity.
Qed.

(** C5: with the collaborator configured, a non-empty question and a loaded
    batch, the prompt sent to the collaborator is the serialization of the
    first 40 records of the current batch, in load order (all of them when
    the batch is smaller), between a text that depends on the size of the
    batch and of the sample only and a text that depends on the question
    only: no other record enters the prompt.  When the collaborator
    answers, the response reports the size of the whole batch as total and
    [min 40 size] as analyzed; when it fails, the handler answers with the
    error. *)
Theorem ask_sample_cap :
  (exists (pre : nat -> nat -> string) (post : string -> string),
     forall exn_str json_dumps question a client,
       FastapiBackend.claude_client a = Some client ->
       String.eqb question EmptyString = false ->
       0 < length (FastapiBackend.studies a) ->
       let stored := FastapiBackend.studies a in
       let sample := firstn 40 stored in
       let data :=
         json_dumps (FastapiBackend.snapshot (FastapiBackend.memory a) sample) in
       let prompt :=
         pre (length stored) (length sample) +:+ data +:+ post question in
       length sample = Nat.min 40 (length stored) /\
       FastapiBackend.context (length stored) (length sample) data question
       = prompt /\
       FastapiBackend.ask_claude exn_str json_dumps question a
       = FastapiBackend.except_http_then_exception exn_str
           (match client prompt with
            | Return answer =>
                (Return (FastapiBackend.mkAskResponse
                           question answer (length stored)
                           (Nat.min 40 (length stored))
                           "claude-sonnet-4-20250514"), a)
            | Raise e => (Raise e, a)
            end)) /\
  (exists (pre : nat -> nat -> string) (post : string -> string),
     forall exn_str json_dumps format data question records r client,
       data !! "question" = Some question ->
       truthy question = true ->
       FullTestBackend.redis_get "trials:all" r = Some (VList records) ->
       let sample := firstn 40 records in
       let prompt :=
         pre (length records) (length sample)
         +:+ json_dumps (VList sample) +:+ post (format question) in
       length sample = Nat.min 40 (length records) /\
       FullTestBackend.context (length records) (length sample)
                               (json_dumps (VList sample)) (format question)
       = prompt /\
       FullTestBackend.ask_claude exn_str json_dumps format data
         (FullTestBackend.mkApp (Some r) (Some client))
       = match client prompt with
         | Return answer =>
             FullTestBackend.mkResponse
               (VDict [("question", question);
                       ("answer", VStr answer);
                       ("total_studies", VInt (Z.of_nat (length records)));
                       ("analyzed_studies",
                        VInt (Z.of_nat (Nat.min 40 (length records))));
                       ("model", VStr "claude-sonnet-4-20250514");
                       ("data_source", VStr "Redis Cache")])
               200
         | Raise e => FullTestBackend.error (exn_str e) 500
         end).
Proof.
  split.
  - destruct in_memory_context_parts as (pre & post & Hparts).
    exists pre, post.
    intros exn_str json_dumps question a client Hc Hq Hn. cbv zeta.
    split; [apply length_firstn|]. split; [apply Hparts|].
    rewrite <- Hparts. unfold FastapiBackend.ask_claude. rewrite Hc, Hq.
    destruct (FastapiBackend.studies a) as [|r rs] eqn:Hs; [simpl in Hn; lia|].
    rewrite <- Hs in *. clear Hs.
    change (slice_to (FastapiBackend.studies a) 40)
      with (firstn 40 (FastapiBackend.studies a)).
    rewrite length_firstn. reflexivity.
  - destruct cached_context_parts as (pre & post & Hparts).
    exists pre, post.
    intros exn_str json_dumps format data question records r client
      Hq Ht Hget. cbv zeta.
    split; [apply length_firstn|]. split; [apply Hparts|].
    rewrite <- Hparts. unfold FullTestBackend.ask_claude.
    cbn [FullTestBackend.redis_client FullTestBackend.claude_client].
    rewrite Hq. cbn [default from_option id].
    rewrite Ht, Hget. cbn [negb FullTestBackend.len FullTestBackend.slice].
    change (slice_to records 40) with (firstn 40 records).
    rewrite length_firstn.
    destruct (client _) as [answer|e]; reflexivity.
Qed.

(** The sample cap on a batch of 100 records, in both variants. *)
Lemma ask_sample_cap_witness :
  let a := FastapiBackend.mkApp (mkMem (numbered_heap 100) Skyflow.init)
                                (seq 0 100) None (Some canned_client) in
  let r := FullTestBackend.redis_set "trials:all" (VList (numbered_records 100)) ∅ in
  FastapiBackend.ask_claude no_text no_text "Which trials recruit?" a
  = (Return (FastapiBackend.mkAskResponse
               "Which trials recruit?" "ok" 100 40 "claude-sonnet-4-20250514"), a) /\
  FullTestBackend.ask_claude no_text no_text no_text
    {["question" := VStr "Which trials recruit?"]}
    (FullTestBackend.mkApp (Some r) (Some canned_client))
  = FullTestBackend.mkResponse
      (VDict [("question", VStr "Which trials recruit?");
              ("answer", VStr "ok");
              ("total_studies", VInt 100);
              ("analyzed_studies", VInt 40);
              ("model", VStr "claude-sonnet-4-20250514");
              ("data_source", VStr "Redis Cache")])
      200.
Proof.
  cbv zeta. split.
  - destruct (proj1 ask_sample_cap) as (pre & post & H).
    destruct (H no_text no_text "Which trials recruit?"
                (FastapiBackend.mkApp (mkMem (numbered_heap 100) Skyflow.init)
                                      (seq 0 100) None (Some canned_client))
                canned_client) as (_ & _ & E).
    + reflexivity.
    + reflexivity.
    + vm_compute. lia.
    + exact E.
  - destruct (proj2 ask_sample_cap) as (pre & post & H).
    destruct (H no_text no_text no_text
                {["question" := VStr "Which trials recruit?"]}
                (VStr "Which trials recruit?")
                (numbered_records 100)
                (FullTestBackend.redis_set "trials:all"
                   (VList (numbered_records 100)) ∅)
                canned_client) as (_ & _ & E).
    + reflexivity.
    + reflexivity.
    + reflexivity.
    + exact E.
Defined.
